(** * A shallow embedding of the GTK fragment: search entry, IME context,
      Win32 surface backend

    The development follows the C units of the repository:

    - [Ime]: the input-method context of [gtkimcontextime.c]
      (dead keys, commit, key filtering);
    - [Win32Surface]: the surface backend that follows it in the same file
      (modal stack, style bits, AeroSnap, scale factor);
    - [SearchEntry]: the widget of [gtksearchentry.c]
      (delegation to the inner text widget, delayed search-changed).

    C integers are embedded as [Z]; the bit operators [&], [|] and [~] are
    [Z.land], [Z.lor] and [Z.lnot], which agree with two's complement on
    every width; C's integer division is [Z.quot].  Where a statement
    rests on the value of a sum, a difference or a product (the geometry
    of dragging, the shadow margins), the operators are those of [CInt],
    which wrap around at 32 bits.  Functions that mutate
    an object take the old record and return the new one; a signal
    emission or a call into the window system is recorded as an event of
    the returned trace.  Functions of GLib, GDK and Win32 that the
    repository calls but does not define are the methods of a class
    ([GLibUnicode], ...), so that every statement holds for whatever these
    functions compute.  The handlers that a program connects to the
    signals of the search entry are such a class too ([Handlers]): they
    run inside [g_signal_emit].

    The first part of the file holds the embedding, the second part the
    statements and their proofs. *)

From stdpp Require Import base numbers list gmap strings.
From Stdlib Require Import ZArith Lia Bool QArith Qround.

Local Open Scope Z_scope.

(** * Part I: the embedding *)

(** ** Constants of headers that are not part of the source tree

    The numeric values below are those of the public headers the C files
    include ([gdk/gdkkeysyms.h], [gdk/gdkenums.h]); the C code only names
    them. *)
Module GdkKeysyms.

Definition GDK_KEY_space : Z := 0x020.
Definition GDK_KEY_dead_grave : Z := 0xfe50.
Definition GDK_KEY_dead_acute : Z := 0xfe51.
Definition GDK_KEY_dead_circumflex : Z := 0xfe52.
Definition GDK_KEY_dead_tilde : Z := 0xfe53.
Definition GDK_KEY_dead_macron : Z := 0xfe54.
Definition GDK_KEY_dead_breve : Z := 0xfe55.
Definition GDK_KEY_dead_abovedot : Z := 0xfe56.
Definition GDK_KEY_dead_diaeresis : Z := 0xfe57.
Definition GDK_KEY_dead_abovering : Z := 0xfe58.
Definition GDK_KEY_dead_doubleacute : Z := 0xfe59.
Definition GDK_KEY_dead_caron : Z := 0xfe5a.
Definition GDK_KEY_dead_cedilla : Z := 0xfe5b.
Definition GDK_KEY_dead_ogonek : Z := 0xfe5c.
Definition GDK_KEY_dead_iota : Z := 0xfe5d.
Definition GDK_KEY_dead_belowdot : Z := 0xfe60.
Definition GDK_KEY_dead_hook : Z := 0xfe61.
Definition GDK_KEY_dead_horn : Z := 0xfe62.
Definition GDK_KEY_dead_abovecomma : Z := 0xfe64.
Definition GDK_KEY_dead_abovereversedcomma : Z := 0xfe65.
Definition GDK_KEY_dead_dasia : Z := 0xfe65.

Definition GDK_CONTROL_MASK : Z := Z.shiftl 1 2.
Definition GDK_ALT_MASK : Z := Z.shiftl 1 3.

End GdkKeysyms.

(** ** The input-method context *)
Module Ime.
Import GdkKeysyms.

(** [IS_DEAD_KEY(k)]:
    [(k) >= GDK_KEY_dead_grave && (k) <= (GDK_KEY_dead_dasia+1)]. *)
Definition IS_DEAD_KEY (k : Z) : bool :=
  (GDK_KEY_dead_grave <=? k) && (k <=? GDK_KEY_dead_dasia + 1).

(** The fields of [GtkIMContextIME] and of its private part that the key
    filter reads or writes.  [client_surface] is a nullable pointer. *)
Record GtkIMContextIME : Type := {
  client_surface : option positive;
  focus : bool;
  dead_key_keyval : Z
}.

Definition set_dead_key_keyval (k : Z) (c : GtkIMContextIME) : GtkIMContextIME :=
  {| client_surface := client_surface c;
     focus := focus c;
     dead_key_keyval := k |}.

Inductive GdkEventType : Type := GDK_KEY_PRESS | GDK_KEY_RELEASE.

(** What the accessors [gdk_event_get_event_type],
    [gdk_event_get_modifier_state],
    [gdk_key_event_get_consumed_modifiers] and [gdk_key_event_get_keyval]
    return for a key event. *)
Record GdkEvent : Type := {
  event_type : GdkEventType;
  modifier_state : Z;
  consumed_modifiers : Z;
  keyval : Z
}.

(** A signal emitted on the context: ["commit"] with its string argument,
    as the bytes of the C string. *)
Inductive signal : Type := Commit (utf8 : list Z).

(** The C string that starts at the beginning of a buffer: the bytes
    before the first NUL. *)
Fixpoint c_string (buf : list Z) : list Z :=
  match buf with
  | [] => []
  | b :: rest => if b =? 0 then [] else b :: c_string rest
  end.

(** [_gtk_im_context_ime_dead_key_unichar]: the [switch] over the dead-key
    symbols, one line per [CASE]. *)
Definition _gtk_im_context_ime_dead_key_unichar (keyval : Z) (spacing : bool) : Z :=
  let CASE (unicode spacing_unicode : Z) := if spacing then spacing_unicode else unicode in
  if keyval =? GDK_KEY_dead_grave then CASE 0x0300 0x0060
  else if keyval =? GDK_KEY_dead_acute then CASE 0x0301 0x00b4
  else if keyval =? GDK_KEY_dead_circumflex then CASE 0x0302 0x005e
  else if keyval =? GDK_KEY_dead_tilde then CASE 0x0303 0x007e
  else if keyval =? GDK_KEY_dead_macron then CASE 0x0304 0x00af
  else if keyval =? GDK_KEY_dead_breve then CASE 0x0306 0x02d8
  else if keyval =? GDK_KEY_dead_abovedot then CASE 0x0307 0x02d9
  else if keyval =? GDK_KEY_dead_diaeresis then CASE 0x0308 0x00a8
  else if keyval =? GDK_KEY_dead_hook then CASE 0x0309 0
  else if keyval =? GDK_KEY_dead_abovering then CASE 0x030A 0x02da
  else if keyval =? GDK_KEY_dead_doubleacute then CASE 0x030B 0x2dd
  else if keyval =? GDK_KEY_dead_caron then CASE 0x030C 0x02c7
  else if keyval =? GDK_KEY_dead_abovecomma then CASE 0x0313 0
  else if keyval =? GDK_KEY_dead_abovereversedcomma then CASE 0x0314 0
  else if keyval =? GDK_KEY_dead_horn then CASE 0x031B 0
  else if keyval =? GDK_KEY_dead_belowdot then CASE 0x0323 0
  else if keyval =? GDK_KEY_dead_cedilla then CASE 0x0327 0x00b8
  else if keyval =? GDK_KEY_dead_ogonek then CASE 0x0328 0
  else if keyval =? GDK_KEY_dead_iota then CASE 0x0345 0
  else 0.

(** The library functions the key filter calls: [gdk_keyval_to_unicode],
    [g_unichar_iscntrl]; [g_unichar_compose] as the value it stores
    through its third argument (the code ignores its return value);
    [g_unichar_to_utf8] as the bytes it writes, whose number it
    returns. *)
Class GLibUnicode : Type := {
  gdk_keyval_to_unicode : Z -> Z;
  g_unichar_iscntrl : Z -> bool;
  g_unichar_compose : Z -> Z -> Z;
  g_unichar_to_utf8 : Z -> list Z
}.

Section WithGLib.
Context `{GLibUnicode}.

(** The string handed to the ["commit"] signal for the character [c]:
    [len = g_unichar_to_utf8 (c, utf8); utf8[len] = 0;]. *)
Definition commit_string (c : Z) : list Z :=
  c_string (g_unichar_to_utf8 c ++ [0]).

(** [_gtk_im_context_ime_commit_unichar]: the context after the call and
    the signal emitted. *)
Definition _gtk_im_context_ime_commit_unichar
    (context_ime : GtkIMContextIME) (c : Z) : GtkIMContextIME * list signal :=
  let c :=
    if negb (dead_key_keyval context_ime =? 0) then
      let combining :=
        _gtk_im_context_ime_dead_key_unichar (dead_key_keyval context_ime) false in
      g_unichar_compose c combining
    else c in
  (set_dead_key_keyval 0 context_ime, [Commit (commit_string c)]).

(** [gtk_im_context_ime_filter_keypress].  The result is the returned
    [gboolean], the context after the call and the signals emitted during
    it, oldest first.  [None] is a [NULL] event. *)
Definition gtk_im_context_ime_filter_keypress
    (context : GtkIMContextIME) (event : option GdkEvent)
    : bool * GtkIMContextIME * list signal :=
  match event with
  | None => (false, context, [])
  | Some event =>
    match event_type event with
    | GDK_KEY_RELEASE => (false, context, [])
    | GDK_KEY_PRESS =>
      let no_text_input_mask := Z.lor GDK_ALT_MASK GDK_CONTROL_MASK in
      let state := modifier_state event in
      let consumed := consumed_modifiers event in
      if negb (Z.land (Z.land state no_text_input_mask) (Z.lnot consumed) =? 0)
      then (false, context, [])
      else if negb (focus context) then (false, context, [])
      else match client_surface context with
      | None => (false, context, [])
      | Some _ =>
        let keyval := keyval event in
        if (keyval =? GDK_KEY_space) && negb (dead_key_keyval context =? 0) then
          let c := _gtk_im_context_ime_dead_key_unichar (dead_key_keyval context) true in
          let context := set_dead_key_keyval 0 context in
          let '(context, sigs) := _gtk_im_context_ime_commit_unichar context c in
          (true, context, sigs)
        else
          let c := gdk_keyval_to_unicode keyval in
          if negb (c =? 0) && negb (g_unichar_iscntrl c) then
            let '(context, sigs) := _gtk_im_context_ime_commit_unichar context c in
            (true, context, sigs)
          else if IS_DEAD_KEY keyval then
            let dead_key := _gtk_im_context_ime_dead_key_unichar keyval false in
            if negb (dead_key =? 0) && (keyval =? dead_key_keyval context) then
              let c := _gtk_im_context_ime_dead_key_unichar (dead_key_keyval context) true in
              let context := set_dead_key_keyval 0 context in
              let '(context, sigs1) := _gtk_im_context_ime_commit_unichar context c in
              let '(context, sigs2) := _gtk_im_context_ime_commit_unichar context c in
              (false, context, sigs1 ++ sigs2)
            else (false, set_dead_key_keyval keyval context, [])
          else (false, context, [])
      end
    end
  end.

(** The modifiers of an event that forbid text input and were not
    consumed: [state & no_text_input_mask & ~consumed_modifiers]. *)
Definition unconsumed_no_text_input (event : GdkEvent) : Z :=
  Z.land (Z.land (modifier_state event) (Z.lor GDK_ALT_MASK GDK_CONTROL_MASK))
         (Z.lnot (consumed_modifiers event)).

End WithGLib.

(** *** A concrete instance of the library functions

    Used to run the filter on concrete key presses.  The UTF-8 encoder
    follows the algorithm of [g_unichar_to_utf8]; control characters are
    those of the Unicode category Cc; [gdk_keyval_to_unicode] is given
    for the symbols it maps directly (Latin-1 and the symbols that encode
    a code point) and yields 0 for the others; composition knows a few
    Latin letters and stores 0 for every other pair. *)
Definition utf8_len_first (c : Z) : nat * Z :=
  if c <? 0x80 then (1%nat, 0)
  else if c <? 0x800 then (2%nat, 0xc0)
  else if c <? 0x10000 then (3%nat, 0xe0)
  else if c <? 0x200000 then (4%nat, 0xf0)
  else if c <? 0x4000000 then (5%nat, 0xf8)
  else (6%nat, 0xfc).

Fixpoint utf8_tail (n : nat) (c : Z) (acc : list Z) : Z * list Z :=
  match n with
  | O => (c, acc)
  | S n => utf8_tail n (Z.shiftr c 6) (Z.lor (Z.land c 0x3f) 0x80 :: acc)
  end.

Definition utf8_encode (c : Z) : list Z :=
  let '(len, first) := utf8_len_first c in
  let '(c, tail) := utf8_tail (Nat.pred len) c [] in
  Z.lor c first :: tail.

Definition keyval_to_unicode_direct (keyval : Z) : Z :=
  if ((0x0020 <=? keyval) && (keyval <=? 0x007e))
     || ((0x00a0 <=? keyval) && (keyval <=? 0x00ff)) then keyval
  else if Z.land keyval 0xff000000 =? 0x01000000 then Z.land keyval 0x00ffffff
  else 0.

Definition unichar_iscntrl_Cc (c : Z) : bool :=
  ((0 <=? c) && (c <? 0x20)) || ((0x7f <=? c) && (c <=? 0x9f)).

Definition unichar_compose_latin (a b : Z) : Z :=
  if (a =? 0x65) && (b =? 0x0301) then 0xe9
  else if (a =? 0x61) && (b =? 0x0300) then 0xe0
  else if (a =? 0x6f) && (b =? 0x0302) then 0xf4
  else 0.

Definition glib_unicode_instance : GLibUnicode := {|
  gdk_keyval_to_unicode := keyval_to_unicode_direct;
  g_unichar_iscntrl := unichar_iscntrl_Cc;
  g_unichar_compose := unichar_compose_latin;
  g_unichar_to_utf8 := utf8_encode
|}.

(** A context that has the focus and a client surface, with the pending
    dead key [dk]; a press of the key [k] without modifiers. *)
Definition focused (dk : Z) : GtkIMContextIME :=
  {| client_surface := Some 1%positive; focus := true; dead_key_keyval := dk |}.

Definition press (k : Z) : GdkEvent :=
  {| event_type := GDK_KEY_PRESS; modifier_state := 0;
     consumed_modifiers := 0; keyval := k |}.

End Ime.

(** ** Constants of the Windows and GDK headers

    [WS_*], [WS_EX_*], [SWP_*] and [LWA_ALPHA] are the values of
    [<winuser.h>]; the [GDK_*] flags are those of [gdk/gdktoplevel.h],
    [gdk/gdkenums.h] and [gdk/win32/gdksurface-win32.h].  The C code only
    names them. *)
Module WinUser.

Definition WS_MAXIMIZEBOX : Z := 0x00010000.
Definition WS_MINIMIZEBOX : Z := 0x00020000.
Definition WS_THICKFRAME : Z := 0x00040000.
Definition WS_SYSMENU : Z := 0x00080000.
Definition WS_BORDER : Z := 0x00800000.
Definition WS_CAPTION : Z := 0x00C00000.

Definition WS_EX_TOPMOST : Z := 0x00000008.
Definition WS_EX_TRANSPARENT : Z := 0x00000020.
Definition WS_EX_TOOLWINDOW : Z := 0x00000080.
Definition WS_EX_LAYERED : Z := 0x00080000.

Definition SWP_NOSIZE : Z := 0x0001.
Definition SWP_NOMOVE : Z := 0x0002.
Definition SWP_NOZORDER : Z := 0x0004.
Definition SWP_NOACTIVATE : Z := 0x0010.
Definition SWP_FRAMECHANGED : Z := 0x0020.
Definition SWP_NOREPOSITION : Z := 0x0200.

Definition LWA_ALPHA : Z := 0x00000002.

Definition GDK_TOPLEVEL_STATE_MINIMIZED : Z := Z.shiftl 1 0.
Definition GDK_TOPLEVEL_STATE_MAXIMIZED : Z := Z.shiftl 1 1.
Definition GDK_TOPLEVEL_STATE_FULLSCREEN : Z := Z.shiftl 1 3.

Definition GDK_DECOR_ALL : Z := Z.shiftl 1 0.
Definition GDK_DECOR_BORDER : Z := Z.shiftl 1 1.
Definition GDK_DECOR_RESIZEH : Z := Z.shiftl 1 2.
Definition GDK_DECOR_TITLE : Z := Z.shiftl 1 3.
Definition GDK_DECOR_MENU : Z := Z.shiftl 1 4.
Definition GDK_DECOR_MINIMIZE : Z := Z.shiftl 1 5.
Definition GDK_DECOR_MAXIMIZE : Z := Z.shiftl 1 6.

Definition GDK_HINT_MIN_SIZE : Z := Z.shiftl 1 1.
Definition GDK_HINT_MAX_SIZE : Z := Z.shiftl 1 2.

End WinUser.

(** ** The Win32 surface backend *)

(** The Win32 [RECT]. *)
Module RECT.
Record t : Type := { left : Z; top : Z; right : Z; bottom : Z }.
End RECT.

Module GdkRectangle.
Record t : Type := { x : Z; y : Z; width : Z; height : Z }.
End GdkRectangle.

(** The size hints of [GdkGeometry] that the backend compares. *)
Module GdkGeometry.
Record t : Type := {
  min_width : Z; min_height : Z; max_width : Z; max_height : Z
}.
End GdkGeometry.

(** The arithmetic of C's [double] that the snapping code uses: the
    conversions from and to [int], the four operations, [>], [round ()]
    of [<math.h>] and the literals [1.0] and [0.001]. *)
Class DoubleArith : Type := {
  double : Type;
  d_of_int : Z -> double;
  d_to_int : double -> Z;
  d_add : double -> double -> double;
  d_sub : double -> double -> double;
  d_mul : double -> double -> double;
  d_div : double -> double -> double;
  d_gt : double -> double -> bool;
  round : double -> double;
  d_1_0 : double;
  d_0_001 : double
}.

Module GdkRectangleDouble.
Section WithDouble.
Context {double_arith : DoubleArith}.
Record t : Type := { x : double; y : double; width : double; height : double }.
End WithDouble.
End GdkRectangleDouble.

Module Win32Surface.
Import WinUser.

Inductive GdkWin32AeroSnapState : Type :=
| GDK_WIN32_AEROSNAP_STATE_UNDETERMINED
| GDK_WIN32_AEROSNAP_STATE_MAXIMIZE
| GDK_WIN32_AEROSNAP_STATE_HALFLEFT
| GDK_WIN32_AEROSNAP_STATE_HALFRIGHT
| GDK_WIN32_AEROSNAP_STATE_FULLUP.

Inductive GdkWin32AeroSnapCombo : Type :=
| GDK_WIN32_AEROSNAP_COMBO_NOTHING
| GDK_WIN32_AEROSNAP_COMBO_UP
| GDK_WIN32_AEROSNAP_COMBO_DOWN
| GDK_WIN32_AEROSNAP_COMBO_LEFT
| GDK_WIN32_AEROSNAP_COMBO_RIGHT
| GDK_WIN32_AEROSNAP_COMBO_SHIFTUP
| GDK_WIN32_AEROSNAP_COMBO_SHIFTDOWN
| GDK_WIN32_AEROSNAP_COMBO_SHIFTLEFT
| GDK_WIN32_AEROSNAP_COMBO_SHIFTRIGHT.

(** The three GObject types registered for surfaces, which
    [GDK_IS_TOPLEVEL] and [GDK_IS_DRAG_SURFACE] tell apart. *)
Inductive GdkSurfaceType : Type :=
| GDK_WIN32_TOPLEVEL
| GDK_WIN32_POPUP
| GDK_WIN32_DRAG_SURFACE.

Definition GDK_IS_TOPLEVEL (t : GdkSurfaceType) : bool :=
  match t with GDK_WIN32_TOPLEVEL => true | _ => false end.

Definition GDK_IS_DRAG_SURFACE (t : GdkSurfaceType) : bool :=
  match t with GDK_WIN32_DRAG_SURFACE => true | _ => false end.

Inductive GWL : Type := GWL_STYLE | GWL_EXSTYLE.

(** The [hWndInsertAfter] values the file passes to [SetWindowPos]. *)
Inductive HWND_insert_after : Type :=
| HWND_TOPMOST
| HWND_NOTOPMOST
| SWP_NOZORDER_SPECIFIED.

Inductive SW : Type := SW_MINIMIZE | SW_MAXIMIZE | SW_RESTORE.

(** A call that leaves the file: into the window system, or into the
    core of GDK. *)
Inductive call : Type :=
| SetWindowPos (insert_after : HWND_insert_after) (X Y cx cy : Z) (uFlags : Z)
| SetWindowLong (nIndex : GWL) (dwNewLong : Z)
| SetLayeredWindowAttributes (crKey bAlpha dwFlags : Z)
| UpdateLayeredWindow (position_x position_y size_cx size_cy : Z)
| ShowWindow (nCmdShow : SW)
| SetActiveWindow_other
| gdk_surface_request_layout
| gdk_synthesize_surface_state (unset_flags set_flags : Z)
| g_message (text : string).

(** The calls that moving or resizing a window makes. *)
Definition is_move_call (c : call) : Prop :=
  match c with
  | SetWindowPos _ _ _ _ _ _ | gdk_surface_request_layout => True
  | _ => False
  end.

Section WithDouble.
Context {double_arith : DoubleArith}.

(** The fields of [GdkSurface] and [GdkWin32Surface] that the modelled
    functions read or write.  [gl_paint_context_uses_es] stands for
    [surface->gl_paint_context != NULL &&
    gdk_gl_context_get_use_es (surface->gl_paint_context)]. *)
Record GdkWin32Surface : Type := {
  surface_type : GdkSurfaceType;
  destroyed : bool;
  is_mapped : bool;
  state : Z;
  x : Z;
  width : Z;
  height : Z;
  resize_count : Z;
  gl_paint_context_uses_es : bool;
  egl_force_redraw_all : bool;
  decorate_all : bool;
  hint_flags : Z;
  hints : GdkGeometry.t;
  surface_scale : Z;
  shadow : RECT.t;
  shadow_x : Z;
  shadow_y : Z;
  snap_state : GdkWin32AeroSnapState;
  snap_stash : option GdkRectangleDouble.t;
  snap_stash_int : option GdkRectangle.t;
  inhibit_configure : bool;
  force_recompute_size : bool;
  maximizing : bool
}.

Definition set_state (v : Z) (s : GdkWin32Surface) : GdkWin32Surface :=
  {| surface_type := surface_type s;
     destroyed := destroyed s;
     is_mapped := is_mapped s;
     state := v;
     x := x s;
     width := width s;
     height := height s;
     resize_count := resize_count s;
     gl_paint_context_uses_es := gl_paint_context_uses_es s;
     egl_force_redraw_all := egl_force_redraw_all s;
     decorate_all := decorate_all s;
     hint_flags := hint_flags s;
     hints := hints s;
     surface_scale := surface_scale s;
     shadow := shadow s;
     shadow_x := shadow_x s;
     shadow_y := shadow_y s;
     snap_state := snap_state s;
     snap_stash := snap_stash s;
     snap_stash_int := snap_stash_int s;
     inhibit_configure := inhibit_configure s;
     force_recompute_size := force_recompute_size s;
     maximizing := maximizing s |}.

Definition set_resize_count (v : Z) (s : GdkWin32Surface) : GdkWin32Surface :=
  {| surface_type := surface_type s;
     destroyed := destroyed s;
     is_mapped := is_mapped s;
     state := state s;
     x := x s;
     width := width s;
     height := height s;
     resize_count := v;
     gl_paint_context_uses_es := gl_paint_context_uses_es s;
     egl_force_redraw_all := egl_force_redraw_all s;
     decorate_all := decorate_all s;
     hint_flags := hint_flags s;
     hints := hints s;
     surface_scale := surface_scale s;
     shadow := shadow s;
     shadow_x := shadow_x s;
     shadow_y := shadow_y s;
     snap_state := snap_state s;
     snap_stash := snap_stash s;
     snap_stash_int := snap_stash_int s;
     inhibit_configure := inhibit_configure s;
     force_recompute_size := force_recompute_size s;
     maximizing := maximizing s |}.

Definition set_egl_force_redraw_all (v : bool) (s : GdkWin32Surface) : GdkWin32Surface :=
  {| surface_type := surface_type s;
     destroyed := destroyed s;
     is_mapped := is_mapped s;
     state := state s;
     x := x s;
     width := width s;
     height := height s;
     resize_count := resize_count s;
     gl_paint_context_uses_es := gl_paint_context_uses_es s;
     egl_force_redraw_all := v;
     decorate_all := decorate_all s;
     hint_flags := hint_flags s;
     hints := hints s;
     surface_scale := surface_scale s;
     shadow := shadow s;
     shadow_x := shadow_x s;
     shadow_y := shadow_y s;
     snap_state := snap_state s;
     snap_stash := snap_stash s;
     snap_stash_int := snap_stash_int s;
     inhibit_configure := inhibit_configure s;
     force_recompute_size := force_recompute_size s;
     maximizing := maximizing s |}.

Definition set_surface_scale (v : Z) (s : GdkWin32Surface) : GdkWin32Surface :=
  {| surface_type := surface_type s;
     destroyed := destroyed s;
     is_mapped := is_mapped s;
     state := state s;
     x := x s;
     width := width s;
     height := height s;
     resize_count := resize_count s;
     gl_paint_context_uses_es := gl_paint_context_uses_es s;
     egl_force_redraw_all := egl_force_redraw_all s;
     decorate_all := decorate_all s;
     hint_flags := hint_flags s;
     hints := hints s;
     surface_scale := v;
     shadow := shadow s;
     shadow_x := shadow_x s;
     shadow_y := shadow_y s;
     snap_state := snap_state s;
     snap_stash := snap_stash s;
     snap_stash_int := snap_stash_int s;
     inhibit_configure := inhibit_configure s;
     force_recompute_size := force_recompute_size s;
     maximizing := maximizing s |}.

Definition set_snap_state (v : GdkWin32AeroSnapState) (s : GdkWin32Surface) : GdkWin32Surface :=
  {| surface_type := surface_type s;
     destroyed := destroyed s;
     is_mapped := is_mapped s;
     state := state s;
     x := x s;
     width := width s;
     height := height s;
     resize_count := resize_count s;
     gl_paint_context_uses_es := gl_paint_context_uses_es s;
     egl_force_redraw_all := egl_force_redraw_all s;
     decorate_all := decorate_all s;
     hint_flags := hint_flags s;
     hints := hints s;
     surface_scale := surface_scale s;
     shadow := shadow s;
     shadow_x := shadow_x s;
     shadow_y := shadow_y s;
     snap_state := v;
     snap_stash := snap_stash s;
     snap_stash_int := snap_stash_int s;
     inhibit_configure := inhibit_configure s;
     force_recompute_size := force_recompute_size s;
     maximizing := maximizing s |}.

Definition set_snap_stash (v : option GdkRectangleDouble.t) (s : GdkWin32Surface) : GdkWin32Surface :=
  {| surface_type := surface_type s;
     destroyed := destroyed s;
     is_mapped := is_mapped s;
     state := state s;
     x := x s;
     width := width s;
     height := height s;
     resize_count := resize_count s;
     gl_paint_context_uses_es := gl_paint_context_uses_es s;
     egl_force_redraw_all := egl_force_redraw_all s;
     decorate_all := decorate_all s;
     hint_flags := hint_flags s;
     hints := hints s;
     surface_scale := surface_scale s;
     shadow := shadow s;
     shadow_x := shadow_x s;
     shadow_y := shadow_y s;
     snap_state := snap_state s;
     snap_stash := v;
     snap_stash_int := snap_stash_int s;
     inhibit_configure := inhibit_configure s;
     force_recompute_size := force_recompute_size s;
     maximizing := maximizing s |}.

Definition set_snap_stash_int (v : option GdkRectangle.t) (s : GdkWin32Surface) : GdkWin32Surface :=
  {| surface_type := surface_type s;
     destroyed := destroyed s;
     is_mapped := is_mapped s;
     state := state s;
     x := x s;
     width := width s;
     height := height s;
     resize_count := resize_count s;
     gl_paint_context_uses_es := gl_paint_context_uses_es s;
     egl_force_redraw_all := egl_force_redraw_all s;
     decorate_all := decorate_all s;
     hint_flags := hint_flags s;
     hints := hints s;
     surface_scale := surface_scale s;
     shadow := shadow s;
     shadow_x := shadow_x s;
     shadow_y := shadow_y s;
     snap_state := snap_state s;
     snap_stash := snap_stash s;
     snap_stash_int := v;
     inhibit_configure := inhibit_configure s;
     force_recompute_size := force_recompute_size s;
     maximizing := maximizing s |}.

Definition set_inhibit_configure (v : bool) (s : GdkWin32Surface) : GdkWin32Surface :=
  {| surface_type := surface_type s;
     destroyed := destroyed s;
     is_mapped := is_mapped s;
     state := state s;
     x := x s;
     width := width s;
     height := height s;
     resize_count := resize_count s;
     gl_paint_context_uses_es := gl_paint_context_uses_es s;
     egl_force_redraw_all := egl_force_redraw_all s;
     decorate_all := decorate_all s;
     hint_flags := hint_flags s;
     hints := hints s;
     surface_scale := surface_scale s;
     shadow := shadow s;
     shadow_x := shadow_x s;
     shadow_y := shadow_y s;
     snap_state := snap_state s;
     snap_stash := snap_stash s;
     snap_stash_int := snap_stash_int s;
     inhibit_configure := v;
     force_recompute_size := force_recompute_size s;
     maximizing := maximizing s |}.

Definition set_force_recompute_size (v : bool) (s : GdkWin32Surface) : GdkWin32Surface :=
  {| surface_type := surface_type s;
     destroyed := destroyed s;
     is_mapped := is_mapped s;
     state := state s;
     x := x s;
     width := width s;
     height := height s;
     resize_count := resize_count s;
     gl_paint_context_uses_es := gl_paint_context_uses_es s;
     egl_force_redraw_all := egl_force_redraw_all s;
     decorate_all := decorate_all s;
     hint_flags := hint_flags s;
     hints := hints s;
     surface_scale := surface_scale s;
     shadow := shadow s;
     shadow_x := shadow_x s;
     shadow_y := shadow_y s;
     snap_state := snap_state s;
     snap_stash := snap_stash s;
     snap_stash_int := snap_stash_int s;
     inhibit_configure := inhibit_configure s;
     force_recompute_size := v;
     maximizing := maximizing s |}.

Definition set_maximizing (v : bool) (s : GdkWin32Surface) : GdkWin32Surface :=
  {| surface_type := surface_type s;
     destroyed := destroyed s;
     is_mapped := is_mapped s;
     state := state s;
     x := x s;
     width := width s;
     height := height s;
     resize_count := resize_count s;
     gl_paint_context_uses_es := gl_paint_context_uses_es s;
     egl_force_redraw_all := egl_force_redraw_all s;
     decorate_all := decorate_all s;
     hint_flags := hint_flags s;
     hints := hints s;
     surface_scale := surface_scale s;
     shadow := shadow s;
     shadow_x := shadow_x s;
     shadow_y := shadow_y s;
     snap_state := snap_state s;
     snap_stash := snap_stash s;
     snap_stash_int := snap_stash_int s;
     inhibit_configure := inhibit_configure s;
     force_recompute_size := force_recompute_size s;
     maximizing := v |}.

(** [GdkWin32Display], as far as the scale factor reads it. *)
Inductive PROCESS_DPI_AWARENESS : Type :=
| PROCESS_DPI_UNAWARE
| PROCESS_SYSTEM_DPI_AWARE
| PROCESS_PER_MONITOR_DPI_AWARE.

Record GdkWin32Display : Type := {
  dpi_aware_type : PROCESS_DPI_AWARENESS;
  has_fixed_scale : bool;
  display_surface_scale : Z
}.

(** The state the functions of the file work on: the surface, the calls
    made so far (oldest first) and the function-local static
    [hidpi_msg_displayed] of [_gdk_win32_surface_get_scale_factor]. *)
Record World : Type := {
  impl : GdkWin32Surface;
  calls : list call;
  hidpi_msg_displayed : bool
}.

(** What the window system and the rest of GDK answer.  An answer may
    depend on the calls made before the question is asked.
    [GetWindowPlacement] gives [rcNormalPosition], [GetMonitorInfoA] the
    pair of [rcMonitor] and [rcWork] of the monitor nearest to the window;
    both are [None] when the call fails.  [modal_move_resize] tells whether
    the window is [_modal_move_resize_window], [active_window_is_self]
    whether [GetActiveWindow ()] is the window of the surface. *)
Class Win32Api : Type := {
  GetWindowLong : list call -> GWL -> Z;
  GetClientRect : list call -> RECT.t;
  GetWindowRect : list call -> RECT.t;
  AdjustWindowRectEx : RECT.t -> Z -> Z -> RECT.t;
  GetWindowPlacement : list call -> option RECT.t;
  GetMonitorInfoA : list call -> option (RECT.t * RECT.t);
  GetSystemMetrics_SM_CYVIRTUALSCREEN : list call -> Z;
  IsWindowVisible : list call -> bool;
  active_window_is_self : list call -> bool;
  modal_move_resize : list call -> bool;
  gdk_win32_monitor_get_workarea : option positive -> GdkRectangle.t;
  gdk_display_get_monitors : list positive;
  gdk_display_get_monitor_at_surface : list call -> positive;
  gdk_win32_display_get_primary_monitor : positive -> option positive;
  gdk_win32_display_get_monitor_scale_factor : GdkWin32Display -> list call -> Z
}.

(** The state monad over [World]. *)
Definition Gdk (A : Type) : Type := World -> A * World.

#[global] Instance Gdk_ret : MRet Gdk := fun A (a : A) (w : World) => (a, w).

#[global] Instance Gdk_bind : MBind Gdk :=
  fun A B (k : A -> Gdk B) (m : Gdk A) (w : World) => let '(a, w') := m w in k a w'.

Definition get_impl : Gdk GdkWin32Surface := fun w => (impl w, w).

Definition history : Gdk (list call) := fun w => (calls w, w).

Definition modify (f : GdkWin32Surface -> GdkWin32Surface) : Gdk unit :=
  fun w => (tt, {| impl := f (impl w); calls := calls w;
                   hidpi_msg_displayed := hidpi_msg_displayed w |}).

Definition emit (c : call) : Gdk unit :=
  fun w => (tt, {| impl := impl w; calls := calls w ++ [c];
                   hidpi_msg_displayed := hidpi_msg_displayed w |}).

Definition skip : Gdk unit := mret tt.

Section WithWin32.
Context {win32 : Win32Api}.

(** *** Moving and resizing *)

(** [_gdk_win32_adjust_client_rect]. *)
Definition _gdk_win32_adjust_client_rect (rect : RECT.t) : Gdk RECT.t :=
  h ← history;
  let style := GetWindowLong h GWL_STYLE in
  let exstyle := GetWindowLong h GWL_EXSTYLE in
  mret (AdjustWindowRectEx rect style exstyle).

(** [get_outer_rect]. *)
Definition get_outer_rect (width height : Z) : Gdk RECT.t :=
  impl ← get_impl;
  _gdk_win32_adjust_client_rect
    {| RECT.left := 0; RECT.top := 0;
       RECT.right := width * surface_scale impl;
       RECT.bottom := height * surface_scale impl |}.

Definition fullscreen (s : GdkWin32Surface) : bool :=
  negb (Z.land (state s) GDK_TOPLEVEL_STATE_FULLSCREEN =? 0).

(** [gdk_win32_surface_do_move]. *)
Definition gdk_win32_surface_do_move (x y : Z) : Gdk unit :=
  window ← get_impl;
  if destroyed window then skip
  else if fullscreen window then skip
  else
    outer_rect ← get_outer_rect (width window) (height window);
    impl ← get_impl;
    emit (SetWindowPos SWP_NOZORDER_SPECIFIED
            (x * surface_scale impl) (y * surface_scale impl) 0 0
            (Z.lor (Z.lor SWP_NOACTIVATE SWP_NOSIZE) SWP_NOZORDER)).

(** [gdk_win32_surface_resize]. *)
Definition gdk_win32_surface_resize (width height : Z) : Gdk unit :=
  surface ← get_impl;
  if destroyed surface then skip
  else
    let width := if width <? 1 then 1 else width in
    let height := if height <? 1 then 1 else height in
    if fullscreen surface then skip
    else
      outer_rect ← get_outer_rect width height;
      emit (SetWindowPos SWP_NOZORDER_SPECIFIED 0 0
              (RECT.right outer_rect - RECT.left outer_rect)
              (RECT.bottom outer_rect - RECT.top outer_rect)
              (Z.lor (Z.lor SWP_NOACTIVATE SWP_NOMOVE) SWP_NOZORDER));;
      modify (fun s => set_resize_count (resize_count s + 1) s);;
      surface ← get_impl;
      if negb (force_recompute_size surface) then emit gdk_surface_request_layout
      else skip.

(** [gdk_win32_surface_do_move_resize]. *)
Definition gdk_win32_surface_do_move_resize (x y width height : Z) : Gdk unit :=
  window ← get_impl;
  if destroyed window then skip
  else
    let width := if width <? 1 then 1 else width in
    let height := if height <? 1 then 1 else height in
    if fullscreen window then skip
    else
      outer_rect ← get_outer_rect width height;
      impl ← get_impl;
      emit (SetWindowPos SWP_NOZORDER_SPECIFIED
              (x * surface_scale impl) (y * surface_scale impl)
              (RECT.right outer_rect - RECT.left outer_rect)
              (RECT.bottom outer_rect - RECT.top outer_rect)
              (Z.lor SWP_NOACTIVATE SWP_NOZORDER)).

(** [_gdk_win32_surface_invalidate_egl_framebuffer]. *)
Definition _gdk_win32_surface_invalidate_egl_framebuffer : Gdk unit :=
  surface ← get_impl;
  if gl_paint_context_uses_es surface then modify (set_egl_force_redraw_all true)
  else skip.

(** [gdk_win32_surface_move_resize_internal]. *)
Definition gdk_win32_surface_move_resize_internal
    (with_move : bool) (x y width height : Z) : Gdk unit :=
  h ← history;
  (if modal_move_resize h then skip
   else if with_move && ((width <? 0) && (height <? 0)) then
     gdk_win32_surface_do_move x y
   else
     _gdk_win32_surface_invalidate_egl_framebuffer;;
     if with_move then gdk_win32_surface_do_move_resize x y width height
     else gdk_win32_surface_resize width height);;
  emit gdk_surface_request_layout.

(** [gdk_win32_surface_move_resize]. *)
Definition gdk_win32_surface_move_resize (x y width height : Z) : Gdk unit :=
  gdk_win32_surface_move_resize_internal true x y width height.

(** *** Setting window states *)

(** [gdk_synthesize_surface_state] of the core of GDK, which replaces the
    state of the surface by [(state | set_flags) & ~unset_flags]. *)
Definition synthesize_surface_state (unset_flags set_flags : Z) : Gdk unit :=
  emit (gdk_synthesize_surface_state unset_flags set_flags);;
  modify (fun s =>
    set_state (Z.land (Z.lor (state s) set_flags) (Z.lnot unset_flags)) s).

(** [GtkShowWindow], for the three commands the file passes to it. *)
Definition GtkShowWindow (cmd_show : SW) : Gdk unit :=
  h ← history;
  match cmd_show with
  | SW_MINIMIZE => skip
  | SW_MAXIMIZE | SW_RESTORE =>
    if IsWindowVisible h then skip
    else
      let window_rect := GetWindowRect h in
      emit (UpdateLayeredWindow
              (RECT.left window_rect) (RECT.top window_rect)
              (RECT.right window_rect - RECT.left window_rect)
              (RECT.bottom window_rect - RECT.top window_rect))
  end;;
  match cmd_show with
  | SW_MAXIMIZE => modify (set_maximizing true)
  | _ => skip
  end;;
  emit (ShowWindow cmd_show).

(** [gdk_win32_surface_minimize]. *)
Definition gdk_win32_surface_minimize : Gdk unit :=
  window ← get_impl;
  if destroyed window then skip
  else if is_mapped window then
    h ← history;
    let old_active_window_is_self := active_window_is_self h in
    GtkShowWindow SW_MINIMIZE;;
    if negb old_active_window_is_self then emit SetActiveWindow_other else skip
  else synthesize_surface_state 0 GDK_TOPLEVEL_STATE_MINIMIZED.

(** [gdk_win32_surface_maximize]. *)
Definition gdk_win32_surface_maximize : Gdk unit :=
  surface ← get_impl;
  if destroyed surface then skip
  else
    modify (set_inhibit_configure true);;
    modify (set_force_recompute_size false);;
    if is_mapped surface then GtkShowWindow SW_MAXIMIZE
    else synthesize_surface_state 0 GDK_TOPLEVEL_STATE_MAXIMIZED.

(** [gdk_win32_surface_unmaximize]. *)
Definition gdk_win32_surface_unmaximize : Gdk unit :=
  surface ← get_impl;
  if destroyed surface then skip
  else
    _gdk_win32_surface_invalidate_egl_framebuffer;;
    (if is_mapped surface then GtkShowWindow SW_RESTORE
     else synthesize_surface_state GDK_TOPLEVEL_STATE_MAXIMIZED 0);;
    impl ← get_impl;
    if inhibit_configure impl then
      modify (set_inhibit_configure false);;
      modify (set_force_recompute_size true)
    else skip.

(** *** AeroSnap *)

(** [g_clear_pointer] on both stashes. *)
Definition clear_snap_stashes : Gdk unit :=
  modify (set_snap_stash None);;
  modify (set_snap_stash_int None).

(** [discard_snapinfo]. *)
Definition discard_snapinfo : Gdk unit :=
  modify (set_snap_state GDK_WIN32_AEROSNAP_STATE_UNDETERMINED);;
  impl ← get_impl;
  match snap_stash impl with
  | None => skip
  | Some _ => clear_snap_stashes
  end.

(** The rectangle [unsnap] computes from the work area [rect] of the
    monitor and the two stashes: its first branch, for a window that fits
    into the work area, and its second branch. *)
Definition unsnap_rect_fit
    (rect : GdkRectangle.t) (snap_stash : GdkRectangleDouble.t)
    (snap_stash_int : GdkRectangle.t) : GdkRectangle.t :=
  let left := GdkRectangleDouble.x snap_stash in
  let right :=
    d_sub d_1_0 (d_add (GdkRectangleDouble.x snap_stash)
                       (GdkRectangleDouble.width snap_stash)) in
  let up := GdkRectangleDouble.y snap_stash in
  let down :=
    d_sub d_1_0 (d_add (GdkRectangleDouble.y snap_stash)
                       (GdkRectangleDouble.height snap_stash)) in
  let hscale :=
    if d_gt right d_0_001 then
      let hratio := d_div left right in
      d_div hratio (d_add d_1_0 hratio)
    else d_1_0 in
  let new_left :=
    d_mul (d_of_int (GdkRectangle.width rect - GdkRectangle.width snap_stash_int))
          hscale in
  let vscale :=
    if d_gt down d_0_001 then
      let vratio := d_div up down in
      d_div vratio (d_add d_1_0 vratio)
    else d_1_0 in
  let new_up :=
    d_mul (d_of_int (GdkRectangle.height rect - GdkRectangle.height snap_stash_int))
          vscale in
  {| GdkRectangle.x := d_to_int (round (d_add (d_of_int (GdkRectangle.x rect)) new_left));
     GdkRectangle.y := d_to_int (round (d_add (d_of_int (GdkRectangle.y rect)) new_up));
     GdkRectangle.width := GdkRectangle.width snap_stash_int;
     GdkRectangle.height := GdkRectangle.height snap_stash_int |}.

Definition unsnap_rect_scaled
    (rect : GdkRectangle.t) (snap_stash : GdkRectangleDouble.t) : GdkRectangle.t :=
  {| GdkRectangle.x :=
       d_to_int (d_add (d_of_int (GdkRectangle.x rect))
                   (round (d_mul (d_of_int (GdkRectangle.width rect))
                                 (GdkRectangleDouble.x snap_stash))));
     GdkRectangle.y :=
       d_to_int (d_add (d_of_int (GdkRectangle.y rect))
                   (round (d_mul (d_of_int (GdkRectangle.height rect))
                                 (GdkRectangleDouble.y snap_stash))));
     GdkRectangle.width :=
       d_to_int (round (d_mul (d_of_int (GdkRectangle.width rect))
                              (GdkRectangleDouble.width snap_stash)));
     GdkRectangle.height :=
       d_to_int (round (d_mul (d_of_int (GdkRectangle.height rect))
                              (GdkRectangleDouble.height snap_stash))) |}.

Definition unsnap_rect
    (rect : GdkRectangle.t) (snap_stash : GdkRectangleDouble.t)
    (snap_stash_int : GdkRectangle.t) : GdkRectangle.t :=
  if (GdkRectangle.width rect >=? GdkRectangle.width snap_stash_int)
     && (GdkRectangle.height rect >=? GdkRectangle.height snap_stash_int)
  then unsnap_rect_fit rect snap_stash snap_stash_int
  else unsnap_rect_scaled rect snap_stash.

(** [unsnap].  The function tests [snap_stash] only and then reads
    [snap_stash_int] as well; the two are allocated and freed together, so
    that the third case below, a NULL dereference in C, does not arise. *)
Definition unsnap (monitor : positive) : Gdk unit :=
  modify (set_snap_state GDK_WIN32_AEROSNAP_STATE_UNDETERMINED);;
  impl ← get_impl;
  match snap_stash impl, snap_stash_int impl with
  | None, _ => skip
  | Some stash, Some stash_int =>
    let rect := gdk_win32_monitor_get_workarea (Some monitor) in
    let rect := unsnap_rect rect stash stash_int in
    gdk_win32_surface_move_resize
      (GdkRectangle.x rect) (GdkRectangle.y rect)
      (GdkRectangle.width rect) (GdkRectangle.height rect);;
    clear_snap_stashes
  | Some _, None => skip
  end.

(** What [stash_window] stores for the placement [rcNormalPosition], the
    monitor rectangle [rcMonitor] and the work area [rcWork]. *)
Definition stashed_int (surface_scale : Z) (rcNormalPosition rcMonitor : RECT.t)
    : GdkRectangle.t :=
  {| GdkRectangle.x :=
       Z.quot (RECT.left rcNormalPosition - RECT.left rcMonitor) surface_scale;
     GdkRectangle.y :=
       Z.quot (RECT.top rcNormalPosition - RECT.top rcMonitor) surface_scale;
     GdkRectangle.width :=
       Z.quot (RECT.right rcNormalPosition - RECT.left rcNormalPosition) surface_scale;
     GdkRectangle.height :=
       Z.quot (RECT.bottom rcNormalPosition - RECT.top rcNormalPosition) surface_scale |}.

Definition stashed_double (surface_scale : Z) (rcNormalPosition rcMonitor rcWork : RECT.t)
    : GdkRectangleDouble.t :=
  let r := stashed_int surface_scale rcNormalPosition rcMonitor in
  let wwidth := Z.quot (RECT.right rcWork - RECT.left rcWork) surface_scale in
  let wheight := Z.quot (RECT.bottom rcWork - RECT.top rcWork) surface_scale in
  {| GdkRectangleDouble.x := d_div (d_of_int (GdkRectangle.x r)) (d_of_int wwidth);
     GdkRectangleDouble.y := d_div (d_of_int (GdkRectangle.y r)) (d_of_int wheight);
     GdkRectangleDouble.width :=
       d_div (d_of_int (GdkRectangle.width r)) (d_of_int wwidth);
     GdkRectangleDouble.height :=
       d_div (d_of_int (GdkRectangle.height r)) (d_of_int wheight) |}.

(** [stash_window]. *)
Definition stash_window : Gdk unit :=
  h ← history;
  match GetWindowPlacement h with
  | None => skip
  | Some rcNormalPosition =>
    match GetMonitorInfoA h with
    | None => skip
    | Some (rcMonitor, rcWork) =>
      impl ← get_impl;
      modify (set_snap_stash
                (Some (stashed_double (surface_scale impl)
                         rcNormalPosition rcMonitor rcWork)));;
      modify (set_snap_stash_int
                (Some (stashed_int (surface_scale impl) rcNormalPosition rcMonitor)))
    end
  end.

(** The conversion of an [int] to the 16-bit [SHORT]. *)
Definition to_SHORT (z : Z) : Z := (z + 2 ^ 15) mod 2 ^ 16 - 2 ^ 15.

(** [snap_up]. *)
Definition snap_up : Gdk unit :=
  modify (set_snap_state GDK_WIN32_AEROSNAP_STATE_FULLUP);;
  stash_window;;
  h ← history;
  impl ← get_impl;
  let maxysize :=
    to_SHORT (Z.quot (GetSystemMetrics_SM_CYVIRTUALSCREEN h) (surface_scale impl)) in
  let width := width impl in
  let y := 0 in
  let height := maxysize in
  let x := x impl - Z.quot (RECT.left (shadow impl)) (surface_scale impl) in
  let y := y - Z.quot (RECT.top (shadow impl)) (surface_scale impl) in
  let width := width + shadow_x impl in
  let height := height + shadow_y impl in
  gdk_win32_surface_move_resize x y width height.

(** [snap_left]. *)
Definition snap_left (monitor : positive) (snap_monitor : option positive) : Gdk unit :=
  modify (set_snap_state GDK_WIN32_AEROSNAP_STATE_HALFLEFT);;
  let rect := gdk_win32_monitor_get_workarea snap_monitor in
  stash_window;;
  impl ← get_impl;
  let rect_width := Z.quot (GdkRectangle.width rect) 2 in
  let rect_x :=
    GdkRectangle.x rect - Z.quot (RECT.left (shadow impl)) (surface_scale impl) in
  let rect_y :=
    GdkRectangle.y rect - Z.quot (RECT.top (shadow impl)) (surface_scale impl) in
  let rect_width := rect_width + shadow_x impl in
  let rect_height := GdkRectangle.height rect + shadow_y impl in
  gdk_win32_surface_move_resize rect_x rect_y rect_width rect_height.

(** [snap_right]. *)
Definition snap_right (monitor : positive) (snap_monitor : option positive) : Gdk unit :=
  modify (set_snap_state GDK_WIN32_AEROSNAP_STATE_HALFRIGHT);;
  let rect := gdk_win32_monitor_get_workarea snap_monitor in
  stash_window;;
  impl ← get_impl;
  let rect_width := Z.quot (GdkRectangle.width rect) 2 in
  let rect_x := GdkRectangle.x rect + rect_width in
  let rect_x := rect_x - Z.quot (RECT.left (shadow impl)) (surface_scale impl) in
  let rect_y :=
    GdkRectangle.y rect - Z.quot (RECT.top (shadow impl)) (surface_scale impl) in
  let rect_width := rect_width + shadow_x impl in
  let rect_height := GdkRectangle.height rect + shadow_y impl in
  gdk_win32_surface_move_resize rect_x rect_y rect_width rect_height.

(** A C integer used as a truth value. *)
Definition truth (z : Z) : bool := negb (z =? 0).

(** [g_list_model_get_item] on the list of monitors; the position is
    unsigned. *)
Definition g_list_model_get_item (monitors : list positive) (position : Z)
    : option positive :=
  if position <? 0 then None else monitors !! Z.to_nat position.

(** The value of [i] after the loop
    [for (i = 0; i < n_monitors; i++) if (monitor == item i) break;]. *)
Fixpoint monitor_position (monitors : list positive) (monitor : positive) (i : Z) : Z :=
  match monitors with
  | [] => i
  | other :: rest =>
    if Pos.eqb monitor other then i else monitor_position rest monitor (i + 1)
  end.

(** [_gdk_win32_surface_handle_aerosnap].  With an empty list of monitors
    the C code divides by zero in [(i + 1) % n_monitors]; [Z.rem] leaves
    the position out of range there. *)
Definition _gdk_win32_surface_handle_aerosnap (combo : GdkWin32AeroSnapCombo) : Gdk unit :=
  window ← get_impl;
  h ← history;
  let surface_state := state window in
  let minimized := truth (Z.land surface_state GDK_TOPLEVEL_STATE_MINIMIZED) in
  let maximized := truth (Z.land surface_state GDK_TOPLEVEL_STATE_MAXIMIZED) in
  let monitors := gdk_display_get_monitors in
  let n_monitors := Z.of_nat (length monitors) in
  let monitor := gdk_display_get_monitor_at_surface h in
  let minimized := if minimized && maximized then false else minimized in
  let halfsnapped :=
    match snap_state window with
    | GDK_WIN32_AEROSNAP_STATE_HALFRIGHT
    | GDK_WIN32_AEROSNAP_STATE_HALFLEFT
    | GDK_WIN32_AEROSNAP_STATE_FULLUP => true
    | _ => false
    end in
  match combo with
  | GDK_WIN32_AEROSNAP_COMBO_NOTHING => skip
  | GDK_WIN32_AEROSNAP_COMBO_UP =>
    if negb maximized then
      unsnap monitor;;
      gdk_win32_surface_maximize
    else skip
  | GDK_WIN32_AEROSNAP_COMBO_DOWN
  | GDK_WIN32_AEROSNAP_COMBO_SHIFTDOWN =>
    if maximized then
      gdk_win32_surface_unmaximize;;
      unsnap monitor
    else if halfsnapped then unsnap monitor
    else if negb minimized then gdk_win32_surface_minimize
    else skip
  | GDK_WIN32_AEROSNAP_COMBO_LEFT =>
    (if maximized then gdk_win32_surface_unmaximize else skip);;
    impl ← get_impl;
    match snap_state impl with
    | GDK_WIN32_AEROSNAP_STATE_UNDETERMINED
    | GDK_WIN32_AEROSNAP_STATE_FULLUP =>
      unsnap monitor;;
      snap_left monitor (Some monitor)
    | GDK_WIN32_AEROSNAP_STATE_HALFLEFT =>
      unsnap monitor;;
      let other :=
        if decide (gdk_win32_display_get_primary_monitor monitor = Some monitor)
        then Some monitor
        else g_list_model_get_item monitors (n_monitors - 1) in
      snap_right monitor other
    | GDK_WIN32_AEROSNAP_STATE_HALFRIGHT => unsnap monitor
    | GDK_WIN32_AEROSNAP_STATE_MAXIMIZE => skip
    end
  | GDK_WIN32_AEROSNAP_COMBO_RIGHT =>
    (if maximized then gdk_win32_surface_unmaximize else skip);;
    impl ← get_impl;
    match snap_state impl with
    | GDK_WIN32_AEROSNAP_STATE_UNDETERMINED
    | GDK_WIN32_AEROSNAP_STATE_FULLUP =>
      unsnap monitor;;
      snap_right monitor (Some monitor)
    | GDK_WIN32_AEROSNAP_STATE_HALFLEFT => unsnap monitor
    | GDK_WIN32_AEROSNAP_STATE_HALFRIGHT =>
      unsnap monitor;;
      let i := monitor_position monitors monitor 0 in
      let other := g_list_model_get_item monitors (Z.rem (i + 1) n_monitors) in
      snap_left monitor other
    | GDK_WIN32_AEROSNAP_STATE_MAXIMIZE => skip
    end
  | GDK_WIN32_AEROSNAP_COMBO_SHIFTUP =>
    if negb maximized then
      match snap_state window with
      | GDK_WIN32_AEROSNAP_STATE_UNDETERMINED => snap_up
      | _ => skip
      end
    else skip
  | GDK_WIN32_AEROSNAP_COMBO_SHIFTLEFT
  | GDK_WIN32_AEROSNAP_COMBO_SHIFTRIGHT => skip
  end.

(** [apply_snap]. *)
Definition apply_snap (snap : GdkWin32AeroSnapState) : Gdk unit :=
  h ← history;
  let monitor := gdk_display_get_monitor_at_surface h in
  match snap with
  | GDK_WIN32_AEROSNAP_STATE_UNDETERMINED => skip
  | GDK_WIN32_AEROSNAP_STATE_MAXIMIZE =>
    unsnap monitor;;
    gdk_win32_surface_maximize
  | GDK_WIN32_AEROSNAP_STATE_HALFLEFT =>
    unsnap monitor;;
    snap_left monitor (Some monitor)
  | GDK_WIN32_AEROSNAP_STATE_HALFRIGHT =>
    unsnap monitor;;
    snap_right monitor (Some monitor)
  | GDK_WIN32_AEROSNAP_STATE_FULLUP => snap_up
  end;;
  match snap with
  | GDK_WIN32_AEROSNAP_STATE_UNDETERMINED => skip
  | _ =>
    modify (set_inhibit_configure true);;
    modify (set_force_recompute_size false)
  end.

(** *** Style bits *)

(** [update_single_bit]: the new value of [*style]. *)
Definition update_single_bit (style : Z) (all : Z) (gdk_bit : Z) (style_bit : Z) : Z :=
  if (negb (truth all) && truth gdk_bit) || (truth all && negb (truth gdk_bit))
  then Z.lor style style_bit
  else Z.land style (Z.lnot style_bit).

(** The condition of [update_single_bit]:
    [(!all && gdk_bit) || (all && !gdk_bit)]. *)
Definition bit_rule (all gdk_bit : Z) : bool :=
  (negb (truth all) && truth gdk_bit) || (truth all && negb (truth gdk_bit)).

(** [get_effective_window_decorations]: the returned [gboolean] and the
    value stored in [*decoration]. *)
Definition get_effective_window_decorations (window : GdkWin32Surface) : bool * Z :=
  if negb (GDK_IS_TOPLEVEL (surface_type window)) then (false, 0)
  else if negb (decorate_all window) then (true, 0)
  else if truth (Z.land (hint_flags window) GDK_HINT_MIN_SIZE)
          && truth (Z.land (hint_flags window) GDK_HINT_MAX_SIZE)
          && (GdkGeometry.min_width (hints window) =? GdkGeometry.max_width (hints window))
          && (GdkGeometry.min_height (hints window) =? GdkGeometry.max_height (hints window))
  then
    (true,
     Z.lor (Z.lor (Z.lor GDK_DECOR_ALL GDK_DECOR_RESIZEH) GDK_DECOR_MAXIMIZE)
           GDK_DECOR_MINIMIZE)
  else if truth (Z.land (hint_flags window) GDK_HINT_MAX_SIZE) then
    (true, Z.lor (Z.lor GDK_DECOR_ALL GDK_DECOR_MAXIMIZE) GDK_DECOR_MINIMIZE)
  else
    (true, Z.lor (Z.lor GDK_DECOR_ALL GDK_DECOR_MINIMIZE) GDK_DECOR_MAXIMIZE).

(** The decoration flag and the style bit of each of the six calls of
    [update_single_bit], in the order of the source. *)
Definition decoration_style_bits : list (Z * Z) :=
  [ (GDK_DECOR_BORDER, WS_BORDER);
    (GDK_DECOR_RESIZEH, WS_THICKFRAME);
    (GDK_DECOR_TITLE, WS_CAPTION);
    (GDK_DECOR_MENU, WS_SYSMENU);
    (GDK_DECOR_MINIMIZE, WS_MINIMIZEBOX);
    (GDK_DECOR_MAXIMIZE, WS_MAXIMIZEBOX) ].

(** [all = (decorations & GDK_DECOR_ALL);] followed by the six calls
    [update_single_bit (&new_style, all, decorations & flag, bit)]. *)
Definition update_decoration_bits (new_style : Z) (decorations : Z) : Z :=
  let all := Z.land decorations GDK_DECOR_ALL in
  fold_left
    (fun new_style '(flag, bit) =>
       update_single_bit new_style all (Z.land decorations flag) bit)
    decoration_style_bits new_style.

(** The value of [new_style] when [_gdk_win32_surface_update_style_bits]
    compares it with [old_style]. *)
Definition recomputed_style (window : GdkWin32Surface) (old_style : Z) : Z :=
  match get_effective_window_decorations window with
  | (true, decorations) => update_decoration_bits old_style decorations
  | (false, _) => old_style
  end.

(** The value of [new_exstyle] at the same point, for the extended style
    [old_exstyle] that [GetWindowLong] returned. *)
Definition recomputed_exstyle (window : GdkWin32Surface) (old_exstyle : Z) : Z :=
  let old_exstyle := Z.land old_exstyle (Z.lnot WS_EX_TOPMOST) in
  if GDK_IS_DRAG_SURFACE (surface_type window) then
    Z.lor (Z.lor old_exstyle WS_EX_TOOLWINDOW) (Z.lor WS_EX_LAYERED WS_EX_TRANSPARENT)
  else Z.land old_exstyle (Z.lnot WS_EX_TOOLWINDOW).

(** [_gdk_win32_surface_update_style_bits]. *)
Definition _gdk_win32_surface_update_style_bits : Gdk unit :=
  window ← get_impl;
  if fullscreen window then skip
  else
    h ← history;
    let old_style := GetWindowLong h GWL_STYLE in
    let old_exstyle := GetWindowLong h GWL_EXSTYLE in
    let before := GetClientRect h in
    let after := before in
    let before := AdjustWindowRectEx before old_style old_exstyle in
    let was_topmost := truth (Z.land old_exstyle WS_EX_TOPMOST) in
    let was_layered := truth (Z.land old_exstyle WS_EX_LAYERED) in
    let will_be_topmost :=
      if GDK_IS_DRAG_SURFACE (surface_type window) then true else was_topmost in
    let will_be_layered :=
      if GDK_IS_DRAG_SURFACE (surface_type window) then true else was_layered in
    let new_exstyle := recomputed_exstyle window old_exstyle in
    let old_exstyle := Z.land old_exstyle (Z.lnot WS_EX_TOPMOST) in
    let new_style := recomputed_style window old_style in
    if (old_style =? new_style) && (old_exstyle =? new_exstyle) then skip
    else
      (if negb (old_style =? new_style) then emit (SetWindowLong GWL_STYLE new_style)
       else skip);;
      (if negb (old_exstyle =? new_exstyle) then
         emit (SetWindowLong GWL_EXSTYLE new_exstyle);;
         if negb was_layered && will_be_layered
         then emit (SetLayeredWindowAttributes 0 255 LWA_ALPHA)
         else skip
       else skip);;
      let after := AdjustWindowRectEx after new_style new_exstyle in
      h ← history;
      let rect := GetWindowRect h in
      let rect_left := RECT.left rect + (RECT.left after - RECT.left before) in
      let rect_top := RECT.top rect + (RECT.top after - RECT.top before) in
      let rect_right := RECT.right rect + (RECT.right after - RECT.right before) in
      let rect_bottom := RECT.bottom rect + (RECT.bottom after - RECT.bottom before) in
      let flags := Z.lor (Z.lor SWP_FRAMECHANGED SWP_NOACTIVATE) SWP_NOREPOSITION in
      let '(flags, insert_after) :=
        if will_be_topmost && negb was_topmost then (flags, HWND_TOPMOST)
        else if was_topmost && negb will_be_topmost then (flags, HWND_NOTOPMOST)
        else (Z.lor flags SWP_NOZORDER, SWP_NOZORDER_SPECIFIED) in
      emit (SetWindowPos insert_after rect_left rect_top
              (rect_right - rect_left) (rect_bottom - rect_top) flags).

(** *** Scale factor *)

(** The block guarded by [g_once_init_enter (&hidpi_msg_displayed)]. *)
Definition g_message_once : Gdk unit :=
  fun w =>
    if hidpi_msg_displayed w then (tt, w)
    else
      (tt, {| impl := impl w;
              calls := calls w ++
                [g_message "Note: GDK_SCALE is ignored as HiDPI awareness is disabled."];
              hidpi_msg_displayed := true |}).

(** [_gdk_win32_surface_get_scale_factor]. *)
Definition _gdk_win32_surface_get_scale_factor (win32_display : GdkWin32Display) : Gdk Z :=
  surface ← get_impl;
  if destroyed surface then mret 1
  else
    match dpi_aware_type win32_display with
    | PROCESS_DPI_UNAWARE =>
      (if has_fixed_scale win32_display then g_message_once else skip);;
      mret 1
    | _ =>
      h ← history;
      (if has_fixed_scale win32_display then
         modify (set_surface_scale (display_surface_scale win32_display))
       else
         modify (set_surface_scale
                   (gdk_win32_display_get_monitor_scale_factor win32_display h)));;
      impl ← get_impl;
      mret (surface_scale impl)
    end.

End WithWin32.
End WithDouble.
End Win32Surface.

(** *** Concrete instances

    Exact rational arithmetic in the place of [double], with [round]
    rounding halves away from zero and the conversion to [int]
    truncating; and a window system with fixed answers, whose
    [GetWindowPlacement] succeeds or fails as its argument says. *)
Module Instances.
Import Win32Surface.

Definition q_round (q : Q) : Q :=
  inject_Z (if Qle_bool 0 q then Qfloor (Qplus q (1 # 2))
            else Qceiling (Qminus q (1 # 2))).

Definition q_to_int (q : Q) : Z := Z.quot (Qnum q) (Zpos (Qden q)).

Definition rational_double : DoubleArith := {|
  double := Q;
  d_of_int := inject_Z;
  d_to_int := q_to_int;
  d_add := Qplus;
  d_sub := Qminus;
  d_mul := Qmult;
  d_div := Qdiv;
  d_gt := fun a b => negb (Qle_bool a b);
  round := q_round;
  d_1_0 := 1 # 1;
  d_0_001 := 1 # 1000
|}.

Definition fixed_win32 (placement : option RECT.t) : Win32Api := {|
  GetWindowLong := fun _ index =>
    match index with GWL_STYLE => 0x00CF0000 | GWL_EXSTYLE => 0x00000100 end;
  GetClientRect := fun _ =>
    {| RECT.left := 0; RECT.top := 0; RECT.right := 800; RECT.bottom := 600 |};
  GetWindowRect := fun _ =>
    {| RECT.left := 100; RECT.top := 100; RECT.right := 900; RECT.bottom := 700 |};
  AdjustWindowRectEx := fun rect _ _ => rect;
  GetWindowPlacement := fun _ => placement;
  GetMonitorInfoA := fun _ =>
    Some ({| RECT.left := 0; RECT.top := 0; RECT.right := 1920; RECT.bottom := 1080 |},
          {| RECT.left := 0; RECT.top := 0; RECT.right := 1920; RECT.bottom := 1040 |});
  GetSystemMetrics_SM_CYVIRTUALSCREEN := fun _ => 1080;
  IsWindowVisible := fun _ => true;
  active_window_is_self := fun _ => true;
  modal_move_resize := fun _ => false;
  gdk_win32_monitor_get_workarea := fun monitor =>
    match monitor with
    | Some 2%positive =>
      {| GdkRectangle.x := 1920; GdkRectangle.y := 0;
         GdkRectangle.width := 640; GdkRectangle.height := 480 |}
    | _ =>
      {| GdkRectangle.x := 0; GdkRectangle.y := 0;
         GdkRectangle.width := 1920; GdkRectangle.height := 1040 |}
    end;
  gdk_display_get_monitors := [1%positive; 2%positive];
  gdk_display_get_monitor_at_surface := fun _ => 1%positive;
  gdk_win32_display_get_primary_monitor := fun _ => Some 1%positive;
  gdk_win32_display_get_monitor_scale_factor := fun _ _ => 2
|}.

Definition normal_placement : RECT.t :=
  {| RECT.left := 100; RECT.top := 100; RECT.right := 900; RECT.bottom := 700 |}.

Definition placed_win32 : Win32Api := fixed_win32 (Some normal_placement).

Definition failing_win32 : Win32Api := fixed_win32 None.

(** A mapped surface of 800 by 600 at scale 1 without a stash; a live
    toplevel with the snap state [snap]. *)
Definition a_surface (type : GdkSurfaceType) (dead : bool)
    (snap : GdkWin32AeroSnapState) (toplevel_state : Z)
    : GdkWin32Surface (double_arith := rational_double) :=
  {| surface_type := type;
     destroyed := dead;
     is_mapped := true;
     state := toplevel_state;
     x := 100;
     width := 800;
     height := 600;
     resize_count := 0;
     gl_paint_context_uses_es := false;
     egl_force_redraw_all := false;
     decorate_all := true;
     hint_flags := 0;
     hints := {| GdkGeometry.min_width := 0; GdkGeometry.min_height := 0;
                 GdkGeometry.max_width := 0; GdkGeometry.max_height := 0 |};
     surface_scale := 1;
     shadow := {| RECT.left := 0; RECT.top := 0; RECT.right := 0; RECT.bottom := 0 |};
     shadow_x := 0;
     shadow_y := 0;
     snap_state := snap;
     snap_stash := None;
     snap_stash_int := None;
     inhibit_configure := false;
     force_recompute_size := false;
     maximizing := false |}.

Definition toplevel (snap : GdkWin32AeroSnapState) (toplevel_state : Z)
    : GdkWin32Surface (double_arith := rational_double) :=
  a_surface GDK_WIN32_TOPLEVEL false snap toplevel_state.

Definition world_of (s : GdkWin32Surface (double_arith := rational_double))
    : World (double_arith := rational_double) :=
  {| impl := s; calls := []; hidpi_msg_displayed := false |}.

Definition display_of (awareness : PROCESS_DPI_AWARENESS) (fixed : bool)
    : GdkWin32Display :=
  {| dpi_aware_type := awareness; has_fixed_scale := fixed;
     display_surface_scale := 3 |}.

End Instances.

(** ** The stack of modal windows

    [modal_window_stack] is a [GSList] of surface pointers, newest first;
    [GDK_SURFACE_IS_MAPPED] reads a field of the surface a pointer refers
    to. *)
Module ModalStack.
Section WithSurfaces.
Variable GDK_SURFACE_IS_MAPPED : positive -> bool.

(** [_gdk_push_modal_window]: [g_slist_prepend]. *)
Definition _gdk_push_modal_window (modal_window_stack : list positive) (window : positive)
    : list positive :=
  window :: modal_window_stack.

(** [g_slist_find] followed by [g_slist_delete_link]: the first link that
    holds [window] is removed. *)
Fixpoint delete_first (l : list positive) (window : positive) : list positive :=
  match l with
  | [] => []
  | data :: next => if Pos.eqb data window then next else data :: delete_first next window
  end.

(** [_gdk_remove_modal_window]. *)
Definition _gdk_remove_modal_window (modal_window_stack : list positive) (window : positive)
    : list positive :=
  match modal_window_stack with
  | [] => []
  | _ => delete_first modal_window_stack window
  end.

(** The loop of [_gdk_modal_blocked] from the link [l] on, with the
    current value of [found_any]. *)
Fixpoint modal_blocked_from (l : list positive) (window : positive) (found_any : bool)
    : bool :=
  match l with
  | [] => found_any
  | modal :: next =>
    if Pos.eqb modal window then false
    else modal_blocked_from next window
           (if GDK_SURFACE_IS_MAPPED modal then true else found_any)
  end.

(** [_gdk_modal_blocked]. *)
Definition _gdk_modal_blocked (modal_window_stack : list positive) (window : positive)
    : bool :=
  modal_blocked_from modal_window_stack window false.

(** [_gdk_modal_current]; [None] is NULL. *)
Fixpoint _gdk_modal_current (modal_window_stack : list positive) : option positive :=
  match modal_window_stack with
  | [] => None
  | modal :: next =>
    if GDK_SURFACE_IS_MAPPED modal then Some modal else _gdk_modal_current next
  end.

End WithSurfaces.
End ModalStack.

(** ** The search entry *)
Module SearchEntry.

Inductive signal_id : Type :=
| ACTIVATE
| SEARCH_CHANGED
| NEXT_MATCH
| PREVIOUS_MATCH
| STOP_SEARCH
| SEARCH_STARTED.

(** [struct _GtkSearchEntry]; widgets are pointers, [None] is NULL. *)
Record GtkSearchEntry : Type := {
  capture_widget : option positive;
  capture_widget_controller : option positive;
  entry : option positive;
  icon : option positive;
  delayed_changed_id : Z;
  content_changed : bool;
  search_stopped : bool
}.

(** [#define DELAYED_TIMEOUT_ID 150]. *)
Definition DELAYED_TIMEOUT_ID : Z := 150.

(** The callbacks handed to [g_timeout_add]: the one of this file, and
    those of the rest of the program. *)
Inductive GSourceFunc : Type :=
| gtk_search_entry_changed_timeout_cb_func
| other_func (f : positive).

(** A timeout source attached to the main context. *)
Record GSource : Type := {
  interval : Z;
  func : GSourceFunc;
  user_data : positive;
  name : option string
}.

(** The program state around one search entry: its address [this] and its
    fields [obj]; the text and the child visibility of the widgets, by
    address; the sources of the main context, by id, with the id the next
    source gets; the next free address; the signals emitted on the search
    entry, oldest first. *)
Record World : Type := {
  this : positive;
  obj : GtkSearchEntry;
  texts : gmap positive string;
  child_visible : gmap positive bool;
  sources : gmap Z GSource;
  next_source_id : Z;
  next_object : positive;
  emitted : list signal_id
}.

Definition set_obj (o : GtkSearchEntry) (w : World) : World :=
  {| this := this w; obj := o; texts := texts w; child_visible := child_visible w;
     sources := sources w; next_source_id := next_source_id w;
     next_object := next_object w; emitted := emitted w |}.

Definition set_texts (t : gmap positive string) (w : World) : World :=
  {| this := this w; obj := obj w; texts := t; child_visible := child_visible w;
     sources := sources w; next_source_id := next_source_id w;
     next_object := next_object w; emitted := emitted w |}.

Definition set_child_visible (c : gmap positive bool) (w : World) : World :=
  {| this := this w; obj := obj w; texts := texts w; child_visible := c;
     sources := sources w; next_source_id := next_source_id w;
     next_object := next_object w; emitted := emitted w |}.

Definition set_sources (srcs : gmap Z GSource) (next : Z) (w : World) : World :=
  {| this := this w; obj := obj w; texts := texts w; child_visible := child_visible w;
     sources := srcs; next_source_id := next;
     next_object := next_object w; emitted := emitted w |}.

Definition set_next_object (n : positive) (w : World) : World :=
  {| this := this w; obj := obj w; texts := texts w; child_visible := child_visible w;
     sources := sources w; next_source_id := next_source_id w;
     next_object := n; emitted := emitted w |}.

Definition set_emitted (e : list signal_id) (w : World) : World :=
  {| this := this w; obj := obj w; texts := texts w; child_visible := child_visible w;
     sources := sources w; next_source_id := next_source_id w;
     next_object := next_object w; emitted := e |}.

Definition set_capture (widget controller : option positive) (o : GtkSearchEntry)
    : GtkSearchEntry :=
  {| capture_widget := widget; capture_widget_controller := controller;
     entry := entry o; icon := icon o; delayed_changed_id := delayed_changed_id o;
     content_changed := content_changed o; search_stopped := search_stopped o |}.

Definition set_entry (e : option positive) (o : GtkSearchEntry) : GtkSearchEntry :=
  {| capture_widget := capture_widget o;
     capture_widget_controller := capture_widget_controller o;
     entry := e; icon := icon o; delayed_changed_id := delayed_changed_id o;
     content_changed := content_changed o; search_stopped := search_stopped o |}.

Definition set_icon (i : option positive) (o : GtkSearchEntry) : GtkSearchEntry :=
  {| capture_widget := capture_widget o;
     capture_widget_controller := capture_widget_controller o;
     entry := entry o; icon := i; delayed_changed_id := delayed_changed_id o;
     content_changed := content_changed o; search_stopped := search_stopped o |}.

Definition set_delayed_changed_id (id : Z) (o : GtkSearchEntry) : GtkSearchEntry :=
  {| capture_widget := capture_widget o;
     capture_widget_controller := capture_widget_controller o;
     entry := entry o; icon := icon o; delayed_changed_id := id;
     content_changed := content_changed o; search_stopped := search_stopped o |}.

Definition set_content_changed (b : bool) (o : GtkSearchEntry) : GtkSearchEntry :=
  {| capture_widget := capture_widget o;
     capture_widget_controller := capture_widget_controller o;
     entry := entry o; icon := icon o; delayed_changed_id := delayed_changed_id o;
     content_changed := b; search_stopped := search_stopped o |}.

Definition set_search_stopped (b : bool) (o : GtkSearchEntry) : GtkSearchEntry :=
  {| capture_widget := capture_widget o;
     capture_widget_controller := capture_widget_controller o;
     entry := entry o; icon := icon o; delayed_changed_id := delayed_changed_id o;
     content_changed := content_changed o; search_stopped := b |}.

(** *** What the file uses of GObject, GLib and GTK *)

(** The instance memory [g_object_new] hands to [gtk_search_entry_init]:
    all fields zero. *)
Definition zeroed_instance : GtkSearchEntry :=
  {| capture_widget := None; capture_widget_controller := None;
     entry := None; icon := None; delayed_changed_id := 0;
     content_changed := false; search_stopped := false |}.

(** [g_object_new] and the constructors built on it: a fresh address. *)
Definition g_object_new (w : World) : positive * World :=
  (next_object w, set_next_object (Pos.succ (next_object w)) w).

(** [gtk_text_new]: a fresh text widget, with empty text. *)
Definition gtk_text_new (w : World) : positive * World :=
  let '(text, w) := g_object_new w in
  (text, set_texts (<[text := EmptyString]> (texts w)) w).

(** [gtk_widget_set_child_visible] on a widget pointer. *)
Definition gtk_widget_set_child_visible (child : option positive) (visible : bool)
    (w : World) : World :=
  match child with
  | Some child => set_child_visible (<[child := visible]> (child_visible w)) w
  | None => w
  end.

(** [gtk_editable_get_text] on a text widget; [None] is NULL. *)
Definition gtk_editable_get_text (text : option positive) (w : World) : option string :=
  match text with
  | Some text => texts w !! text
  | None => None
  end.

(** What the handlers that the program has connected to the signals of the
    search entry do when a signal is emitted.  They run inside the
    emission, before [g_signal_emit] returns, and they may call back into
    the entry: set its text, for one. *)
Class Handlers : Type := {
  on_signal : signal_id -> World -> World
}.

(** A search entry whose signals have no handlers, or only handlers that
    touch nothing of the state above. *)
Definition no_handlers : Handlers := {| on_signal := fun _ w => w |}.

Section WithHandlers.
Context {handlers : Handlers}.

(** [g_signal_emit (entry, signals[id], 0)]: the emission is recorded and
    the handlers of the signal run. *)
Definition g_signal_emit (id : signal_id) (w : World) : World :=
  on_signal id (set_emitted (emitted w ++ [id]) w).

(** [g_timeout_add]: the source gets the next id of the main context,
    which is greater than 0, and that id is returned. *)
Definition g_timeout_add (interval : Z) (function : GSourceFunc) (data : positive)
    (w : World) : Z * World :=
  let id := next_source_id w in
  (id,
   set_sources
     (<[id := {| interval := interval; func := function; user_data := data;
                 name := None |}]> (sources w))
     (id + 1) w).

(** [g_source_remove]. *)
Definition g_source_remove (tag : Z) (w : World) : World :=
  set_sources (delete tag (sources w)) (next_source_id w) w.

(** [gdk_source_set_static_name_by_id]. *)
Definition gdk_source_set_static_name_by_id (tag : Z) (n : string) (w : World) : World :=
  set_sources
    (alter (fun src => {| interval := interval src; func := func src;
                          user_data := user_data src; name := Some n |})
           tag (sources w))
    (next_source_id w) w.

(** *** The functions of the file *)

(** [text_changed]. *)
Definition text_changed (w : World) : World :=
  set_obj (set_content_changed true (obj w)) w.

(** [gtk_search_entry_stop_search]. *)
Definition gtk_search_entry_stop_search (w : World) : World :=
  set_obj (set_search_stopped true (obj w)) w.



(** [gtk_search_entry_changed_timeout_cb]: the state after the call and
    the returned [gboolean]; [G_SOURCE_REMOVE] is FALSE.  The stored id is
    zeroed after the emission, when the handlers have run. *)
Definition gtk_search_entry_changed_timeout_cb (w : World) : bool * World :=
  let w := g_signal_emit SEARCH_CHANGED w in
  let w := set_obj (set_delayed_changed_id 0 (obj w)) w in
  (false, w).

(** [reset_timeout]. *)
Definition reset_timeout (w : World) : World :=
  let w :=
    if delayed_changed_id (obj w) >? 0 then g_source_remove (delayed_changed_id (obj w)) w
    else w in
  let '(id, w) :=
    g_timeout_add DELAYED_TIMEOUT_ID gtk_search_entry_changed_timeout_cb_func (this w) w in
  let w := set_obj (set_delayed_changed_id id (obj w)) w in
  gdk_source_set_static_name_by_id (delayed_changed_id (obj w))
    "[gtk] gtk_search_entry_changed_timeout_cb" w.

(** [gtk_search_entry_changed]. *)
Definition gtk_search_entry_changed (w : World) : World :=
  let str := gtk_editable_get_text (entry (obj w)) w in
  if match str with None => true | Some str => bool_decide (str = EmptyString) end then
    let w := gtk_widget_set_child_visible (icon (obj w)) false w in
    let w :=
      if delayed_changed_id (obj w) >? 0 then
        let w := g_source_remove (delayed_changed_id (obj w)) w in
        set_obj (set_delayed_changed_id 0 (obj w)) w
      else w in
    g_signal_emit SEARCH_CHANGED w
  else
    let w := gtk_widget_set_child_visible (icon (obj w)) true w in
    reset_timeout w.

(** The text widget takes a new text and emits ["changed"]: the handlers
    [gtk_search_entry_init] connects run, [text_changed] first and
    [gtk_search_entry_changed], connected with [g_signal_connect_after],
    last. *)
Definition text_widget_changed (new_text : string) (w : World) : World :=
  match entry (obj w) with
  | Some text =>
    let w := set_texts (<[text := new_text]> (texts w)) w in
    let w := text_changed w in
    gtk_search_entry_changed w
  | None => w
  end.

(** [gtk_search_entry_icon_release]:
    [gtk_editable_set_text] with the empty string on [entry->entry]. *)
Definition gtk_search_entry_icon_release (w : World) : World :=
  text_widget_changed EmptyString w.

(** [gtk_search_entry_init], on the zeroed instance. *)
Definition gtk_search_entry_init (w : World) : World :=
  let w := set_obj zeroed_instance w in
  let '(icon, w) := g_object_new w in
  let '(text, w) := gtk_text_new w in
  let w := set_obj (set_entry (Some text) (obj w)) w in
  let '(clear_icon, w) := g_object_new w in
  let w := set_obj (set_icon (Some clear_icon) (obj w)) w in
  let w := gtk_widget_set_child_visible (SearchEntry.icon (obj w)) false w in
  let '(press, w) := g_object_new w in
  let '(catchall, w) := g_object_new w in
  w.

(** [gtk_search_entry_set_key_capture_widget]. *)
Definition gtk_search_entry_set_key_capture_widget (widget : option positive) (w : World)
    : World :=
  match widget with
  | Some _ =>
    let '(controller, w) := g_object_new w in
    set_obj (set_capture widget (Some controller) (obj w)) w
  | None => set_obj (set_capture None (capture_widget_controller (obj w)) (obj w)) w
  end.

(** The main loop dispatches the source [id]: its callback runs on its
    [user_data], and the source is destroyed when the callback returns
    [G_SOURCE_REMOVE], if a handler has not removed it already.  The
    callback of this file always does; run on another search entry it
    leaves this one alone.  What the callbacks of the rest of the program
    do is outside the file. *)
Definition dispatch (id : Z) (w : World) : World :=
  match sources w !! id with
  | Some src =>
    match func src with
    | gtk_search_entry_changed_timeout_cb_func =>
      if decide (user_data src = this w) then
        let '(continue, w) := gtk_search_entry_changed_timeout_cb w in
        if continue then w else g_source_remove id w
      else g_source_remove id w
    | other_func _ => w
    end
  | None => w
  end.

(** The timeouts of the main context that will emit search-changed on
    this entry. *)
Definition pending_search_changed (w : World) (id : Z) : Prop :=
  exists src, sources w !! id = Some src
    /\ func src = gtk_search_entry_changed_timeout_cb_func
    /\ user_data src = this w.

(** What happens around a search entry after [gtk_search_entry_init]: its
    text changes, its clear icon is released, the main loop dispatches a
    source, a search is stopped, a key capture widget is set, or the rest
    of the program adds or removes a timeout of its own.  What the
    handlers do during an emission is part of the step that emits. *)
Inductive step : World -> World -> Prop :=
| step_changed (new_text : string) (w : World) :
    step w (text_widget_changed new_text w)
| step_icon_release (w : World) :
    step w (gtk_search_entry_icon_release w)
| step_dispatch (id : Z) (w : World) :
    is_Some (sources w !! id) -> step w (dispatch id w)
| step_stop_search (w : World) :
    step w (gtk_search_entry_stop_search w)
| step_set_key_capture_widget (widget : option positive) (w : World) :
    step w (gtk_search_entry_set_key_capture_widget widget w)
| step_other_timeout_add (interval : Z) (f data : positive) (w : World) :
    step w (snd (g_timeout_add interval (other_func f) data w))
| step_other_source_remove (id : Z) (f : positive) (src : GSource) (w : World) :
    sources w !! id = Some src -> func src = other_func f ->
    step w (g_source_remove id w).

(** The main context before the search entry exists: the ids in use are
    positive and below the next id, and no source runs the callback of
    this file. *)
Definition initial (w : World) : Prop :=
  0 < next_source_id w
  /\ forall id src, sources w !! id = Some src ->
       0 < id < next_source_id w
       /\ func src <> gtk_search_entry_changed_timeout_cb_func.

(** The states of a search entry initialised in the state [w0]. *)
Inductive reachable (w0 : World) : World -> Prop :=
| reachable_init : reachable w0 (gtk_search_entry_init w0)
| reachable_step (w w' : World) : reachable w0 w -> step w w' -> reachable w0 w'.

End WithHandlers.

(** The source [reset_timeout] attaches. *)
Definition delayed_source (w : World) : GSource :=
  {| interval := DELAYED_TIMEOUT_ID;
     func := gtk_search_entry_changed_timeout_cb_func;
     user_data := this w;
     name := Some "[gtk] gtk_search_entry_changed_timeout_cb"%string |}.

(** The sources left when the pending timeout of the entry, if any, is
    cancelled. *)
Definition pending_cancelled (w : World) : gmap Z GSource :=
  if delayed_changed_id (obj w) >? 0 then delete (delayed_changed_id (obj w)) (sources w)
  else sources w.

(** What holds in every state of a search entry initialised in [w0]: its
    text widget is the one [gtk_text_new] created; the ids of the sources
    are positive and below the next id; the only timeout that can be
    pending for the entry is the one whose id it stores. *)
Record invariant (w0 w : World) : Prop := {
  inv_entry : entry (obj w) = Some (Pos.succ (next_object w0));
  inv_text : is_Some (texts w !! Pos.succ (next_object w0));
  inv_this : this w = this w0;
  inv_next : 0 < next_source_id w;
  inv_ids : forall id src, sources w !! id = Some src -> 0 < id < next_source_id w;
  inv_delayed : 0 <= delayed_changed_id (obj w);
  inv_pending : forall id, pending_search_changed w id -> id = delayed_changed_id (obj w)
}.

(** A main context without sources, for concrete runs. *)
Definition empty_world : World :=
  {| this := 1%positive; obj := zeroed_instance; texts := ∅; child_visible := ∅;
     sources := ∅; next_source_id := 1; next_object := 2%positive; emitted := [] |}.

(** A handler of search-changed that strips a trailing space from the text
    of the entry: it sets the text "g" when the text is "g ".  The text it
    sets is not empty, so that the change it makes emits no signal in
    turn. *)
Definition trimming_handlers : Handlers :=
  {| on_signal := fun id w =>
       match id with
       | SEARCH_CHANGED =>
         if bool_decide (gtk_editable_get_text (entry (obj w)) w = Some "g "%string)
         then text_widget_changed (handlers := no_handlers) "g" w
         else w
       | _ => w
       end |}.

End SearchEntry.

(** ** Dragging: snap regions, the monitor under the pointer *)
Module CInt.

(** The arithmetic of the C type [int] (and of [LONG], which has the same
    32 bits on Windows), as the compiled code computes it: in two's
    complement, a result outside the range wraps around. *)
Definition INT_MIN : Z := -0x80000000.
Definition INT_MAX : Z := 0x7fffffff.

Definition wrap (z : Z) : Z := (z + 0x80000000) mod 0x100000000 - 0x80000000.

Definition add (a b : Z) : Z := wrap (a + b).
Definition sub (a b : Z) : Z := wrap (a - b).
Definition mul (a b : Z) : Z := wrap (a * b).

(** The values of [int]. *)
Definition fits (z : Z) : Prop := INT_MIN <= z <= INT_MAX.

End CInt.

Infix "+ᵢ" := CInt.add (at level 50, left associativity).
Infix "-ᵢ" := CInt.sub (at level 50, left associativity).
Infix "*ᵢ" := CInt.mul (at level 40, left associativity).

Module Win32Drag.
Import Win32Surface.

(** [unity_of_rects]. *)
Definition unity_of_rects (a b : GdkRectangle.t) : GdkRectangle.t :=
  let u := b in
  let u :=
    if GdkRectangle.x a <? GdkRectangle.x u then
      {| GdkRectangle.x := GdkRectangle.x a;
         GdkRectangle.y := GdkRectangle.y u;
         GdkRectangle.width :=
           GdkRectangle.width u +ᵢ (GdkRectangle.x u -ᵢ GdkRectangle.x a);
         GdkRectangle.height := GdkRectangle.height u |}
    else u in
  let u :=
    if GdkRectangle.y a <? GdkRectangle.y u then
      {| GdkRectangle.x := GdkRectangle.x u;
         GdkRectangle.y := GdkRectangle.y a;
         GdkRectangle.width := GdkRectangle.width u;
         GdkRectangle.height :=
           GdkRectangle.height u +ᵢ (GdkRectangle.y u -ᵢ GdkRectangle.y a) |}
    else u in
  let u :=
    if GdkRectangle.x a +ᵢ GdkRectangle.width a
       >? GdkRectangle.x u +ᵢ GdkRectangle.width u then
      {| GdkRectangle.x := GdkRectangle.x u;
         GdkRectangle.y := GdkRectangle.y u;
         GdkRectangle.width :=
           GdkRectangle.width u
           +ᵢ ((GdkRectangle.x a +ᵢ GdkRectangle.width a)
               -ᵢ (GdkRectangle.x u +ᵢ GdkRectangle.width u));
         GdkRectangle.height := GdkRectangle.height u |}
    else u in
  if GdkRectangle.y a +ᵢ GdkRectangle.height a
     >? GdkRectangle.y u +ᵢ GdkRectangle.height u then
    {| GdkRectangle.x := GdkRectangle.x u;
       GdkRectangle.y := GdkRectangle.y u;
       GdkRectangle.width := GdkRectangle.width u;
       GdkRectangle.height :=
         GdkRectangle.height u
         +ᵢ ((GdkRectangle.y a +ᵢ GdkRectangle.height a)
             -ᵢ (GdkRectangle.y u +ᵢ GdkRectangle.height u)) |}
  else u.

(** [struct _AeroSnapEdgeRegion]. *)
Record AeroSnapEdgeRegion : Type := {
  edge : GdkRectangle.t;
  trigger : GdkRectangle.t
}.

(** The test [point_in_aerosnap_region] applies to each of the two
    rectangles of a region. *)
Definition point_in_rect (x y : Z) (r : GdkRectangle.t) : bool :=
  (x >=? GdkRectangle.x r) && (y >=? GdkRectangle.y r)
  && (x <=? GdkRectangle.x r +ᵢ GdkRectangle.width r)
  && (y <=? GdkRectangle.y r +ᵢ GdkRectangle.height r).

(** [point_in_aerosnap_region]. *)
Definition point_in_aerosnap_region (x y : Z) (region : AeroSnapEdgeRegion) : Z :=
  let edge := if point_in_rect x y (edge region) then 1 else 0 in
  let trigger := if point_in_rect x y (trigger region) then 1 else 0 in
  edge +ᵢ trigger.

(** [#define AEROSNAP_REGION_THICKNESS (20)] and
    [#define AEROSNAP_REGION_TRIGGER_THICKNESS (1)]. *)
Definition AEROSNAP_REGION_THICKNESS : Z := 20.
Definition AEROSNAP_REGION_TRIGGER_THICKNESS : Z := 1.

(** The arrays [move_edge] and [resize_edge] of
    [calculate_aerosnap_regions], by index: [_M_UP] 0, [_M_DOWN] 1,
    [_M_LEFT] 2, [_M_RIGHT] 3. *)
Record edges : Type := {
  move_edge_UP : bool;
  move_edge_DOWN : bool;
  move_edge_LEFT : bool;
  move_edge_RIGHT : bool;
  resize_edge_UP : bool;
  resize_edge_DOWN : bool
}.

(** The four arrays of regions of the drag context. *)
Record regions : Type := {
  maximize_regions : list AeroSnapEdgeRegion;
  halfleft_regions : list AeroSnapEdgeRegion;
  halfright_regions : list AeroSnapEdgeRegion;
  fullup_regions : list AeroSnapEdgeRegion
}.

Section WithMonitors.
Context {win32 : Win32Api}.

(** [gdk_monitor_get_geometry], of the core of GDK. *)
Variable gdk_monitor_get_geometry : positive -> GdkRectangle.t.

(** The body of the inner loop for the work area [other_wa] of another
    monitor. *)
Definition exclude_edges (wa other_wa : GdkRectangle.t) (e : edges) : edges :=
  let right :=
    if GdkRectangle.x other_wa >=? GdkRectangle.x wa +ᵢ GdkRectangle.width wa
    then false else move_edge_RIGHT e in
  let left :=
    if GdkRectangle.x other_wa +ᵢ GdkRectangle.width other_wa <=? GdkRectangle.x wa
    then false else move_edge_LEFT e in
  let up_blocked :=
    GdkRectangle.y other_wa +ᵢ GdkRectangle.height other_wa <=? GdkRectangle.y wa in
  let down :=
    if GdkRectangle.y other_wa >=? GdkRectangle.y wa +ᵢ GdkRectangle.height wa
    then false else resize_edge_DOWN e in
  {| move_edge_UP := if up_blocked then false else move_edge_UP e;
     move_edge_DOWN := move_edge_DOWN e;
     move_edge_LEFT := left;
     move_edge_RIGHT := right;
     resize_edge_UP := if up_blocked then false else resize_edge_UP e;
     resize_edge_DOWN := down |}.

(** The inner loop over the other monitors, from the index
    [other_monitor_idx] on. *)
Fixpoint other_monitors_loop (wa : GdkRectangle.t) (monitor_idx : Z)
    (others : list positive) (other_monitor_idx : Z) (e : edges) : edges :=
  match others with
  | [] => e
  | other_monitor :: rest =>
    if negb (move_edge_UP e || move_edge_LEFT e || move_edge_RIGHT e
             || resize_edge_DOWN e)
    then e
    else if other_monitor_idx =? monitor_idx then
      other_monitors_loop wa monitor_idx rest (other_monitor_idx + 1) e
    else
      let other_wa := gdk_win32_monitor_get_workarea (Some other_monitor) in
      other_monitors_loop wa monitor_idx rest (other_monitor_idx + 1)
        (exclude_edges wa other_wa e)
  end.

(** The four regions the body of the outer loop builds for a monitor. *)
Definition up_region (wa geometry : GdkRectangle.t) (thickness trigger_thickness : Z)
    : AeroSnapEdgeRegion :=
  let diff := GdkRectangle.y wa -ᵢ GdkRectangle.y geometry in
  {| edge := {| GdkRectangle.x := GdkRectangle.x wa;
                GdkRectangle.y := GdkRectangle.y wa -ᵢ diff;
                GdkRectangle.width := GdkRectangle.width wa;
                GdkRectangle.height := thickness +ᵢ diff |};
     trigger := {| GdkRectangle.x := GdkRectangle.x wa;
                   GdkRectangle.y := GdkRectangle.y wa -ᵢ diff;
                   GdkRectangle.width := GdkRectangle.width wa;
                   GdkRectangle.height := trigger_thickness +ᵢ diff |} |}.

Definition left_region (wa geometry : GdkRectangle.t) (thickness trigger_thickness : Z)
    : AeroSnapEdgeRegion :=
  let diff := GdkRectangle.x wa -ᵢ GdkRectangle.x geometry in
  {| edge := {| GdkRectangle.x := GdkRectangle.x wa -ᵢ diff;
                GdkRectangle.y := GdkRectangle.y wa;
                GdkRectangle.width := thickness +ᵢ diff;
                GdkRectangle.height := GdkRectangle.height wa |};
     trigger := {| GdkRectangle.x := GdkRectangle.x wa -ᵢ diff;
                   GdkRectangle.y := GdkRectangle.y wa;
                   GdkRectangle.width := trigger_thickness +ᵢ diff;
                   GdkRectangle.height := GdkRectangle.height wa |} |}.

Definition right_region (wa geometry : GdkRectangle.t) (thickness trigger_thickness : Z)
    : AeroSnapEdgeRegion :=
  let diff :=
    (GdkRectangle.x geometry +ᵢ GdkRectangle.width geometry)
    -ᵢ (GdkRectangle.x wa +ᵢ GdkRectangle.width wa) in
  {| edge := {| GdkRectangle.x :=
                  GdkRectangle.x wa +ᵢ (GdkRectangle.width wa -ᵢ thickness);
                GdkRectangle.y := GdkRectangle.y wa;
                GdkRectangle.width := thickness +ᵢ diff;
                GdkRectangle.height := GdkRectangle.height wa |};
     trigger := {| GdkRectangle.x :=
                     GdkRectangle.x wa +ᵢ (GdkRectangle.width wa -ᵢ trigger_thickness);
                   GdkRectangle.y := GdkRectangle.y wa;
                   GdkRectangle.width := trigger_thickness +ᵢ diff;
                   GdkRectangle.height := GdkRectangle.height wa |} |}.

Definition down_region (wa geometry : GdkRectangle.t) (thickness trigger_thickness : Z)
    : AeroSnapEdgeRegion :=
  let diff :=
    (GdkRectangle.y geometry +ᵢ GdkRectangle.height geometry)
    -ᵢ (GdkRectangle.y wa +ᵢ GdkRectangle.height wa) in
  {| edge := {| GdkRectangle.x := GdkRectangle.x wa;
                GdkRectangle.y :=
                  GdkRectangle.y wa +ᵢ (GdkRectangle.height wa -ᵢ thickness);
                GdkRectangle.width := GdkRectangle.width wa;
                GdkRectangle.height := thickness +ᵢ diff |};
     trigger := {| GdkRectangle.x := GdkRectangle.x wa;
                   GdkRectangle.y :=
                     GdkRectangle.y wa +ᵢ (GdkRectangle.height wa -ᵢ trigger_thickness);
                   GdkRectangle.width := GdkRectangle.width wa;
                   GdkRectangle.height := trigger_thickness +ᵢ diff |} |}.

(** The edges of the monitor [monitor], at the index [monitor_idx], that
    are left when the inner loop ends. *)
Definition monitor_edges (monitor_idx : Z) (monitor : positive) : edges :=
  other_monitors_loop (gdk_win32_monitor_get_workarea (Some monitor)) monitor_idx
    gdk_display_get_monitors 0
    {| move_edge_UP := true; move_edge_DOWN := false;
       move_edge_LEFT := true; move_edge_RIGHT := true;
       resize_edge_UP := true; resize_edge_DOWN := true |}.

(** The body of the outer loop: the regions of one monitor are appended
    to the arrays. *)
Definition append_monitor_regions (surface_scale : Z) (monitor_idx : Z)
    (monitor : positive) (context : regions) : regions :=
  let wa := gdk_win32_monitor_get_workarea (Some monitor) in
  let geometry := gdk_monitor_get_geometry monitor in
  let e := monitor_edges monitor_idx monitor in
  let thickness := AEROSNAP_REGION_THICKNESS *ᵢ surface_scale in
  let trigger_thickness := AEROSNAP_REGION_TRIGGER_THICKNESS *ᵢ surface_scale in
  let up := up_region wa geometry thickness trigger_thickness in
  let maximize :=
    if move_edge_UP e then maximize_regions context ++ [up]
    else maximize_regions context in
  let fullup :=
    if resize_edge_UP e then fullup_regions context ++ [up]
    else fullup_regions context in
  let halfleft :=
    if move_edge_LEFT e
    then halfleft_regions context
         ++ [left_region wa geometry thickness trigger_thickness]
    else halfleft_regions context in
  let halfright :=
    if move_edge_RIGHT e
    then halfright_regions context
         ++ [right_region wa geometry thickness trigger_thickness]
    else halfright_regions context in
  let fullup :=
    if resize_edge_DOWN e
    then fullup ++ [down_region wa geometry thickness trigger_thickness]
    else fullup in
  {| maximize_regions := maximize; halfleft_regions := halfleft;
     halfright_regions := halfright; fullup_regions := fullup |}.

(** The outer loop, from the index [monitor_idx] on. *)
Fixpoint monitors_loop (surface_scale : Z) (monitors : list positive) (monitor_idx : Z)
    (context : regions) : regions :=
  match monitors with
  | [] => context
  | monitor :: rest =>
    monitors_loop surface_scale rest (monitor_idx + 1)
      (append_monitor_regions surface_scale monitor_idx monitor context)
  end.

(** [calculate_aerosnap_regions], for the arrays of the context and the
    scale of its window. *)
Definition calculate_aerosnap_regions (surface_scale : Z) (context : regions) : regions :=
  monitors_loop surface_scale gdk_display_get_monitors 0 context.

(** [G_MAXINT]. *)
Definition G_MAXINT : Z := CInt.INT_MAX.

(** The distance [get_monitor_at_point] computes between a point and the
    geometry of a monitor. *)
Definition point_distance (x y : Z) (geometry : GdkRectangle.t) : Z :=
  let dist_x :=
    if x <? GdkRectangle.x geometry then GdkRectangle.x geometry -ᵢ x
    else if GdkRectangle.x geometry +ᵢ GdkRectangle.width geometry <=? x
    then x -ᵢ (GdkRectangle.x geometry +ᵢ GdkRectangle.width geometry) +ᵢ 1
    else 0 in
  let dist_y :=
    if y <? GdkRectangle.y geometry then GdkRectangle.y geometry -ᵢ y
    else if GdkRectangle.y geometry +ᵢ GdkRectangle.height geometry <=? y
    then y -ᵢ (GdkRectangle.y geometry +ᵢ GdkRectangle.height geometry) +ᵢ 1
    else 0 in
  dist_x +ᵢ dist_y.

(** The loop of [get_monitor_at_point] from some monitor on, with the
    current [nearest] and [nearest_dist].  The body computes the distance
    and compares it twice, as the source does. *)
Fixpoint nearest_monitor_from (x y : Z) (monitors : list positive)
    (nearest : option positive) (nearest_dist : Z) : option positive :=
  match monitors with
  | [] => nearest
  | monitor :: rest =>
    let geometry := gdk_monitor_get_geometry monitor in
    let dist := point_distance x y geometry in
    let '(nearest, nearest_dist) :=
      if dist <? nearest_dist then (Some monitor, dist) else (nearest, nearest_dist) in
    let dist := point_distance x y geometry in
    let '(nearest, nearest_dist) :=
      if dist <? nearest_dist then (Some monitor, dist) else (nearest, nearest_dist) in
    if nearest_dist =? 0 then nearest
    else nearest_monitor_from x y rest nearest nearest_dist
  end.

(** [get_monitor_at_point]; [None] is NULL. *)
Definition get_monitor_at_point (x y : Z) : option positive :=
  nearest_monitor_from x y gdk_display_get_monitors None G_MAXINT.

End WithMonitors.

(** *** The snap the pointer selects while dragging *)

Inductive GdkW32WindowDragOp : Type :=
| GDK_WIN32_DRAGOP_NONE
| GDK_WIN32_DRAGOP_MOVE
| GDK_WIN32_DRAGOP_RESIZE.

Inductive GdkSurfaceEdge : Type :=
| GDK_SURFACE_EDGE_NORTH_WEST
| GDK_SURFACE_EDGE_NORTH
| GDK_SURFACE_EDGE_NORTH_EAST
| GDK_SURFACE_EDGE_WEST
| GDK_SURFACE_EDGE_EAST
| GDK_SURFACE_EDGE_SOUTH_WEST
| GDK_SURFACE_EDGE_SOUTH
| GDK_SURFACE_EDGE_SOUTH_EAST.

(** The fields of [GdkW32DragMoveResizeContext] that
    [handle_aerosnap_move_resize] reads or writes. *)
Record GdkW32DragMoveResizeContext : Type := {
  op : GdkW32WindowDragOp;
  drag_edge : GdkSurfaceEdge;
  revealed : bool;
  current_snap : GdkWin32AeroSnapState;
  snap_regions : regions
}.

(** The calls [handle_aerosnap_move_resize] makes to the functions that
    draw the snap indicator; these leave the fields above alone. *)
Inductive indicator_call : Type :=
| start_indicator (x y : Z) (state : GdkWin32AeroSnapState)
| stop_indicator
| update_fullup_indicator.

(** The loops [for (i = 0; i < regions->len && hit == 0; i++)
    hit = point_in_aerosnap_region (x, y, region i);]. *)
Fixpoint first_hit (x y : Z) (l : list AeroSnapEdgeRegion) : Z :=
  match l with
  | [] => 0
  | reg :: rest =>
    let hit := point_in_aerosnap_region x y reg in
    if hit =? 0 then first_hit x y rest else hit
  end.

Definition is_move (o : GdkW32WindowDragOp) : bool :=
  match o with GDK_WIN32_DRAGOP_MOVE => true | _ => false end.

Definition is_resize (o : GdkW32WindowDragOp) : bool :=
  match o with GDK_WIN32_DRAGOP_RESIZE => true | _ => false end.

Definition with_snap (snap : GdkWin32AeroSnapState) (is_revealed : bool)
    (context : GdkW32DragMoveResizeContext) : GdkW32DragMoveResizeContext :=
  {| op := op context; drag_edge := drag_edge context; revealed := is_revealed;
     current_snap := snap; snap_regions := snap_regions context |}.

(** [handle_aerosnap_move_resize]: the context after the call and the
    indicator calls made. *)
Definition handle_aerosnap_move_resize (context : GdkW32DragMoveResizeContext) (x y : Z)
    : GdkW32DragMoveResizeContext * list indicator_call :=
  let fullup_edge :=
    if is_resize (op context) then
      match drag_edge context with
      | GDK_SURFACE_EDGE_SOUTH | GDK_SURFACE_EDGE_NORTH => true
      | _ => false
      end
    else false in
  let maximize := first_hit x y (maximize_regions (snap_regions context)) in
  let halfleft := first_hit x y (halfleft_regions (snap_regions context)) in
  let halfright := first_hit x y (halfright_regions (snap_regions context)) in
  let fullup := first_hit x y (fullup_regions (snap_regions context)) in
  let start (snap : GdkWin32AeroSnapState) (is_revealed : bool) :=
    (with_snap snap is_revealed context, [start_indicator x y snap]) in
  if negb (revealed context) then
    if is_move (op context) && (maximize =? 2)
    then start GDK_WIN32_AEROSNAP_STATE_MAXIMIZE true
    else if is_move (op context) && (halfleft =? 2)
    then start GDK_WIN32_AEROSNAP_STATE_HALFLEFT true
    else if is_move (op context) && (halfright =? 2)
    then start GDK_WIN32_AEROSNAP_STATE_HALFRIGHT true
    else if is_resize (op context) && (fullup =? 2) && fullup_edge
    then start GDK_WIN32_AEROSNAP_STATE_FULLUP true
    else (context, [])
  else
    match current_snap context with
    | GDK_WIN32_AEROSNAP_STATE_UNDETERMINED =>
      if is_resize (op context) && (fullup >? 0)
      then start GDK_WIN32_AEROSNAP_STATE_FULLUP (revealed context)
      else (context, [])
    | GDK_WIN32_AEROSNAP_STATE_MAXIMIZE =>
      if is_move (op context) && (maximize >? 0) then (context, [])
      else if is_move (op context) && (halfleft >? 0)
      then start GDK_WIN32_AEROSNAP_STATE_HALFLEFT (revealed context)
      else if is_move (op context) && (halfright >? 0)
      then start GDK_WIN32_AEROSNAP_STATE_HALFRIGHT (revealed context)
      else (with_snap GDK_WIN32_AEROSNAP_STATE_UNDETERMINED false context,
            [stop_indicator])
    | GDK_WIN32_AEROSNAP_STATE_HALFLEFT =>
      if is_move (op context) && (halfleft >? 0) then (context, [])
      else if is_move (op context) && (maximize >? 0)
      then start GDK_WIN32_AEROSNAP_STATE_MAXIMIZE (revealed context)
      else if is_move (op context) && (halfright >? 0)
      then start GDK_WIN32_AEROSNAP_STATE_HALFRIGHT (revealed context)
      else (with_snap GDK_WIN32_AEROSNAP_STATE_UNDETERMINED false context,
            [stop_indicator])
    | GDK_WIN32_AEROSNAP_STATE_HALFRIGHT =>
      if is_move (op context) && (halfright >? 0) then (context, [])
      else if is_move (op context) && (maximize >? 0)
      then start GDK_WIN32_AEROSNAP_STATE_MAXIMIZE (revealed context)
      else if is_move (op context) && (halfleft >? 0)
      then start GDK_WIN32_AEROSNAP_STATE_HALFLEFT (revealed context)
      else (with_snap GDK_WIN32_AEROSNAP_STATE_UNDETERMINED false context,
            [stop_indicator])
    | GDK_WIN32_AEROSNAP_STATE_FULLUP =>
      if is_resize (op context) && (fullup >? 0) && fullup_edge
      then (context, [update_fullup_indicator])
      else (with_snap GDK_WIN32_AEROSNAP_STATE_UNDETERMINED (revealed context) context,
            [stop_indicator])
    end.

(** *** Properties of regions and of the drag context *)

(** Coordinates and sizes of at most 2^28 in absolute value: on such
    rectangles and points no [int] computation of the functions above
    overflows. *)
Definition COORD_MAX : Z := 0x10000000.

Definition small (z : Z) : Prop := - COORD_MAX <= z <= COORD_MAX.

Definition small_rect (r : GdkRectangle.t) : Prop :=
  small (GdkRectangle.x r) /\ small (GdkRectangle.y r)
  /\ small (GdkRectangle.width r) /\ small (GdkRectangle.height r).

(** Every point of the trigger rectangle of a region lies in its edge
    rectangle. *)
Definition trigger_inside_edge (r : AeroSnapEdgeRegion) : Prop :=
  forall x y, point_in_rect x y (trigger r) = true ->
              point_in_rect x y (edge r) = true.

Definition regions_well_formed (c : regions) : Prop :=
  Forall trigger_inside_edge (maximize_regions c)
  /\ Forall trigger_inside_edge (halfleft_regions c)
  /\ Forall trigger_inside_edge (halfright_regions c)
  /\ Forall trigger_inside_edge (fullup_regions c).

(** The arrays as [setup_drag_move_resize_context] creates them. *)
Definition no_regions : regions :=
  {| maximize_regions := []; halfleft_regions := [];
     halfright_regions := []; fullup_regions := [] |}.

(** The snap of a context agrees with its operation, and a context that
    is not revealed has no snap. *)
Definition drag_invariant (c : GdkW32DragMoveResizeContext) : Prop :=
  (revealed c = false -> current_snap c = GDK_WIN32_AEROSNAP_STATE_UNDETERMINED)
  /\ match current_snap c with
     | GDK_WIN32_AEROSNAP_STATE_UNDETERMINED => True
     | GDK_WIN32_AEROSNAP_STATE_FULLUP => op c = GDK_WIN32_DRAGOP_RESIZE
     | _ => op c = GDK_WIN32_DRAGOP_MOVE
     end.

(** A context at the start of a drag. *)
Definition drag_start (o : GdkW32WindowDragOp) (e : GdkSurfaceEdge) (r : regions)
    : GdkW32DragMoveResizeContext :=
  {| op := o; drag_edge := e; revealed := false;
     current_snap := GDK_WIN32_AEROSNAP_STATE_UNDETERMINED; snap_regions := r |}.

(** The geometry of the two monitors of [Instances.fixed_win32]: the first
    has a task bar of 40 pixels below its work area. *)
Definition fixed_geometry (monitor : positive) : GdkRectangle.t :=
  match monitor with
  | 2%positive =>
    {| GdkRectangle.x := 1920; GdkRectangle.y := 0;
       GdkRectangle.width := 640; GdkRectangle.height := 480 |}
  | _ =>
    {| GdkRectangle.x := 0; GdkRectangle.y := 0;
       GdkRectangle.width := 1920; GdkRectangle.height := 1080 |}
  end.

(** The regions of the two monitors of the concrete display at scale 1. *)
Definition two_monitor_regions : regions :=
  calculate_aerosnap_regions (win32 := Instances.placed_win32) fixed_geometry 1
    no_regions.

End Win32Drag.

(** ** More of the Win32 surface backend *)
Module Win32SurfaceExt.
Import WinUser Win32Surface.

Section WithWin32.
Context {double_arith : DoubleArith} {win32 : Win32Api}.

(** [gdk_win32_surface_move]. *)
Definition gdk_win32_surface_move (x y : Z) : Gdk unit :=
  gdk_win32_surface_move_resize_internal true x y (-1) (-1).

Definition set_shadow (v : RECT.t) (v_x v_y : Z) (s : GdkWin32Surface)
    : GdkWin32Surface :=
  {| surface_type := surface_type s;
     destroyed := destroyed s;
     is_mapped := is_mapped s;
     state := state s;
     x := Win32Surface.x s;
     width := width s;
     height := height s;
     resize_count := resize_count s;
     gl_paint_context_uses_es := gl_paint_context_uses_es s;
     egl_force_redraw_all := egl_force_redraw_all s;
     decorate_all := decorate_all s;
     hint_flags := hint_flags s;
     hints := hints s;
     surface_scale := surface_scale s;
     shadow := v;
     shadow_x := v_x;
     shadow_y := v_y;
     snap_state := snap_state s;
     snap_stash := snap_stash s;
     snap_stash_int := snap_stash_int s;
     inhibit_configure := inhibit_configure s;
     force_recompute_size := force_recompute_size s;
     maximizing := maximizing s |}.

(** [gdk_win32_surface_set_shadow_width].  The result is the value the
    function stores in [impl->zero_shadow], a field that no other modelled
    function reads; [None] when it stores nothing. *)
Definition gdk_win32_surface_set_shadow_width (left right top bottom : Z)
    : Gdk (option bool) :=
  impl ← get_impl;
  if destroyed impl then mret None
  else
    let zero_shadow := (left =? 0) && (right =? 0) && (top =? 0) && (bottom =? 0) in
    if zero_shadow then mret (Some zero_shadow)
    else
      modify (set_shadow
                {| RECT.left := left *ᵢ surface_scale impl;
                   RECT.top := top *ᵢ surface_scale impl;
                   RECT.right := right *ᵢ surface_scale impl;
                   RECT.bottom := bottom *ᵢ surface_scale impl |}
                (left +ᵢ right) (top +ᵢ bottom));;
      mret (Some zero_shadow).

(** The six style bits [_gdk_win32_surface_lacks_wm_decorations] tests. *)
Definition decoration_bits : Z :=
  Z.lor (Z.lor (Z.lor (Z.lor (Z.lor WS_BORDER WS_THICKFRAME) WS_CAPTION) WS_SYSMENU)
               WS_MINIMIZEBOX)
        WS_MAXIMIZEBOX.

(** [_gdk_win32_surface_lacks_wm_decorations], for the window handle
    [hwnd] of the surface. *)
Definition _gdk_win32_surface_lacks_wm_decorations (hwnd : Z) : Gdk bool :=
  impl ← get_impl;
  if destroyed impl then mret false
  else if negb (decorate_all impl) then mret true
  else if hwnd =? 0 then mret false
  else
    h ← history;
    let style := GetWindowLong h GWL_STYLE in
    if style =? 0 then mret false
    else
      let has_any_decorations := truth (Z.land style decoration_bits) in
      mret (negb has_any_decorations).

(** The two stashes are allocated together and freed together. *)
Definition stash_paired (s : GdkWin32Surface) : Prop :=
  snap_stash s = None <-> snap_stash_int s = None.

(** The three fields of the surface that belong to AeroSnap. *)
Definition snap_fields (s : GdkWin32Surface)
    : GdkWin32AeroSnapState * option GdkRectangleDouble.t * option GdkRectangle.t :=
  (snap_state s, snap_stash s, snap_stash_int s).

(** A computation keeps a property of the surface. *)
Definition preserves {A : Type} (P : GdkWin32Surface -> Prop) (m : Gdk A) : Prop :=
  forall w, P (impl w) -> P (impl (snd (m w))).

(** The calls of a list that are messages. *)
Definition is_g_message (c : call) : bool :=
  match c with g_message _ => true | _ => false end.

End WithWin32.

(** The window system of [Instances.placed_win32] with a window whose
    style is [style]. *)
Definition styled_win32 (style : Z) : Win32Api := {|
  GetWindowLong := fun _ index =>
    match index with GWL_STYLE => style | GWL_EXSTYLE => 0x00000100 end;
  GetClientRect := GetClientRect (Win32Api := Instances.placed_win32);
  GetWindowRect := GetWindowRect (Win32Api := Instances.placed_win32);
  AdjustWindowRectEx := AdjustWindowRectEx (Win32Api := Instances.placed_win32);
  GetWindowPlacement := GetWindowPlacement (Win32Api := Instances.placed_win32);
  GetMonitorInfoA := GetMonitorInfoA (Win32Api := Instances.placed_win32);
  GetSystemMetrics_SM_CYVIRTUALSCREEN :=
    GetSystemMetrics_SM_CYVIRTUALSCREEN (Win32Api := Instances.placed_win32);
  IsWindowVisible := IsWindowVisible (Win32Api := Instances.placed_win32);
  active_window_is_self := active_window_is_self (Win32Api := Instances.placed_win32);
  modal_move_resize := modal_move_resize (Win32Api := Instances.placed_win32);
  gdk_win32_monitor_get_workarea :=
    gdk_win32_monitor_get_workarea (Win32Api := Instances.placed_win32);
  gdk_display_get_monitors :=
    gdk_display_get_monitors (Win32Api := Instances.placed_win32);
  gdk_display_get_monitor_at_surface :=
    gdk_display_get_monitor_at_surface (Win32Api := Instances.placed_win32);
  gdk_win32_display_get_primary_monitor :=
    gdk_win32_display_get_primary_monitor (Win32Api := Instances.placed_win32);
  gdk_win32_display_get_monitor_scale_factor :=
    gdk_win32_display_get_monitor_scale_factor (Win32Api := Instances.placed_win32)
|}.

End Win32SurfaceExt.

(** ** More of the search entry *)

(** Key symbols of [gdkkeysyms.h] that the search entry tests. *)
Module GdkKeysymsNav.

Definition GDK_KEY_Tab : Z := 0xff09.
Definition GDK_KEY_KP_Tab : Z := 0xff89.
Definition GDK_KEY_Up : Z := 0xff52.
Definition GDK_KEY_KP_Up : Z := 0xff97.
Definition GDK_KEY_Down : Z := 0xff54.
Definition GDK_KEY_KP_Down : Z := 0xff99.
Definition GDK_KEY_Left : Z := 0xff51.
Definition GDK_KEY_KP_Left : Z := 0xff96.
Definition GDK_KEY_Right : Z := 0xff53.
Definition GDK_KEY_KP_Right : Z := 0xff98.
Definition GDK_KEY_Home : Z := 0xff50.
Definition GDK_KEY_KP_Home : Z := 0xff95.
Definition GDK_KEY_End : Z := 0xff57.
Definition GDK_KEY_KP_End : Z := 0xff9c.
Definition GDK_KEY_Page_Up : Z := 0xff55.
Definition GDK_KEY_KP_Page_Up : Z := 0xff9a.
Definition GDK_KEY_Page_Down : Z := 0xff56.
Definition GDK_KEY_KP_Page_Down : Z := 0xff9b.
Definition GDK_KEY_Menu : Z := 0xff67.

End GdkKeysymsNav.

Module SearchEntryExt.
Import GdkKeysyms GdkKeysymsNav SearchEntry.

(** [gtk_search_entry_finalize], as far as the modelled state goes: the
    two child pointers are cleared, the pending timeout is removed and the
    key capture widget is unset.  Unparenting the children and the
    finalizer of the parent class touch none of it. *)
Definition gtk_search_entry_finalize (w : World) : World :=
  let w := set_obj (set_entry None (obj w)) w in
  let w := set_obj (set_icon None (obj w)) w in
  let w :=
    if delayed_changed_id (obj w) >? 0 then g_source_remove (delayed_changed_id (obj w)) w
    else w in
  gtk_search_entry_set_key_capture_widget None w.

(** [gtk_search_entry_is_keynav]. *)
Definition gtk_search_entry_is_keynav (keyval state : Z) : bool :=
  (keyval =? GDK_KEY_Tab) || (keyval =? GDK_KEY_KP_Tab)
  || (keyval =? GDK_KEY_Up) || (keyval =? GDK_KEY_KP_Up)
  || (keyval =? GDK_KEY_Down) || (keyval =? GDK_KEY_KP_Down)
  || (keyval =? GDK_KEY_Left) || (keyval =? GDK_KEY_KP_Left)
  || (keyval =? GDK_KEY_Right) || (keyval =? GDK_KEY_KP_Right)
  || (keyval =? GDK_KEY_Home) || (keyval =? GDK_KEY_KP_Home)
  || (keyval =? GDK_KEY_End) || (keyval =? GDK_KEY_KP_End)
  || (keyval =? GDK_KEY_Page_Up) || (keyval =? GDK_KEY_KP_Page_Up)
  || (keyval =? GDK_KEY_Page_Down) || (keyval =? GDK_KEY_KP_Page_Down)
  || negb (Z.land state (Z.lor GDK_CONTROL_MASK GDK_ALT_MASK) =? 0).

(** [gtk_text_get_text_length] on the text widget of the entry; 0 when
    there is none. *)
Definition gtk_text_get_text_length (text : option positive) (w : World) : nat :=
  match gtk_editable_get_text text w with
  | Some str => String.length str
  | None => 0%nat
  end.

Section WithForward.
Context {handlers : Handlers}.

(** [gtk_event_controller_key_forward (controller, entry->entry)]: what
    the text widget does with the key, which may run the handlers of the
    search entry, and whether it handled the key. *)
Variable gtk_event_controller_key_forward : World -> bool * World.

(** [capture_widget_key_handled]; [GDK_EVENT_STOP] is TRUE and
    [GDK_EVENT_PROPAGATE] is FALSE. *)
Definition capture_widget_key_handled (keyval state : Z) (w : World) : bool * World :=
  if gtk_search_entry_is_keynav keyval state
     || (keyval =? GDK_KEY_space) || (keyval =? GDK_KEY_Menu)
  then (false, w)
  else
    let w := set_obj (set_content_changed false (obj w)) w in
    let w := set_obj (set_search_stopped false (obj w)) w in
    let was_empty := Nat.eqb (gtk_text_get_text_length (entry (obj w)) w) 0 in
    let '(handled, w) := gtk_event_controller_key_forward w in
    if handled then
      let w :=
        if was_empty && content_changed (obj w) && negb (search_stopped (obj w))
        then g_signal_emit SEARCH_STARTED w
        else w in
      (true, w)
    else (false, w).

(** The text widget handles a key by taking the text [new_text]. *)
Definition key_inserts (new_text : string) (w : World) : bool * World :=
  (true, text_widget_changed new_text w).

(** Typing the texts of a list, one after the other. *)
Definition type_texts (new_texts : list string) (w : World) : World :=
  fold_left (fun w new_text => text_widget_changed new_text w) new_texts w.

End WithForward.

End SearchEntryExt.

(** ** The input-method context and the Windows input method

    The functions of the context that talk to the input method manager.
    The context of [Ime] is kept as it is, with the other fields of
    [GtkIMContextIME] around it.  What the context does to the outside is
    kept as a list of events, oldest first: the signals it emits and the
    calls it makes.  The handlers of the signals belong to the rest of the
    program; the model records an emission and runs no handler, so it
    describes the functions for handlers that do not call back into the
    context. *)
Module ImeSession.
Import Ime.

(** Constants of [imm.h], [winuser.h] and [gdkwin32misc.h]. *)
Definition GCS_COMPSTR : Z := 0x0008.
Definition GCS_CURSORPOS : Z := 0x0080.
Definition GCS_RESULTSTR : Z := 0x0800.
Definition WM_IME_STARTCOMPOSITION : Z := 0x010D.
Definition WM_IME_ENDCOMPOSITION : Z := 0x010E.
Definition WM_IME_COMPOSITION : Z := 0x010F.
Definition WM_IME_NOTIFY : Z := 0x0282.
Definition IMN_SETOPENSTATUS : Z := 0x0008.
Definition GDK_WIN32_MESSAGE_FILTER_CONTINUE : Z := 0.
Definition GDK_WIN32_MESSAGE_FILTER_REMOVE : Z := 1.
Definition TRUE : Z := 1.

Inductive GtkWin32IMEFocusBehavior : Type :=
| GTK_WIN32_IME_FOCUS_BEHAVIOR_COMMIT
| GTK_WIN32_IME_FOCUS_BEHAVIOR_DISCARD
| GTK_WIN32_IME_FOCUS_BEHAVIOR_FOLLOW.

(** [GtkIMContextIME] with its private part: [key] holds the fields the
    key filter uses. *)
Record context : Type := {
  key : GtkIMContextIME;
  use_preedit : bool;
  preediting : bool;
  opened : bool;
  cursor_location : GdkRectangle.t;
  pretend_empty_preedit : bool;
  focus_behavior : GtkWin32IMEFocusBehavior
}.

Definition set_key (v : GtkIMContextIME) (c : context) : context :=
  {| key := v; use_preedit := use_preedit c; preediting := preediting c;
     opened := opened c; cursor_location := cursor_location c;
     pretend_empty_preedit := pretend_empty_preedit c;
     focus_behavior := focus_behavior c |}.

Definition set_focus (v : bool) (c : context) : context :=
  set_key {| client_surface := client_surface (key c); focus := v;
             dead_key_keyval := dead_key_keyval (key c) |} c.

Definition set_client_surface (v : option positive) (c : context) : context :=
  set_key {| client_surface := v; focus := focus (key c);
             dead_key_keyval := dead_key_keyval (key c) |} c.

Definition set_use_preedit (v : bool) (c : context) : context :=
  {| key := key c; use_preedit := v; preediting := preediting c;
     opened := opened c; cursor_location := cursor_location c;
     pretend_empty_preedit := pretend_empty_preedit c;
     focus_behavior := focus_behavior c |}.

Definition set_preediting (v : bool) (c : context) : context :=
  {| key := key c; use_preedit := use_preedit c; preediting := v;
     opened := opened c; cursor_location := cursor_location c;
     pretend_empty_preedit := pretend_empty_preedit c;
     focus_behavior := focus_behavior c |}.

Definition set_opened (v : bool) (c : context) : context :=
  {| key := key c; use_preedit := use_preedit c; preediting := preediting c;
     opened := v; cursor_location := cursor_location c;
     pretend_empty_preedit := pretend_empty_preedit c;
     focus_behavior := focus_behavior c |}.

Definition set_cursor_location (v : GdkRectangle.t) (c : context) : context :=
  {| key := key c; use_preedit := use_preedit c; preediting := preediting c;
     opened := opened c; cursor_location := v;
     pretend_empty_preedit := pretend_empty_preedit c;
     focus_behavior := focus_behavior c |}.

Definition set_pretend_empty_preedit (v : bool) (c : context) : context :=
  {| key := key c; use_preedit := use_preedit c; preediting := preediting c;
     opened := opened c; cursor_location := cursor_location c;
     pretend_empty_preedit := v;
     focus_behavior := focus_behavior c |}.

(** What leaves the context: a signal emitted on it, or a call that
    changes something outside.  [gtk_im_context_ime_set_preedit_font] is
    not modelled and stands here as a call. *)
Inductive event : Type :=
| preedit_start
| preedit_changed
| preedit_end
| commit (utf8 : list Z)
| ImmNotifyIME_CPS_CANCEL
| ImmSetCompositionWindow (x y : Z)
| ImmSetCandidateWindow (x y : Z)
| ImmReleaseContext
| gdk_win32_display_add_filter
| gdk_win32_display_remove_filter
| gtk_im_context_ime_set_preedit_font
| g_warning (text : string).

Record World : Type := {
  ctx : context;
  events : list event
}.

(** What the input method manager, the window system and GDK answer; an
    answer may depend on what happened before.  [ImmGetContext] tells
    whether the input context is not NULL.  [g_utf16_to_utf8] is given for
    the composition string of the kind asked for, as the bytes of the C
    string it returns, [None] when it fails and returns NULL; the warning
    then printed has the message of the error.  [popup_parents] is the chain of parents that the recursion of
    [get_window_position] walks. *)
Class ImmApi : Type := {
  gdk_win32_surface_get_impl_hwnd : option positive -> Z;
  ImmGetContext : list event -> bool;
  ImmGetOpenStatus : list event -> bool;
  ImmGetCompositionStringW_size : list event -> Z -> Z;
  g_utf16_to_utf8 : list event -> Z -> option (list Z);
  GetWindowRect_left_top : list event -> Z * Z;
  ClientToScreen : list event -> Z * Z -> Z * Z;
  popup_parents : positive -> list positive
}.

(** The state monad over [World]. *)
Definition IM (A : Type) : Type := World -> A * World.

#[global] Instance IM_ret : MRet IM := fun A (a : A) (w : World) => (a, w).

#[global] Instance IM_bind : MBind IM :=
  fun A B (k : A -> IM B) (m : IM A) (w : World) => let '(a, w') := m w in k a w'.

Definition get_ctx : IM context := fun w => (ctx w, w).

Definition past : IM (list event) := fun w => (events w, w).

Definition update (f : context -> context) : IM unit :=
  fun w => (tt, {| ctx := f (ctx w); events := events w |}).

Definition emit (e : event) : IM unit :=
  fun w => (tt, {| ctx := ctx w; events := events w ++ [e] |}).

Definition done : IM unit := mret tt.

Section WithImm.
Context {imm : ImmApi}.

(** [gtk_im_context_ime_init]. *)
Definition gtk_im_context_ime_init : context :=
  {| key := {| client_surface := None; focus := false; dead_key_keyval := 0 |};
     use_preedit := true;
     preediting := false;
     opened := false;
     cursor_location :=
       {| GdkRectangle.x := 0; GdkRectangle.y := 0;
          GdkRectangle.width := 0; GdkRectangle.height := 0 |};
     pretend_empty_preedit := false;
     focus_behavior := GTK_WIN32_IME_FOCUS_BEHAVIOR_COMMIT |}.

(** [get_utf8_preedit_string]: the string returned, as the bytes of the C
    string, [None] for NULL, and the value left in [*pos_ret]; [want_pos]
    tells whether [pos_ret] is not NULL. *)
Definition get_utf8_preedit_string (kind : Z) (want_pos : bool)
    : IM (option (list Z) * Z) :=
  context_ime ← get_ctx;
  match client_surface (key context_ime) with
  | None => mret (Some [], 0)
  | Some _ =>
    h ← past;
    if negb (ImmGetContext h) then mret (Some [], 0)
    else
      let size := ImmGetCompositionStringW_size h kind in
      utf8str ←
        (if size >? 0 then
           let utf8str := g_utf16_to_utf8 h kind in
           match utf8str with
           | None => emit (g_warning "%s")
           | Some _ => done
           end;;
           mret utf8str
         else mret None);
      pos ←
        (if want_pos then
           h ← past;
           let pos := ImmGetCompositionStringW_size h GCS_CURSORPOS in
           if (pos <? 0) || (size <? pos) then
             emit (g_warning "ImmGetCompositionString: Invalid cursor position!");;
             mret 0
           else mret pos
         else mret 0);
      let '(utf8str, pos) :=
        match utf8str with
        | None => (Some [], 0)
        | Some _ => (utf8str, pos)
        end in
      emit ImmReleaseContext;;
      mret (utf8str, if want_pos then pos else 0)
  end.

(** [gtk_im_context_ime_get_preedit_string] called with [attrs] NULL: the
    string and the cursor position. *)
Definition gtk_im_context_ime_get_preedit_string : IM (option (list Z) * Z) :=
  context_ime ← get_ctx;
  if negb (focus (key context_ime)) || pretend_empty_preedit context_ime
  then mret (Some [], 0)
  else get_utf8_preedit_string GCS_COMPSTR true.

(** [gtk_im_context_ime_reset]. *)
Definition gtk_im_context_ime_reset : IM unit :=
  context_ime ← get_ctx;
  match client_surface (key context_ime) with
  | None => done
  | Some _ =>
    h ← past;
    if negb (ImmGetContext h) then done
    else
      emit ImmNotifyIME_CPS_CANCEL;;
      (if preediting context_ime then
         update (set_preediting false);;
         emit preedit_changed
       else done);;
      emit ImmReleaseContext
  end.

(** [get_window_position] along the chain of parents: no level writes
    [*x] or [*y]. *)
Fixpoint get_window_position (parents : list positive) (x y : Z) : Z * Z :=
  match parents with
  | [] => (x, y)
  | parent :: rest => get_window_position rest x y
  end.

(** [gtk_im_context_ime_set_cursor_location]; [None] is a NULL [area]. *)
Definition gtk_im_context_ime_set_cursor_location (area : option GdkRectangle.t)
    : IM unit :=
  match area with
  | Some area => update (set_cursor_location area)
  | None => done
  end;;
  context_ime ← get_ctx;
  match client_surface (key context_ime) with
  | None => done
  | Some surface =>
    h ← past;
    if negb (ImmGetContext h) then done
    else
      let '(wx, wy) := get_window_position (popup_parents surface) 0 0 in
      emit (ImmSetCompositionWindow
              (wx + GdkRectangle.x (cursor_location context_ime))
              (wy + GdkRectangle.y (cursor_location context_ime)));;
      emit ImmReleaseContext
  end.

(** [gtk_im_context_ime_set_use_preedit]. *)
Definition gtk_im_context_ime_set_use_preedit (v : bool) : IM unit :=
  update (set_use_preedit v);;
  context_ime ← get_ctx;
  if preediting context_ime then
    h ← past;
    if negb (ImmGetContext h) then done else emit ImmReleaseContext
  else done.

(** The five signals around a commit, with [pretend_empty_preedit] set
    while they are emitted. *)
Definition commit_bracketed (utf8str : list Z) : IM unit :=
  update (set_pretend_empty_preedit true);;
  emit preedit_changed;;
  emit preedit_end;;
  emit (commit utf8str);;
  emit preedit_start;;
  emit preedit_changed;;
  update (set_pretend_empty_preedit false).

(** [gtk_im_context_ime_focus_in]. *)
Definition gtk_im_context_ime_focus_in : IM unit :=
  context_ime ← get_ctx;
  match client_surface (key context_ime) with
  | None => done
  | Some _ =>
    update (set_focus true);;
    context_ime ← get_ctx;
    match client_surface (key context_ime) with
    | None => emit (g_warning "gtk_im_context_ime_focus_in(): cannot find toplevel window.")
    | Some toplevel =>
      h ← past;
      if negb (ImmGetContext h) then done
      else
        emit gdk_win32_display_add_filter;;
        h ← past;
        update (set_opened (ImmGetOpenStatus h));;
        match focus_behavior context_ime with
        | GTK_WIN32_IME_FOCUS_BEHAVIOR_COMMIT
        | GTK_WIN32_IME_FOCUS_BEHAVIOR_DISCARD => gtk_im_context_ime_reset
        | GTK_WIN32_IME_FOCUS_BEHAVIOR_FOLLOW =>
          r ← get_utf8_preedit_string GCS_COMPSTR false;
          match fst r with
          | Some (_ :: _) =>
            update (set_preediting true);;
            gtk_im_context_ime_set_cursor_location None;;
            emit preedit_start;;
            emit preedit_changed
          | _ => done
          end
        end;;
        emit ImmReleaseContext
    end
  end.

(** The end of [gtk_im_context_ime_focus_out], after the [switch]. *)
Definition focus_out_end (was_preediting : bool) : IM unit :=
  context_ime ← get_ctx;
  match client_surface (key context_ime) with
  | Some _ => emit gdk_win32_display_remove_filter
  | None => done
  end;;
  if was_preediting then
    emit (g_warning "gtk_im_context_ime_focus_out(): cannot find toplevel window.");;
    emit preedit_changed;;
    emit preedit_end
  else done.

(** [gtk_im_context_ime_focus_out]. *)
Definition gtk_im_context_ime_focus_out : IM unit :=
  context_ime ← get_ctx;
  match client_surface (key context_ime) with
  | None => done
  | Some _ =>
    let was_preediting := preediting context_ime in
    update (set_opened false);;
    update (set_preediting false);;
    update (set_focus false);;
    match focus_behavior context_ime with
    | GTK_WIN32_IME_FOCUS_BEHAVIOR_COMMIT
    | GTK_WIN32_IME_FOCUS_BEHAVIOR_DISCARD =>
      match focus_behavior context_ime with
      | GTK_WIN32_IME_FOCUS_BEHAVIOR_COMMIT =>
        if was_preediting then
          r ← get_utf8_preedit_string GCS_COMPSTR false;
          commit_bracketed (default [] (fst r))
        else done
      | _ => done
      end;;
      gtk_im_context_ime_reset;;
      context_ime ← get_ctx;
      if focus (key context_ime) then done
      else focus_out_end was_preediting
    | GTK_WIN32_IME_FOCUS_BEHAVIOR_FOLLOW => focus_out_end was_preediting
    end
  end.

(** [gtk_im_context_ime_set_client_widget], for the surface of the native
    of the widget; [None] when the widget is NULL or has no surface. *)
Definition gtk_im_context_ime_set_client_widget (client_surface : option positive)
    : IM unit :=
  context_ime ← get_ctx;
  match client_surface with
  | Some _ =>
    h ← past;
    if ImmGetContext h then
      update (set_opened (ImmGetOpenStatus h));;
      emit ImmReleaseContext
    else update (set_opened false)
  | None =>
    if focus (key context_ime) then gtk_im_context_ime_focus_out else done
  end;;
  update (set_client_surface client_surface).

(** [gtk_im_context_ime_dispose], up to the call into the parent class. *)
Definition gtk_im_context_ime_dispose : IM unit :=
  context_ime ← get_ctx;
  match client_surface (key context_ime) with
  | Some _ => gtk_im_context_ime_set_client_widget None
  | None => done
  end.

(** The fields of [MSG] the message filter reads. *)
Record MSG : Type := {
  hwnd : Z;
  message : Z;
  wParam : Z;
  lParam : Z
}.

(** [gtk_im_context_ime_message_filter]: the value returned and what is
    stored in [*ret_valp], [None] when nothing is. *)
Definition gtk_im_context_ime_message_filter (msg : MSG) : IM (Z * option Z) :=
  let retval := GDK_WIN32_MESSAGE_FILTER_CONTINUE in
  context_ime ← get_ctx;
  if negb (focus (key context_ime)) then mret (retval, None)
  else
    let toplevel := client_surface (key context_ime) in
    if negb (gdk_win32_surface_get_impl_hwnd toplevel =? hwnd msg)
    then mret (retval, None)
    else
      h ← past;
      if negb (ImmGetContext h) then mret (retval, None)
      else
        retval ←
          (if message msg =? WM_IME_COMPOSITION then
             let '(wx, wy) :=
               match client_surface (key context_ime) with
               | Some surface => get_window_position (popup_parents surface) 0 0
               | None => (0, 0)
               end in
             let rc := GetWindowRect_left_top h in
             let pt := ClientToScreen h (wx, wy) in
             let wx := fst pt - fst rc in
             let wy := snd pt - snd rc in
             emit (ImmSetCandidateWindow
                     (wx + GdkRectangle.x (cursor_location context_ime))
                     (wy + GdkRectangle.y (cursor_location context_ime)
                      + GdkRectangle.height (cursor_location context_ime)));;
             (if negb (Z.land (lParam msg) GCS_COMPSTR =? 0)
              then emit preedit_changed else done);;
             retval ←
               (if negb (Z.land (lParam msg) GCS_RESULTSTR =? 0) then
                  r ← get_utf8_preedit_string GCS_RESULTSTR false;
                  match fst r with
                  | Some utf8str => commit_bracketed utf8str;; mret TRUE
                  | None => mret retval
                  end
                else mret retval);
             context_ime ← get_ctx;
             if use_preedit context_ime then mret GDK_WIN32_MESSAGE_FILTER_REMOVE
             else mret retval
           else if message msg =? WM_IME_STARTCOMPOSITION then
             update (set_preediting true);;
             gtk_im_context_ime_set_cursor_location None;;
             emit preedit_start;;
             context_ime ← get_ctx;
             if use_preedit context_ime then mret GDK_WIN32_MESSAGE_FILTER_REMOVE
             else mret retval
           else if message msg =? WM_IME_ENDCOMPOSITION then
             update (set_preediting false);;
             emit preedit_changed;;
             emit preedit_end;;
             context_ime ← get_ctx;
             if use_preedit context_ime then mret GDK_WIN32_MESSAGE_FILTER_REMOVE
             else mret retval
           else if message msg =? WM_IME_NOTIFY then
             (if wParam msg =? IMN_SETOPENSTATUS then
                h ← past;
                update (set_opened (ImmGetOpenStatus h));;
                emit gtk_im_context_ime_set_preedit_font
              else done);;
             mret retval
           else mret retval);
        emit ImmReleaseContext;;
        mret (retval, Some 0).

End WithImm.

(** An input method manager with a context, which holds the composition
    string "ab" and the result string "c", for concrete runs. *)
Definition fixed_imm : ImmApi := {|
  gdk_win32_surface_get_impl_hwnd := fun surface =>
    match surface with Some _ => 7 | None => 0 end;
  ImmGetContext := fun _ => true;
  ImmGetOpenStatus := fun _ => true;
  ImmGetCompositionStringW_size := fun _ kind =>
    if kind =? GCS_COMPSTR then 4 else if kind =? GCS_RESULTSTR then 2 else 1;
  g_utf16_to_utf8 := fun _ kind =>
    if kind =? GCS_COMPSTR then Some [0x61; 0x62] else Some [0x63];
  GetWindowRect_left_top := fun _ => (100, 100);
  ClientToScreen := fun _ pt => (fst pt + 108, snd pt + 131);
  popup_parents := fun _ => []
|}.

(** A context with the client surface 1 that has the focus. *)
Definition focused_context (behavior : GtkWin32IMEFocusBehavior) (is_preediting : bool)
    : context :=
  {| key := focused 0;
     use_preedit := true;
     preediting := is_preediting;
     opened := true;
     cursor_location :=
       {| GdkRectangle.x := 10; GdkRectangle.y := 20;
          GdkRectangle.width := 1; GdkRectangle.height := 16 |};
     pretend_empty_preedit := false;
     focus_behavior := behavior |}.

Definition session_of (c : context) : World := {| ctx := c; events := [] |}.

(** The messages of a composition, and those that carry a result string. *)
Definition is_composition_message (msg : MSG) : bool :=
  (message msg =? WM_IME_COMPOSITION) || (message msg =? WM_IME_STARTCOMPOSITION)
  || (message msg =? WM_IME_ENDCOMPOSITION).

Definition has_result (msg : MSG) : bool :=
  (message msg =? WM_IME_COMPOSITION) && negb (Z.land (lParam msg) GCS_RESULTSTR =? 0).

(** A message for the window of the client surface 1 of [fixed_imm]. *)
Definition message_for_client (msg_id lparam : Z) : MSG :=
  {| hwnd := 7; message := msg_id; wParam := 0; lParam := lparam |}.

(** The signals among the events. *)
Definition is_signal (e : event) : bool :=
  match e with
  | preedit_start | preedit_changed | preedit_end | commit _ => true
  | _ => false
  end.

Definition signals (l : list event) : list event := List.filter is_signal l.

End ImeSession.

(** * Part II: statements and proofs *)

(** ** The key filter of the input-method context *)
Module ImeSpec.
Import GdkKeysyms Ime.

Section WithGLib.
Context `{GLibUnicode}.

Lemma set_dead_key_keyval_same (context : GtkIMContextIME) :
  set_dead_key_keyval (dead_key_keyval context) context = context.
Proof. by destruct context. Qed.

Lemma commit_unichar_no_dead_key (context : GtkIMContextIME) (c : Z) :
  dead_key_keyval context = 0 ->
  _gtk_im_context_ime_commit_unichar context c
  = (context, [Commit (commit_string c)]).
Proof.
  intros Hdk. unfold _gtk_im_context_ime_commit_unichar.
  rewrite Hdk. simpl. by rewrite <- Hdk, set_dead_key_keyval_same.
Qed.

Lemma commit_unichar_dead_key (context : GtkIMContextIME) (c : Z) :
  dead_key_keyval context <> 0 ->
  _gtk_im_context_ime_commit_unichar context c
  = (set_dead_key_keyval 0 context,
     [Commit (commit_string
        (g_unichar_compose c
           (_gtk_im_context_ime_dead_key_unichar (dead_key_keyval context) false)))]).
Proof.
  intros Hdk. unfold _gtk_im_context_ime_commit_unichar.
  apply Z.eqb_neq in Hdk. by rewrite Hdk.
Qed.

(** The part of the filter behind its four gates. *)
Lemma filter_keypress_past_gates (context : GtkIMContextIME) (event : GdkEvent) :
  event_type event = GDK_KEY_PRESS ->
  unconsumed_no_text_input event = 0 ->
  focus context = true ->
  client_surface context <> None ->
  gtk_im_context_ime_filter_keypress context (Some event)
  = let keyval := keyval event in
    if (keyval =? GDK_KEY_space) && negb (dead_key_keyval context =? 0) then
      (true, set_dead_key_keyval 0 context,
       [Commit (commit_string
          (_gtk_im_context_ime_dead_key_unichar (dead_key_keyval context) true))])
    else
      let c := gdk_keyval_to_unicode keyval in
      if negb (c =? 0) && negb (g_unichar_iscntrl c) then
        let '(context, sigs) := _gtk_im_context_ime_commit_unichar context c in
        (true, context, sigs)
      else if IS_DEAD_KEY keyval then
        let dead_key := _gtk_im_context_ime_dead_key_unichar keyval false in
        if negb (dead_key =? 0) && (keyval =? dead_key_keyval context) then
          let c := _gtk_im_context_ime_dead_key_unichar (dead_key_keyval context) true in
          (false, set_dead_key_keyval 0 context,
           [Commit (commit_string c); Commit (commit_string c)])
        else (false, set_dead_key_keyval keyval context, [])
      else (false, context, []).
Proof.
  intros Hty Hmod Hfocus Hclient.
  unfold gtk_im_context_ime_filter_keypress.
  rewrite Hty. fold (unconsumed_no_text_input event). rewrite Hmod, Hfocus. simpl.
  destruct (client_surface context) as [surface|]; [|done].
  reflexivity.
Qed.

(** C5 (amended).  [gtk_im_context_ime_filter_keypress] returns FALSE,
    leaving the context as it was and emitting nothing, for every
    key-release event, for every event that carries an unconsumed Control
    or Alt modifier, whenever the context does not have focus and whenever
    it has no client surface.  For a key press that passes these gates and
    whose keyval maps to a printable (non-control) character it emits
    exactly one commit signal and returns TRUE; the signal carries that
    character encoded in UTF-8 when no dead key is pending, the character
    composed with the pending dead key's combining character when one is
    pending, and the spacing form of the pending dead key when the key is
    the space key. *)
Theorem filter_keypress_gates_and_commit (context : GtkIMContextIME) (event : GdkEvent) :
  (event_type event = GDK_KEY_RELEASE ->
   gtk_im_context_ime_filter_keypress context (Some event) = (false, context, []))
  /\ (unconsumed_no_text_input event <> 0 ->
      gtk_im_context_ime_filter_keypress context (Some event) = (false, context, []))
  /\ (focus context = false ->
      gtk_im_context_ime_filter_keypress context (Some event) = (false, context, []))
  /\ (client_surface context = None ->
      gtk_im_context_ime_filter_keypress context (Some event) = (false, context, []))
  /\ (event_type event = GDK_KEY_PRESS ->
      unconsumed_no_text_input event = 0 ->
      focus context = true ->
      client_surface context <> None ->
      let c := gdk_keyval_to_unicode (keyval event) in
      c <> 0 -> g_unichar_iscntrl c = false ->
      (dead_key_keyval context = 0 ->
       gtk_im_context_ime_filter_keypress context (Some event)
       = (true, context, [Commit (commit_string c)]))
      /\ (dead_key_keyval context <> 0 -> keyval event <> GDK_KEY_space ->
          gtk_im_context_ime_filter_keypress context (Some event)
          = (true, set_dead_key_keyval 0 context,
             [Commit (commit_string
                (g_unichar_compose c
                   (_gtk_im_context_ime_dead_key_unichar
                      (dead_key_keyval context) false)))]))
      /\ (dead_key_keyval context <> 0 -> keyval event = GDK_KEY_space ->
          gtk_im_context_ime_filter_keypress context (Some event)
          = (true, set_dead_key_keyval 0 context,
             [Commit (commit_string
                (_gtk_im_context_ime_dead_key_unichar
                   (dead_key_keyval context) true))]))).
Proof.
  split; [|split; [|split; [|split]]].
  - intros Hty. unfold gtk_im_context_ime_filter_keypress. by rewrite Hty.
  - intros Hmod. unfold gtk_im_context_ime_filter_keypress.
    destruct (event_type event); [|done].
    fold (unconsumed_no_text_input event).
    apply Z.eqb_neq in Hmod. by rewrite Hmod.
  - intros Hfocus. unfold gtk_im_context_ime_filter_keypress.
    destruct (event_type event); [|done].
    rewrite Hfocus. by case (negb _).
  - intros Hclient. unfold gtk_im_context_ime_filter_keypress.
    destruct (event_type event); [|done].
    rewrite Hclient. case (negb _); [done|]. by case (negb _).
  - intros Hty Hmod Hfocus Hclient c Hc Hcntrl.
    rewrite filter_keypress_past_gates by done.
    cbv zeta. fold c. rewrite Hcntrl.
    apply Z.eqb_neq in Hc. rewrite Hc. simpl negb. rewrite (andb_true_l true).
    split; [|split].
    + intros Hdk. rewrite Hdk. rewrite andb_false_r.
      by rewrite commit_unichar_no_dead_key.
    + intros Hdk Hkey. apply Z.eqb_neq in Hkey. rewrite Hkey, andb_false_l.
      by rewrite commit_unichar_dead_key.
    + intros Hdk Hkey. rewrite Hkey, Z.eqb_refl.
      apply Z.eqb_neq in Hdk. by rewrite Hdk.
Qed.

(** C9 (amended).  After any call to [_gtk_im_context_ime_commit_unichar]
    the stored [dead_key_keyval] is 0; when a dead key is pending, the
    committed character is first composed with that dead key's combining
    character; and a press of a dead key other than a repeat of the
    pending one that passes the gates of the filter (no unconsumed
    Control or Alt, context focused, client surface set) and has no
    printable character of its own makes the filter record its keyval as
    pending and return FALSE without committing anything. *)
Theorem dead_key_pending_rules (context : GtkIMContextIME) :
  (forall c, dead_key_keyval (fst (_gtk_im_context_ime_commit_unichar context c)) = 0)
  /\ (forall c, dead_key_keyval context <> 0 ->
        snd (_gtk_im_context_ime_commit_unichar context c)
        = [Commit (commit_string
             (g_unichar_compose c
                (_gtk_im_context_ime_dead_key_unichar
                   (dead_key_keyval context) false)))])
  /\ (forall event,
        event_type event = GDK_KEY_PRESS ->
        unconsumed_no_text_input event = 0 ->
        focus context = true ->
        client_surface context <> None ->
        IS_DEAD_KEY (keyval event) = true ->
        keyval event <> dead_key_keyval context ->
        (gdk_keyval_to_unicode (keyval event) = 0
         \/ g_unichar_iscntrl (gdk_keyval_to_unicode (keyval event)) = true) ->
        gtk_im_context_ime_filter_keypress context (Some event)
        = (false, set_dead_key_keyval (keyval event) context, [])).
Proof.
  split; [|split].
  - done.
  - intros c Hdk. by rewrite commit_unichar_dead_key.
  - intros event Hty Hmod Hfocus Hclient Hdead Hne Huni.
    rewrite filter_keypress_past_gates by done.
    cbv zeta.
    assert ((keyval event =? GDK_KEY_space) = false) as ->.
    { apply Z.eqb_neq. intros Heq. rewrite Heq in Hdead. discriminate Hdead. }
    simpl.
    assert (negb (gdk_keyval_to_unicode (keyval event) =? 0)
            && negb (g_unichar_iscntrl (gdk_keyval_to_unicode (keyval event)))
            = false) as ->.
    { destruct Huni as [-> | ->]; [done | by rewrite andb_false_r]. }
    rewrite Hdead.
    apply Z.eqb_neq in Hne. rewrite Hne. by rewrite andb_false_r.
Qed.

End WithGLib.

(** Runs of the filter with [glib_unicode_instance]. *)
Section Runs.
#[local] Existing Instance glib_unicode_instance.

Example press_a : gtk_im_context_ime_filter_keypress (focused 0) (Some (press 0x61))
  = (true, focused 0, [Commit [0x61]]).
Proof. reflexivity. Qed.

Example press_e_after_dead_acute :
  gtk_im_context_ime_filter_keypress (focused GDK_KEY_dead_acute) (Some (press 0x65))
  = (true, focused 0, [Commit [0xc3; 0xa9]]).
Proof. reflexivity. Qed.

Example press_dead_grave_twice :
  gtk_im_context_ime_filter_keypress (focused GDK_KEY_dead_grave)
    (Some (press GDK_KEY_dead_grave))
  = (false, focused 0, [Commit [0x60]; Commit [0x60]]).
Proof. reflexivity. Qed.

Lemma filter_keypress_gates_and_commit_witness :
  gtk_im_context_ime_filter_keypress (focused 0)
    (Some {| event_type := GDK_KEY_RELEASE; modifier_state := 0;
             consumed_modifiers := 0; keyval := 0x61 |})
  = (false, focused 0, [])
  /\ gtk_im_context_ime_filter_keypress (focused 0)
       (Some {| event_type := GDK_KEY_PRESS; modifier_state := GDK_CONTROL_MASK;
                consumed_modifiers := 0; keyval := 0x61 |})
     = (false, focused 0, [])
  /\ gtk_im_context_ime_filter_keypress
       {| client_surface := Some 1%positive; focus := false; dead_key_keyval := 0 |}
       (Some (press 0x61))
     = (false,
        {| client_surface := Some 1%positive; focus := false; dead_key_keyval := 0 |}, [])
  /\ gtk_im_context_ime_filter_keypress
       {| client_surface := None; focus := true; dead_key_keyval := 0 |}
       (Some (press 0x61))
     = (false, {| client_surface := None; focus := true; dead_key_keyval := 0 |}, [])
  /\ gtk_im_context_ime_filter_keypress (focused 0) (Some (press 0x61))
     = (true, focused 0, [Commit (commit_string 0x61)])
  /\ gtk_im_context_ime_filter_keypress (focused GDK_KEY_dead_acute) (Some (press 0x65))
     = (true, set_dead_key_keyval 0 (focused GDK_KEY_dead_acute),
        [Commit (commit_string
           (g_unichar_compose 0x65
              (_gtk_im_context_ime_dead_key_unichar GDK_KEY_dead_acute false)))])
  /\ gtk_im_context_ime_filter_keypress (focused GDK_KEY_dead_acute)
       (Some (press GDK_KEY_space))
     = (true, set_dead_key_keyval 0 (focused GDK_KEY_dead_acute),
        [Commit (commit_string
           (_gtk_im_context_ime_dead_key_unichar GDK_KEY_dead_acute true))]).
Proof.
  split; [|split; [|split; [|split; [|split; [|split]]]]].
  - apply (proj1 (filter_keypress_gates_and_commit _ _)). reflexivity.
  - apply (proj1 (proj2 (filter_keypress_gates_and_commit _ _))). discriminate.
  - apply (proj1 (proj2 (proj2 (filter_keypress_gates_and_commit _ _)))). reflexivity.
  - apply (proj1 (proj2 (proj2 (proj2 (filter_keypress_gates_and_commit _ _))))).
    reflexivity.
  - destruct (proj2 (proj2 (proj2 (proj2
      (filter_keypress_gates_and_commit (focused 0) (press 0x61)))))
      eq_refl eq_refl eq_refl ltac:(discriminate) ltac:(discriminate) eq_refl)
      as (W & _ & _).
    exact (W eq_refl).
  - destruct (proj2 (proj2 (proj2 (proj2
      (filter_keypress_gates_and_commit (focused GDK_KEY_dead_acute) (press 0x65)))))
      eq_refl eq_refl eq_refl ltac:(discriminate) ltac:(discriminate) eq_refl)
      as (_ & W & _).
    exact (W ltac:(discriminate) ltac:(discriminate)).
  - destruct (proj2 (proj2 (proj2 (proj2
      (filter_keypress_gates_and_commit (focused GDK_KEY_dead_acute)
         (press GDK_KEY_space)))))
      eq_refl eq_refl eq_refl ltac:(discriminate) ltac:(discriminate) eq_refl)
      as (_ & _ & W).
    exact (W ltac:(discriminate) eq_refl).
Defined.

(** C5 as stated fails: with the dead key grave pending, a press of the
    space key, whose keyval maps to the printable character U+0020,
    commits the grave accent U+0060 and not the space. *)
Lemma filter_keypress_printable_counterexample :
  let context := focused GDK_KEY_dead_grave in
  let event := press GDK_KEY_space in
  let c := gdk_keyval_to_unicode (keyval event) in
  c = 0x20 /\ g_unichar_iscntrl c = false
  /\ gtk_im_context_ime_filter_keypress context (Some event)
     = (true, focused 0, [Commit [0x60]])
  /\ snd (gtk_im_context_ime_filter_keypress context (Some event))
     <> [Commit (commit_string c)].
Proof. repeat split; discriminate. Qed.

Lemma dead_key_pending_rules_witness :
  dead_key_keyval
    (fst (_gtk_im_context_ime_commit_unichar (focused GDK_KEY_dead_acute) 0x65)) = 0
  /\ snd (_gtk_im_context_ime_commit_unichar (focused GDK_KEY_dead_acute) 0x65)
     = [Commit (commit_string
          (g_unichar_compose 0x65
             (_gtk_im_context_ime_dead_key_unichar GDK_KEY_dead_acute false)))]
  /\ gtk_im_context_ime_filter_keypress (focused GDK_KEY_dead_acute)
       (Some (press GDK_KEY_dead_grave))
     = (false, set_dead_key_keyval GDK_KEY_dead_grave (focused GDK_KEY_dead_acute), []).
Proof.
  split; [|split].
  - apply (proj1 (dead_key_pending_rules (focused GDK_KEY_dead_acute))).
  - apply (proj1 (proj2 (dead_key_pending_rules (focused GDK_KEY_dead_acute)))).
    discriminate.
  - apply (proj2 (proj2 (dead_key_pending_rules (focused GDK_KEY_dead_acute))));
      try reflexivity; try discriminate.
    left; reflexivity.
Defined.

(** C9 as stated fails: a context without focus does not record the dead
    key that is pressed. *)
Lemma dead_key_press_unfocused_counterexample :
  let context :=
    {| client_surface := Some 1%positive; focus := false; dead_key_keyval := 0 |} in
  let event := press GDK_KEY_dead_acute in
  IS_DEAD_KEY (keyval event) = true
  /\ keyval event <> dead_key_keyval context
  /\ gtk_im_context_ime_filter_keypress context (Some event) = (false, context, [])
  /\ dead_key_keyval
       (snd (fst (gtk_im_context_ime_filter_keypress context (Some event))))
     <> keyval event.
Proof. repeat split; discriminate. Qed.

End Runs.
End ImeSpec.

(** ** The stack of modal windows *)
Module ModalSpec.
Import ModalStack.

Section WithSurfaces.
Variable GDK_SURFACE_IS_MAPPED : positive -> bool.

Local Abbreviation blocked := (_gdk_modal_blocked GDK_SURFACE_IS_MAPPED).
Local Abbreviation blocked_from := (modal_blocked_from GDK_SURFACE_IS_MAPPED).
Local Abbreviation current := (_gdk_modal_current GDK_SURFACE_IS_MAPPED).

Lemma modal_blocked_from_on_stack (l : list positive) (window : positive) (found_any : bool) :
  window ∈ l -> blocked_from l window found_any = false.
Proof.
  revert found_any. induction l as [|modal next IH]; intros found_any Hin.
  - by apply elem_of_nil in Hin.
  - simpl. destruct (Pos.eqb_spec modal window) as [Heq|Hne]; [done|].
    apply IH. apply elem_of_cons in Hin as [Heq|Hin]; [congruence|done].
Qed.

Lemma modal_blocked_from_off_stack (l : list positive) (window : positive) (found_any : bool) :
  window ∉ l ->
  blocked_from l window found_any = found_any || existsb GDK_SURFACE_IS_MAPPED l.
Proof.
  revert found_any. induction l as [|modal next IH]; intros found_any Hnotin.
  - simpl. by rewrite orb_false_r.
  - simpl. apply not_elem_of_cons in Hnotin as [Hne Hnotin].
    destruct (Pos.eqb_spec modal window) as [Heq|_]; [congruence|].
    rewrite IH by done.
    destruct (GDK_SURFACE_IS_MAPPED modal), found_any; simpl; done.
Qed.

Lemma modal_current_some (l : list positive) (m : positive) :
  current l = Some m <->
  exists newer older,
    l = newer ++ m :: older
    /\ (forall n, n ∈ newer -> GDK_SURFACE_IS_MAPPED n = false)
    /\ GDK_SURFACE_IS_MAPPED m = true.
Proof.
  induction l as [|modal next IH]; simpl.
  - split; [done|]. intros (newer & older & Heq & _). by destruct newer.
  - destruct (GDK_SURFACE_IS_MAPPED modal) eqn:Hmapped.
    + split.
      * intros [= <-]. exists [], next. split; [done|]. split; [|done].
        intros n Hn. by apply elem_of_nil in Hn.
      * intros (newer & older & Heq & Hnewer & Hm).
        destruct newer as [|n newer]; simpl in Heq.
        -- congruence.
        -- injection Heq as <- _. rewrite Hnewer in Hmapped; [done|]. apply list_elem_of_here.
    + rewrite IH. split.
      * intros (newer & older & -> & Hnewer & Hm).
        exists (modal :: newer), older. split; [done|]. split; [|done].
        intros n Hn. apply elem_of_cons in Hn as [->|Hn]; [done|by apply Hnewer].
      * intros (newer & older & Heq & Hnewer & Hm).
        destruct newer as [|n newer]; simpl in Heq.
        -- injection Heq as -> _. congruence.
        -- injection Heq as <- ->. exists newer, older. split; [done|]. split; [|done].
           intros k Hk. apply Hnewer. by apply list_elem_of_further.
Qed.

Lemma modal_current_none (l : list positive) :
  current l = None <-> forall m, m ∈ l -> GDK_SURFACE_IS_MAPPED m = false.
Proof.
  induction l as [|modal next IH]; simpl.
  - split; [|done]. intros _ m Hm. by apply elem_of_nil in Hm.
  - destruct (GDK_SURFACE_IS_MAPPED modal) eqn:Hmapped.
    + split; [done|]. intros Hall. rewrite Hall in Hmapped; [done|]. apply list_elem_of_here.
    + rewrite IH. split.
      * intros Hall m Hm. apply elem_of_cons in Hm as [->|Hm]; [done|by apply Hall].
      * intros Hall m Hm. apply Hall. by apply list_elem_of_further.
Qed.

(** C7.  [_gdk_modal_blocked] returns FALSE for every surface that is on
    the modal window stack, whatever else is on it; for a surface that is
    not on the stack it returns TRUE exactly when the stack holds a mapped
    surface; [_gdk_modal_current] returns the mapped surface nearest to
    the head of the stack, that is the most recently pushed one, since
    [_gdk_push_modal_window] pushes at the head, and NULL when no surface
    on the stack is mapped. *)
Theorem modal_stack_blocking (modal_window_stack : list positive) (window : positive) :
  (window ∈ modal_window_stack -> blocked modal_window_stack window = false)
  /\ (window ∉ modal_window_stack ->
      (blocked modal_window_stack window = true
       <-> exists modal, modal ∈ modal_window_stack
             /\ GDK_SURFACE_IS_MAPPED modal = true))
  /\ (forall modal,
        current modal_window_stack = Some modal
        <-> exists newer older,
              modal_window_stack = newer ++ modal :: older
              /\ (forall n, n ∈ newer -> GDK_SURFACE_IS_MAPPED n = false)
              /\ GDK_SURFACE_IS_MAPPED modal = true)
  /\ (current modal_window_stack = None
      <-> forall modal, modal ∈ modal_window_stack
            -> GDK_SURFACE_IS_MAPPED modal = false)
  /\ current (_gdk_push_modal_window modal_window_stack window)
     = (if GDK_SURFACE_IS_MAPPED window then Some window
        else current modal_window_stack).
Proof.
  split; [|split; [|split; [|split]]].
  - apply modal_blocked_from_on_stack.
  - intros Hnotin. unfold _gdk_modal_blocked.
    rewrite modal_blocked_from_off_stack by done. simpl.
    rewrite existsb_exists. split.
    + intros (modal & Hin & Hmapped). exists modal. by rewrite list_elem_of_In.
    + intros (modal & Hin & Hmapped). exists modal. by rewrite <- list_elem_of_In.
  - apply modal_current_some.
  - apply modal_current_none.
  - done.
Qed.

End WithSurfaces.

Lemma modal_stack_blocking_witness :
  let mapped := fun p : positive => Pos.eqb p 2 in
  _gdk_modal_blocked mapped [3; 2; 1]%positive 1%positive = false
  /\ (_gdk_modal_blocked mapped [3; 2; 1]%positive 4%positive = true
      <-> exists modal, modal ∈ [3; 2; 1]%positive /\ mapped modal = true)
  /\ _gdk_modal_current mapped [3; 2; 1]%positive = Some 2%positive.
Proof.
  intros mapped.
  pose proof (modal_stack_blocking mapped [3; 2; 1]%positive 1%positive) as (W1 & _).
  pose proof (modal_stack_blocking mapped [3; 2; 1]%positive 4%positive)
    as (_ & W2 & W3 & _).
  split; [|split].
  - apply W1. apply list_elem_of_further, list_elem_of_further, list_elem_of_here.
  - apply W2. intros Hin.
    repeat (apply elem_of_cons in Hin as [Heq|Hin]; [discriminate Heq|]).
    by apply elem_of_nil in Hin.
  - apply W3. exists [3%positive], [1%positive].
    split; [reflexivity|]. split; [|reflexivity].
    intros n Hn. apply list_elem_of_singleton in Hn as ->. reflexivity.
Defined.

End ModalSpec.

(** ** The Win32 surface backend *)
Module Win32Spec.
Import WinUser Win32Surface.

(** Unfolds the state monad down to pairs. *)
Ltac gdk_unfold :=
  unfold skip; unfold mbind, mret, Gdk_bind, Gdk_ret, get_impl, history, modify, emit.

(** *** Bits *)

Lemma land_lor_same (s b : Z) : Z.land (Z.lor s b) b = b.
Proof.
  apply Z.bits_inj'. intros n Hn.
  rewrite Z.land_spec, Z.lor_spec. by destruct (Z.testbit s n), (Z.testbit b n).
Qed.

Lemma land_lnot_same (s b : Z) : Z.land (Z.land s (Z.lnot b)) b = 0.
Proof.
  apply Z.bits_inj'. intros n Hn.
  rewrite !Z.land_spec, Z.lnot_spec, Z.bits_0 by done.
  by destruct (Z.testbit s n), (Z.testbit b n).
Qed.

Lemma land_disjoint_bits (a b : Z) :
  Z.land a b = 0 -> forall n, Z.testbit a n && Z.testbit b n = false.
Proof. intros Hab n. by rewrite <- Z.land_spec, Hab, Z.bits_0. Qed.

Lemma land_lor_disjoint (s b' b : Z) :
  Z.land b b' = 0 -> Z.land (Z.lor s b') b = Z.land s b.
Proof.
  intros Hd. apply Z.bits_inj'. intros n Hn.
  pose proof (land_disjoint_bits _ _ Hd n) as Hbit.
  rewrite !Z.land_spec, Z.lor_spec.
  by destruct (Z.testbit s n), (Z.testbit b n), (Z.testbit b' n).
Qed.

Lemma land_lnot_disjoint (s b' b : Z) :
  Z.land b b' = 0 -> Z.land (Z.land s (Z.lnot b')) b = Z.land s b.
Proof.
  intros Hd. apply Z.bits_inj'. intros n Hn.
  pose proof (land_disjoint_bits _ _ Hd n) as Hbit.
  rewrite !Z.land_spec, Z.lnot_spec by done.
  by destruct (Z.testbit s n), (Z.testbit b n), (Z.testbit b' n).
Qed.

Lemma land_lor_within (s b' b : Z) :
  Z.land b b' = b -> Z.land (Z.lor s b') b = b.
Proof.
  intros Hsub. apply Z.bits_inj'. intros n Hn.
  assert (Z.testbit b n && Z.testbit b' n = Z.testbit b n) as Hbit
    by (by rewrite <- Z.land_spec, Hsub).
  rewrite !Z.land_spec, Z.lor_spec.
  by destruct (Z.testbit s n), (Z.testbit b n), (Z.testbit b' n).
Qed.

Lemma land_lnot_within (s b' b : Z) :
  Z.land b b' = b -> Z.land (Z.land s (Z.lnot b')) b = 0.
Proof.
  intros Hsub. apply Z.bits_inj'. intros n Hn.
  assert (Z.testbit b n && Z.testbit b' n = Z.testbit b n) as Hbit
    by (by rewrite <- Z.land_spec, Hsub).
  rewrite !Z.land_spec, Z.lnot_spec, Z.bits_0 by done.
  by destruct (Z.testbit s n), (Z.testbit b n), (Z.testbit b' n).
Qed.

Lemma land_lnot_absent (a b : Z) : Z.land a b = 0 -> Z.land a (Z.lnot b) = a.
Proof.
  intros Hd. apply Z.bits_inj'. intros n Hn.
  pose proof (land_disjoint_bits _ _ Hd n) as Hbit.
  rewrite Z.land_spec, Z.lnot_spec by done.
  by destruct (Z.testbit a n), (Z.testbit b n).
Qed.

Lemma update_single_bit_sets (style all gdk_bit style_bit : Z) :
  Z.land (update_single_bit style all gdk_bit style_bit) style_bit
  = if bit_rule all gdk_bit then style_bit else 0.
Proof.
  unfold update_single_bit, bit_rule.
  destruct (_ || _); [apply land_lor_same | apply land_lnot_same].
Qed.

Lemma update_single_bit_disjoint (style all gdk_bit style_bit b : Z) :
  Z.land b style_bit = 0 ->
  Z.land (update_single_bit style all gdk_bit style_bit) b = Z.land style b.
Proof.
  intros Hd. unfold update_single_bit.
  destruct (_ || _); [by apply land_lor_disjoint | by apply land_lnot_disjoint].
Qed.

Lemma update_single_bit_within (style all gdk_bit style_bit b : Z) :
  Z.land b style_bit = b ->
  Z.land (update_single_bit style all gdk_bit style_bit) b
  = if bit_rule all gdk_bit then b else 0.
Proof.
  intros Hsub. unfold update_single_bit, bit_rule.
  destruct (_ || _); [by apply land_lor_within | by apply land_lnot_within].
Qed.

Section WithWin32.
Context {double_arith : DoubleArith} {win32 : Win32Api}.

(** *** Style bits *)

Lemma effective_decorations_cases (window : GdkWin32Surface) (decorations : Z) :
  get_effective_window_decorations window = (true, decorations) ->
  decorations = 0
  \/ decorations
     = Z.lor (Z.lor (Z.lor GDK_DECOR_ALL GDK_DECOR_RESIZEH) GDK_DECOR_MAXIMIZE)
             GDK_DECOR_MINIMIZE
  \/ decorations = Z.lor (Z.lor GDK_DECOR_ALL GDK_DECOR_MAXIMIZE) GDK_DECOR_MINIMIZE.
Proof.
  unfold get_effective_window_decorations.
  repeat case_match; intros [= <-]; auto.
Qed.

Lemma decorated_bit (old_style decorations flag bit : Z) :
  decorations = 0
  \/ decorations
     = Z.lor (Z.lor (Z.lor GDK_DECOR_ALL GDK_DECOR_RESIZEH) GDK_DECOR_MAXIMIZE)
             GDK_DECOR_MINIMIZE
  \/ decorations = Z.lor (Z.lor GDK_DECOR_ALL GDK_DECOR_MAXIMIZE) GDK_DECOR_MINIMIZE ->
  (flag, bit) ∈ decoration_style_bits ->
  Z.land (update_decoration_bits old_style decorations) bit
  = if bit_rule (Z.land decorations GDK_DECOR_ALL) (Z.land decorations flag)
    then bit else 0.
Proof.
  intros Hcases Hin.
  unfold update_decoration_bits, decoration_style_bits in *. cbn [fold_left].
  repeat (apply elem_of_cons in Hin as [[= -> ->]|Hin]);
    [..|by apply elem_of_nil in Hin];
    repeat (rewrite update_single_bit_disjoint by reflexivity);
    first [ rewrite update_single_bit_sets
          | rewrite update_single_bit_within by reflexivity ];
    destruct Hcases as [->|[->| ->]]; reflexivity.
Qed.

Lemma recomputed_exstyle_not_topmost (window : GdkWin32Surface) (old_exstyle : Z) :
  Z.land (recomputed_exstyle window old_exstyle) WS_EX_TOPMOST = 0.
Proof.
  unfold recomputed_exstyle. destruct (GDK_IS_DRAG_SURFACE _).
  - rewrite !land_lor_disjoint by reflexivity. apply land_lnot_same.
  - rewrite land_lnot_disjoint by reflexivity. apply land_lnot_same.
Qed.

(** C3.  [update_single_bit] leaves the style bit set exactly when either
    the ALL flag is clear and the decoration bit is set, or the ALL flag
    is set and the decoration bit is clear, and clear otherwise; each of
    the six decoration-controlled bits of the style that
    [_gdk_win32_surface_update_style_bits] recomputes for a toplevel
    follows that rule; the function returns without a call and without a
    change for a fullscreen window, and likewise when the recomputed style
    and extended style equal the current ones; a recomputed style that
    differs is written with [SetWindowLong]. *)
Theorem style_bit_synchronization :
  (forall style all gdk_bit style_bit,
     Z.land (update_single_bit style all gdk_bit style_bit) style_bit
     = if (negb (truth all) && truth gdk_bit) || (truth all && negb (truth gdk_bit))
       then style_bit else 0)
  /\ (forall window old_style decorations flag bit,
        get_effective_window_decorations window = (true, decorations) ->
        (flag, bit) ∈ decoration_style_bits ->
        let all := Z.land decorations GDK_DECOR_ALL in
        let gdk_bit := Z.land decorations flag in
        Z.land (recomputed_style window old_style) bit
        = if (negb (truth all) && truth gdk_bit) || (truth all && negb (truth gdk_bit))
          then bit else 0)
  /\ (forall w : World,
        fullscreen (impl w) = true ->
        _gdk_win32_surface_update_style_bits w = (tt, w))
  /\ (forall w : World,
        recomputed_style (impl w) (GetWindowLong (calls w) GWL_STYLE)
        = GetWindowLong (calls w) GWL_STYLE ->
        recomputed_exstyle (impl w) (GetWindowLong (calls w) GWL_EXSTYLE)
        = GetWindowLong (calls w) GWL_EXSTYLE ->
        _gdk_win32_surface_update_style_bits w = (tt, w))
  /\ (forall w : World,
        fullscreen (impl w) = false ->
        recomputed_style (impl w) (GetWindowLong (calls w) GWL_STYLE)
        <> GetWindowLong (calls w) GWL_STYLE ->
        exists rest,
          calls (snd (_gdk_win32_surface_update_style_bits w))
          = calls w
            ++ SetWindowLong GWL_STYLE
                 (recomputed_style (impl w) (GetWindowLong (calls w) GWL_STYLE))
            :: rest).
Proof.
  split; [|split; [|split; [|split]]].
  - intros. apply update_single_bit_sets.
  - intros window old_style decorations flag bit Heff Hin all gdk_bit.
    unfold recomputed_style. rewrite Heff.
    apply decorated_bit; [by eapply effective_decorations_cases | done].
  - intros w Hfull. unfold _gdk_win32_surface_update_style_bits. gdk_unfold.
    by rewrite Hfull.
  - intros w Hstyle Hexstyle. unfold _gdk_win32_surface_update_style_bits. gdk_unfold.
    destruct (fullscreen (impl w)); [done|]. simpl.
    rewrite Hstyle, Hexstyle, Z.eqb_refl.
    rewrite land_lnot_absent, Z.eqb_refl; [done|].
    rewrite <- Hexstyle. apply recomputed_exstyle_not_topmost.
  - intros w Hfull Hstyle. unfold _gdk_win32_surface_update_style_bits. gdk_unfold.
    rewrite Hfull. cbv zeta.
    assert ((GetWindowLong (calls w) GWL_STYLE
             =? recomputed_style (impl w) (GetWindowLong (calls w) GWL_STYLE)) = false)
      as -> by (apply Z.eqb_neq; congruence).
    set (exstyle := GetWindowLong (calls w) GWL_EXSTYLE).
    destruct (Z.land exstyle (Z.lnot WS_EX_TOPMOST)
              =? recomputed_exstyle (impl w) exstyle);
      destruct (GDK_IS_DRAG_SURFACE (surface_type (impl w)));
      destruct (truth (Z.land exstyle WS_EX_LAYERED));
      destruct (truth (Z.land exstyle WS_EX_TOPMOST));
      simpl; rewrite <- ?app_assoc; simpl; eauto.
Qed.

(** *** Scale factor *)

(** C4.  [_gdk_win32_surface_get_scale_factor] returns 1 for a destroyed
    surface, changing nothing; for a live surface of a DPI-unaware process
    it returns 1 and leaves the surface, and so its [surface_scale], as it
    was; otherwise it returns the fixed scale of the display when one is
    configured, or else the scale factor of the monitor, and stores the
    returned value in [surface_scale]. *)
Theorem scale_factor_rules (win32_display : GdkWin32Display) (w : World) :
  (destroyed (impl w) = true ->
   _gdk_win32_surface_get_scale_factor win32_display w = (1, w))
  /\ (destroyed (impl w) = false ->
      dpi_aware_type win32_display = PROCESS_DPI_UNAWARE ->
      fst (_gdk_win32_surface_get_scale_factor win32_display w) = 1
      /\ impl (snd (_gdk_win32_surface_get_scale_factor win32_display w)) = impl w)
  /\ (destroyed (impl w) = false ->
      dpi_aware_type win32_display <> PROCESS_DPI_UNAWARE ->
      let scale :=
        if has_fixed_scale win32_display then display_surface_scale win32_display
        else gdk_win32_display_get_monitor_scale_factor win32_display (calls w) in
      _gdk_win32_surface_get_scale_factor win32_display w
      = (scale, {| impl := set_surface_scale scale (impl w);
                   calls := calls w;
                   hidpi_msg_displayed := hidpi_msg_displayed w |})
      /\ surface_scale
           (impl (snd (_gdk_win32_surface_get_scale_factor win32_display w)))
         = fst (_gdk_win32_surface_get_scale_factor win32_display w)).
Proof.
  split; [|split].
  - intros Hdestroyed. unfold _gdk_win32_surface_get_scale_factor. gdk_unfold.
    by rewrite Hdestroyed.
  - intros Hlive Hunaware. unfold _gdk_win32_surface_get_scale_factor. gdk_unfold.
    rewrite Hlive, Hunaware. unfold g_message_once.
    destruct (has_fixed_scale win32_display); [|done].
    by destruct (hidpi_msg_displayed w).
  - intros Hlive Haware scale. unfold _gdk_win32_surface_get_scale_factor. gdk_unfold.
    rewrite Hlive. subst scale.
    destruct (dpi_aware_type win32_display); [done|..];
      by destruct (has_fixed_scale win32_display).
Qed.

(** *** AeroSnap *)

(** Moving and resizing changes no field of the surface but
    [egl_force_redraw_all], and calls [SetWindowPos] and
    [gdk_surface_request_layout] only. *)
Lemma move_resize_frame (x y width height : Z) (w : World) :
  exists extra,
    calls (snd (gdk_win32_surface_move_resize x y width height w)) = calls w ++ extra
    /\ Forall is_move_call extra
    /\ (impl (snd (gdk_win32_surface_move_resize x y width height w)) = impl w
        \/ impl (snd (gdk_win32_surface_move_resize x y width height w))
           = set_egl_force_redraw_all true (impl w)).
Proof.
  unfold gdk_win32_surface_move_resize, gdk_win32_surface_move_resize_internal,
    gdk_win32_surface_do_move, gdk_win32_surface_do_move_resize,
    _gdk_win32_surface_invalidate_egl_framebuffer, get_outer_rect,
    _gdk_win32_adjust_client_rect, fullscreen.
  gdk_unfold. simpl.
  destruct (modal_move_resize (calls w)); simpl;
    destruct ((width <? 0) && (height <? 0)); simpl;
    destruct (gl_paint_context_uses_es (impl w)); simpl;
    destruct (destroyed (impl w)); simpl;
    destruct (Z.land (state (impl w)) GDK_TOPLEVEL_STATE_FULLSCREEN =? 0);
    simpl; rewrite <- ?app_assoc; simpl;
    eexists; (split; [reflexivity|]); (split; [repeat constructor|]); auto.
Qed.

Lemma move_resize_snap_fields (x y width height : Z) (w : World) :
  let w' := snd (gdk_win32_surface_move_resize x y width height w) in
  snap_state (impl w') = snap_state (impl w)
  /\ snap_stash (impl w') = snap_stash (impl w)
  /\ snap_stash_int (impl w') = snap_stash_int (impl w).
Proof.
  cbv zeta.
  destruct (move_resize_frame x y width height w) as (extra & _ & _ & [Heq | Heq]);
    by rewrite Heq.
Qed.

(** [stash_window] makes no call and writes the two stashes only. *)
Lemma stash_window_frame (w : World) :
  calls (snd (stash_window w)) = calls w
  /\ snap_state (impl (snd (stash_window w))) = snap_state (impl w)
  /\ surface_scale (impl (snd (stash_window w))) = surface_scale (impl w).
Proof.
  unfold stash_window. gdk_unfold. simpl.
  destruct (GetWindowPlacement (calls w)); [|done].
  destruct (GetMonitorInfoA (calls w)) as [[rcMonitor rcWork]|]; done.
Qed.

Lemma stash_window_stashes (w : World) (rcNormalPosition rcMonitor rcWork : RECT.t) :
  GetWindowPlacement (calls w) = Some rcNormalPosition ->
  GetMonitorInfoA (calls w) = Some (rcMonitor, rcWork) ->
  snap_stash (impl (snd (stash_window w)))
  = Some (stashed_double (surface_scale (impl w)) rcNormalPosition rcMonitor rcWork)
  /\ snap_stash_int (impl (snd (stash_window w)))
     = Some (stashed_int (surface_scale (impl w)) rcNormalPosition rcMonitor).
Proof.
  intros Hplacement Hinfo. unfold stash_window. gdk_unfold. simpl.
  by rewrite Hplacement, Hinfo.
Qed.

Lemma stash_window_fails (w : World) :
  GetWindowPlacement (calls w) = None \/ GetMonitorInfoA (calls w) = None ->
  stash_window w = (tt, w).
Proof.
  intros Hfail. unfold stash_window. gdk_unfold. simpl.
  destruct Hfail as [-> | Hinfo]; [done|].
  rewrite Hinfo. by destruct (GetWindowPlacement (calls w)).
Qed.

Lemma geb_of_ge (a b : Z) : a >= b -> (a >=? b) = true.
Proof. intros Hge. apply Z.geb_le. lia. Qed.

(** The three snapping functions, as a state, a stash and a move. *)
Lemma snap_left_unfold (monitor : positive) (snap_monitor : option positive) (w : World) :
  snap_left monitor snap_monitor w
  = let w1 := snd (modify (set_snap_state GDK_WIN32_AEROSNAP_STATE_HALFLEFT) w) in
    let w2 := snd (stash_window w1) in
    let rect := gdk_win32_monitor_get_workarea snap_monitor in
    gdk_win32_surface_move_resize
      (GdkRectangle.x rect - Z.quot (RECT.left (shadow (impl w2))) (surface_scale (impl w2)))
      (GdkRectangle.y rect - Z.quot (RECT.top (shadow (impl w2))) (surface_scale (impl w2)))
      (Z.quot (GdkRectangle.width rect) 2 + shadow_x (impl w2))
      (GdkRectangle.height rect + shadow_y (impl w2))
      w2.
Proof.
  unfold snap_left. gdk_unfold. cbv zeta.
  by destruct (stash_window _) as [[] w2].
Qed.

Lemma snap_right_unfold (monitor : positive) (snap_monitor : option positive) (w : World) :
  snap_right monitor snap_monitor w
  = let w1 := snd (modify (set_snap_state GDK_WIN32_AEROSNAP_STATE_HALFRIGHT) w) in
    let w2 := snd (stash_window w1) in
    let rect := gdk_win32_monitor_get_workarea snap_monitor in
    gdk_win32_surface_move_resize
      (GdkRectangle.x rect + Z.quot (GdkRectangle.width rect) 2
       - Z.quot (RECT.left (shadow (impl w2))) (surface_scale (impl w2)))
      (GdkRectangle.y rect - Z.quot (RECT.top (shadow (impl w2))) (surface_scale (impl w2)))
      (Z.quot (GdkRectangle.width rect) 2 + shadow_x (impl w2))
      (GdkRectangle.height rect + shadow_y (impl w2))
      w2.
Proof.
  unfold snap_right. gdk_unfold. cbv zeta.
  by destruct (stash_window _) as [[] w2].
Qed.

Lemma snap_up_unfold (w : World) :
  snap_up w
  = let w1 := snd (modify (set_snap_state GDK_WIN32_AEROSNAP_STATE_FULLUP) w) in
    let w2 := snd (stash_window w1) in
    gdk_win32_surface_move_resize
      (x (impl w2) - Z.quot (RECT.left (shadow (impl w2))) (surface_scale (impl w2)))
      (0 - Z.quot (RECT.top (shadow (impl w2))) (surface_scale (impl w2)))
      (width (impl w2) + shadow_x (impl w2))
      (to_SHORT (Z.quot (GetSystemMetrics_SM_CYVIRTUALSCREEN (calls w2))
                        (surface_scale (impl w2)))
       + shadow_y (impl w2))
      w2.
Proof.
  unfold snap_up. gdk_unfold. cbv zeta.
  by destruct (stash_window _) as [[] w2].
Qed.

(** [unsnap] with both stashes present. *)
Lemma unsnap_stashed (monitor : positive) (w : World)
    (stash : GdkRectangleDouble.t) (stash_int : GdkRectangle.t) :
  snap_stash (impl w) = Some stash ->
  snap_stash_int (impl w) = Some stash_int ->
  unsnap monitor w
  = let rect :=
      unsnap_rect (gdk_win32_monitor_get_workarea (Some monitor)) stash stash_int in
    (modify (set_snap_state GDK_WIN32_AEROSNAP_STATE_UNDETERMINED);;
     gdk_win32_surface_move_resize
       (GdkRectangle.x rect) (GdkRectangle.y rect)
       (GdkRectangle.width rect) (GdkRectangle.height rect);;
     clear_snap_stashes) w.
Proof.
  intros Hstash Hstash_int. unfold unsnap. gdk_unfold. simpl.
  by rewrite Hstash, Hstash_int.
Qed.

Lemma unsnap_not_stashed (monitor : positive) (w : World) :
  snap_stash (impl w) = None ->
  unsnap monitor w
  = modify (set_snap_state GDK_WIN32_AEROSNAP_STATE_UNDETERMINED) w.
Proof.
  intros Hstash. unfold unsnap. gdk_unfold. simpl. by rewrite Hstash.
Qed.

Lemma unsnap_frame (monitor : positive) (w : World) :
  snap_state (impl (snd (unsnap monitor w))) = GDK_WIN32_AEROSNAP_STATE_UNDETERMINED
  /\ exists extra,
       calls (snd (unsnap monitor w)) = calls w ++ extra /\ Forall is_move_call extra.
Proof.
  destruct (snap_stash (impl w)) as [stash|] eqn:Hstash.
  - destruct (snap_stash_int (impl w)) as [stash_int|] eqn:Hstash_int.
    + rewrite (unsnap_stashed _ _ _ _ Hstash Hstash_int). cbv zeta.
      unfold clear_snap_stashes. gdk_unfold.
      set (w1 := {| impl := set_snap_state _ (impl w) |}).
      set (rect := unsnap_rect _ _ _).
      pose proof (move_resize_frame (GdkRectangle.x rect) (GdkRectangle.y rect)
                    (GdkRectangle.width rect) (GdkRectangle.height rect) w1)
        as (extra & Hcalls & Hextra & Himpl).
      pose proof (move_resize_snap_fields (GdkRectangle.x rect) (GdkRectangle.y rect)
                    (GdkRectangle.width rect) (GdkRectangle.height rect) w1)
        as (Hstate & _).
      destruct (gdk_win32_surface_move_resize _ _ _ _ w1) as [[] w2].
      simpl in *. split; [by rewrite Hstate|]. by exists extra.
    + unfold unsnap. gdk_unfold. simpl. rewrite Hstash, Hstash_int. simpl.
      split; [done|]. exists []. by rewrite app_nil_r.
  - rewrite unsnap_not_stashed by done. simpl.
    split; [done|]. exists []. by rewrite app_nil_r.
Qed.

Lemma snap_left_state (monitor : positive) (snap_monitor : option positive) (w : World) :
  snap_state (impl (snd (snap_left monitor snap_monitor w)))
  = GDK_WIN32_AEROSNAP_STATE_HALFLEFT.
Proof.
  rewrite snap_left_unfold. cbv zeta.
  rewrite (proj1 (move_resize_snap_fields _ _ _ _ _)).
  by rewrite (proj1 (proj2 (stash_window_frame _))).
Qed.

Lemma snap_right_state (monitor : positive) (snap_monitor : option positive) (w : World) :
  snap_state (impl (snd (snap_right monitor snap_monitor w)))
  = GDK_WIN32_AEROSNAP_STATE_HALFRIGHT.
Proof.
  rewrite snap_right_unfold. cbv zeta.
  rewrite (proj1 (move_resize_snap_fields _ _ _ _ _)).
  by rewrite (proj1 (proj2 (stash_window_frame _))).
Qed.

Lemma snap_up_state (w : World) :
  snap_state (impl (snd (snap_up w))) = GDK_WIN32_AEROSNAP_STATE_FULLUP.
Proof.
  rewrite snap_up_unfold. cbv zeta.
  rewrite (proj1 (move_resize_snap_fields _ _ _ _ _)).
  by rewrite (proj1 (proj2 (stash_window_frame _))).
Qed.

Lemma discard_snapinfo_state (w : World) :
  snap_state (impl (snd (discard_snapinfo w))) = GDK_WIN32_AEROSNAP_STATE_UNDETERMINED.
Proof.
  unfold discard_snapinfo, clear_snap_stashes. gdk_unfold. simpl.
  by destruct (snap_stash (impl w)).
Qed.

Lemma halfsnapped_down (w : World) :
  truth (Z.land (state (impl w)) GDK_TOPLEVEL_STATE_MAXIMIZED) = false ->
  snap_state (impl w) = GDK_WIN32_AEROSNAP_STATE_HALFLEFT
  \/ snap_state (impl w) = GDK_WIN32_AEROSNAP_STATE_HALFRIGHT
  \/ snap_state (impl w) = GDK_WIN32_AEROSNAP_STATE_FULLUP ->
  _gdk_win32_surface_handle_aerosnap GDK_WIN32_AEROSNAP_COMBO_DOWN w
  = unsnap (gdk_display_get_monitor_at_surface (calls w)) w.
Proof.
  intros Hmax Hsnap. unfold _gdk_win32_surface_handle_aerosnap. gdk_unfold.
  rewrite Hmax. by destruct Hsnap as [-> | [-> | ->]].
Qed.

(** Without a snap, the same key combination minimizes the window. *)
Lemma unsnapped_down (w : World) :
  truth (Z.land (state (impl w)) GDK_TOPLEVEL_STATE_MAXIMIZED) = false ->
  truth (Z.land (state (impl w)) GDK_TOPLEVEL_STATE_MINIMIZED) = false ->
  snap_state (impl w) = GDK_WIN32_AEROSNAP_STATE_UNDETERMINED ->
  _gdk_win32_surface_handle_aerosnap GDK_WIN32_AEROSNAP_COMBO_DOWN w
  = gdk_win32_surface_minimize w.
Proof.
  intros Hmax Hmin Hsnap. unfold _gdk_win32_surface_handle_aerosnap. gdk_unfold.
  by rewrite Hmax, Hmin, Hsnap.
Qed.

(** C1.  The snap operations keep [snap_state] as a state machine:
    [snap_left] leaves it at HALFLEFT, [snap_right] at HALFRIGHT,
    [snap_up] at FULLUP, [unsnap] and [discard_snapinfo] at UNDETERMINED;
    and [_gdk_win32_surface_handle_aerosnap] with the DOWN combination, on
    a window that is not maximized and whose state is HALFLEFT, HALFRIGHT
    or FULLUP, does what [unsnap] does: the state becomes UNDETERMINED and
    the calls it adds are those of a move, none of them the [ShowWindow]
    or the synthesized state change of minimizing. *)
Theorem snap_state_machine (w : World) (monitor : positive) (snap_monitor : option positive) :
  snap_state (impl (snd (snap_left monitor snap_monitor w)))
  = GDK_WIN32_AEROSNAP_STATE_HALFLEFT
  /\ snap_state (impl (snd (snap_right monitor snap_monitor w)))
     = GDK_WIN32_AEROSNAP_STATE_HALFRIGHT
  /\ snap_state (impl (snd (snap_up w))) = GDK_WIN32_AEROSNAP_STATE_FULLUP
  /\ snap_state (impl (snd (unsnap monitor w))) = GDK_WIN32_AEROSNAP_STATE_UNDETERMINED
  /\ snap_state (impl (snd (discard_snapinfo w)))
     = GDK_WIN32_AEROSNAP_STATE_UNDETERMINED
  /\ (truth (Z.land (state (impl w)) GDK_TOPLEVEL_STATE_MAXIMIZED) = false ->
      snap_state (impl w) = GDK_WIN32_AEROSNAP_STATE_HALFLEFT
      \/ snap_state (impl w) = GDK_WIN32_AEROSNAP_STATE_HALFRIGHT
      \/ snap_state (impl w) = GDK_WIN32_AEROSNAP_STATE_FULLUP ->
      let w' := snd (_gdk_win32_surface_handle_aerosnap GDK_WIN32_AEROSNAP_COMBO_DOWN w) in
      _gdk_win32_surface_handle_aerosnap GDK_WIN32_AEROSNAP_COMBO_DOWN w
      = unsnap (gdk_display_get_monitor_at_surface (calls w)) w
      /\ snap_state (impl w') = GDK_WIN32_AEROSNAP_STATE_UNDETERMINED
      /\ exists extra,
           calls w' = calls w ++ extra
           /\ (ShowWindow SW_MINIMIZE ∉ extra)
           /\ (gdk_synthesize_surface_state 0 GDK_TOPLEVEL_STATE_MINIMIZED ∉ extra)).
Proof.
  split; [apply snap_left_state|].
  split; [apply snap_right_state|].
  split; [apply snap_up_state|].
  split; [apply unsnap_frame|].
  split; [apply discard_snapinfo_state|].
  intros Hmax Hsnap w'. subst w'.
  rewrite halfsnapped_down by done.
  split; [done|].
  destruct (unsnap_frame (gdk_display_get_monitor_at_surface (calls w)) w)
    as (Hstate & extra & Hcalls & Hextra).
  split; [done|]. exists extra. split; [done|].
  rewrite Forall_forall in Hextra.
  split; intros Hin; apply (Hextra _ Hin).
Qed.

(** C2 (amended).  When [GetWindowPlacement] and [GetMonitorInfoA]
    succeed, each of [snap_left], [snap_right] and [snap_up] stashes the
    normal placement of the window as it is before the move: its position
    and size in units of the surface scale, and the same as fractions of
    the work area of the monitor.  A later [unsnap] on a monitor whose
    work area is at least as wide and as tall as the stashed size moves
    the window to exactly the stashed width and height, at the position
    given by the stashed left/right and up/down ratios; on a smaller work
    area it moves it to the stashed relative size and position scaled to
    the new work area; in both cases both stashes are cleared afterwards.
    An [unsnap] that follows a snap at once therefore restores the width
    and height of the normal placement when the work area has room. *)
Theorem snap_stash_and_restore (w : World) (monitor : positive)
    (snap_monitor : option positive) :
  (forall (rcNormalPosition rcMonitor rcWork : RECT.t) (snap : Gdk unit),
     GetWindowPlacement (calls w) = Some rcNormalPosition ->
     GetMonitorInfoA (calls w) = Some (rcMonitor, rcWork) ->
     snap ∈ [snap_left monitor snap_monitor; snap_right monitor snap_monitor; snap_up] ->
     let scale := surface_scale (impl w) in
     let x := Z.quot (RECT.left rcNormalPosition - RECT.left rcMonitor) scale in
     let y := Z.quot (RECT.top rcNormalPosition - RECT.top rcMonitor) scale in
     let width := Z.quot (RECT.right rcNormalPosition - RECT.left rcNormalPosition) scale in
     let height := Z.quot (RECT.bottom rcNormalPosition - RECT.top rcNormalPosition) scale in
     let wwidth := Z.quot (RECT.right rcWork - RECT.left rcWork) scale in
     let wheight := Z.quot (RECT.bottom rcWork - RECT.top rcWork) scale in
     snap_stash_int (impl (snd (snap w)))
     = Some {| GdkRectangle.x := x; GdkRectangle.y := y;
               GdkRectangle.width := width; GdkRectangle.height := height |}
     /\ snap_stash (impl (snd (snap w)))
        = Some {| GdkRectangleDouble.x := d_div (d_of_int x) (d_of_int wwidth);
                  GdkRectangleDouble.y := d_div (d_of_int y) (d_of_int wheight);
                  GdkRectangleDouble.width := d_div (d_of_int width) (d_of_int wwidth);
                  GdkRectangleDouble.height :=
                    d_div (d_of_int height) (d_of_int wheight) |}
     /\ forall later : positive,
          let rect := gdk_win32_monitor_get_workarea (Some later) in
          GdkRectangle.width rect >= width ->
          GdkRectangle.height rect >= height ->
          exists new_x new_y,
            unsnap later (snd (snap w))
            = (modify (set_snap_state GDK_WIN32_AEROSNAP_STATE_UNDETERMINED);;
               gdk_win32_surface_move_resize new_x new_y width height;;
               clear_snap_stashes) (snd (snap w)))
  /\ (forall (stash : GdkRectangleDouble.t) (stash_int : GdkRectangle.t),
        snap_stash (impl w) = Some stash ->
        snap_stash_int (impl w) = Some stash_int ->
        let rect := gdk_win32_monitor_get_workarea (Some monitor) in
        (GdkRectangle.width rect >= GdkRectangle.width stash_int ->
         GdkRectangle.height rect >= GdkRectangle.height stash_int ->
         unsnap monitor w
         = (modify (set_snap_state GDK_WIN32_AEROSNAP_STATE_UNDETERMINED);;
            gdk_win32_surface_move_resize
              (GdkRectangle.x (unsnap_rect_fit rect stash stash_int))
              (GdkRectangle.y (unsnap_rect_fit rect stash stash_int))
              (GdkRectangle.width stash_int)
              (GdkRectangle.height stash_int);;
            clear_snap_stashes) w)
        /\ (GdkRectangle.width rect < GdkRectangle.width stash_int
            \/ GdkRectangle.height rect < GdkRectangle.height stash_int ->
            unsnap monitor w
            = (modify (set_snap_state GDK_WIN32_AEROSNAP_STATE_UNDETERMINED);;
               gdk_win32_surface_move_resize
                 (d_to_int (d_add (d_of_int (GdkRectangle.x rect))
                    (round (d_mul (d_of_int (GdkRectangle.width rect))
                                  (GdkRectangleDouble.x stash)))))
                 (d_to_int (d_add (d_of_int (GdkRectangle.y rect))
                    (round (d_mul (d_of_int (GdkRectangle.height rect))
                                  (GdkRectangleDouble.y stash)))))
                 (d_to_int (round (d_mul (d_of_int (GdkRectangle.width rect))
                                         (GdkRectangleDouble.width stash))))
                 (d_to_int (round (d_mul (d_of_int (GdkRectangle.height rect))
                                         (GdkRectangleDouble.height stash))));;
               clear_snap_stashes) w)
        /\ snap_stash (impl (snd (unsnap monitor w))) = None
        /\ snap_stash_int (impl (snd (unsnap monitor w))) = None).
Proof.
  split.
  - intros rcNormalPosition rcMonitor rcWork snap Hplacement Hinfo Hsnap.
    cbv zeta.
    set (w1 := fun st => snd (modify (set_snap_state st) w)).
    assert (forall st,
      snap_stash_int (impl (snd (stash_window (w1 st))))
      = Some (stashed_int (surface_scale (impl w)) rcNormalPosition rcMonitor)
      /\ snap_stash (impl (snd (stash_window (w1 st))))
         = Some (stashed_double (surface_scale (impl w))
                   rcNormalPosition rcMonitor rcWork)) as Hstashed.
    { intros st.
      destruct (stash_window_stashes (w1 st) rcNormalPosition rcMonitor rcWork)
        as (Hd & Hi); done. }
    assert (snap_stash_int (impl (snd (snap w)))
            = Some (stashed_int (surface_scale (impl w)) rcNormalPosition rcMonitor)
            /\ snap_stash (impl (snd (snap w)))
               = Some (stashed_double (surface_scale (impl w))
                         rcNormalPosition rcMonitor rcWork)) as (Hint & Hdouble).
    { repeat (apply elem_of_cons in Hsnap as [->|Hsnap]);
        [rewrite snap_left_unfold | rewrite snap_right_unfold | rewrite snap_up_unfold
        | by apply elem_of_nil in Hsnap];
        cbv zeta;
        rewrite (proj2 (proj2 (move_resize_snap_fields _ _ _ _ _))),
                (proj1 (proj2 (move_resize_snap_fields _ _ _ _ _)));
        apply Hstashed. }
    split; [done|]. split; [done|].
    intros later Hwidth Hheight.
    rewrite (unsnap_stashed _ _ _ _ Hdouble Hint). cbv zeta.
    unfold unsnap_rect. simpl.
    rewrite (geb_of_ge _ _ Hwidth), (geb_of_ge _ _ Hheight). simpl. eauto.
  - intros stash stash_int Hstash Hstash_int rect.
    rewrite (unsnap_stashed _ _ _ _ Hstash Hstash_int). cbv zeta. fold rect.
    split; [|split].
    + intros Hwidth Hheight. unfold unsnap_rect.
      by rewrite (geb_of_ge _ _ Hwidth), (geb_of_ge _ _ Hheight).
    + intros Hsmall. unfold unsnap_rect.
      assert ((GdkRectangle.width rect >=? GdkRectangle.width stash_int)
              && (GdkRectangle.height rect >=? GdkRectangle.height stash_int) = false)
        as ->; [|done].
      apply andb_false_iff. rewrite !Z.geb_leb, !Z.leb_gt. lia.
    + unfold clear_snap_stashes. gdk_unfold. simpl.
      by destruct (gdk_win32_surface_move_resize _ _ _ _ _) as [[] w2].
Qed.

End WithWin32.

(** *** Runs on the concrete window system *)
Section Runs.
Import Instances.
#[local] Existing Instance rational_double.

#[local] Existing Instance placed_win32.

Lemma snap_state_machine_witness :
  let w := world_of (toplevel GDK_WIN32_AEROSNAP_STATE_HALFLEFT 0) in
  let w' := snd (_gdk_win32_surface_handle_aerosnap GDK_WIN32_AEROSNAP_COMBO_DOWN w) in
  _gdk_win32_surface_handle_aerosnap GDK_WIN32_AEROSNAP_COMBO_DOWN w
  = unsnap (gdk_display_get_monitor_at_surface (calls w)) w
  /\ snap_state (impl w') = GDK_WIN32_AEROSNAP_STATE_UNDETERMINED
  /\ exists extra,
       calls w' = calls w ++ extra
       /\ (ShowWindow SW_MINIMIZE ∉ extra)
       /\ (gdk_synthesize_surface_state 0 GDK_TOPLEVEL_STATE_MINIMIZED ∉ extra).
Proof.
  intros w.
  apply (proj2 (proj2 (proj2 (proj2 (proj2
    (snap_state_machine (win32 := placed_win32) w 1%positive (Some 1%positive))))))).
  - reflexivity.
  - left. reflexivity.
Defined.

Example down_minimizes_without_snap :
  calls (snd (_gdk_win32_surface_handle_aerosnap GDK_WIN32_AEROSNAP_COMBO_DOWN
                (world_of (toplevel GDK_WIN32_AEROSNAP_STATE_UNDETERMINED 0))))
  = [ShowWindow SW_MINIMIZE].
Proof. reflexivity. Qed.

Lemma snap_stash_and_restore_witness :
  let w := world_of (toplevel GDK_WIN32_AEROSNAP_STATE_UNDETERMINED 0) in
  let w1 := snd (snap_left 1%positive (Some 1%positive) w) in
  snap_stash_int (impl w1)
  = Some {| GdkRectangle.x := 100; GdkRectangle.y := 100;
            GdkRectangle.width := 800; GdkRectangle.height := 600 |}
  /\ (exists new_x new_y,
        unsnap 1%positive w1
        = (modify (set_snap_state GDK_WIN32_AEROSNAP_STATE_UNDETERMINED);;
           gdk_win32_surface_move_resize new_x new_y 800 600;;
           clear_snap_stashes) w1)
  /\ (exists new_x new_y new_width new_height,
        unsnap 2%positive w1
        = (modify (set_snap_state GDK_WIN32_AEROSNAP_STATE_UNDETERMINED);;
           gdk_win32_surface_move_resize new_x new_y new_width new_height;;
           clear_snap_stashes) w1)
  /\ snap_stash (impl (snd (unsnap 1%positive w1))) = None.
Proof.
  intros w w1.
  destruct (proj1 (snap_stash_and_restore (win32 := placed_win32) w 1%positive (Some 1%positive))
              normal_placement
              {| RECT.left := 0; RECT.top := 0; RECT.right := 1920; RECT.bottom := 1080 |}
              {| RECT.left := 0; RECT.top := 0; RECT.right := 1920; RECT.bottom := 1040 |}
              (snap_left 1%positive (Some 1%positive))
              eq_refl eq_refl ltac:(apply list_elem_of_here))
    as (Hint & Hdouble & Hlater).
  destruct (proj2 (snap_stash_and_restore (win32 := placed_win32) w1 2%positive None) _ _ Hdouble Hint)
    as (_ & Hsmall & _).
  destruct (proj2 (snap_stash_and_restore (win32 := placed_win32) w1 1%positive None) _ _ Hdouble Hint)
    as (_ & _ & Hcleared & _).
  split; [exact Hint|].
  split; [exact (Hlater 1%positive ltac:(discriminate) ltac:(discriminate))|].
  split; [|exact Hcleared].
  do 4 eexists. apply Hsmall. left. reflexivity.
Defined.

(** C2 as stated fails: when [GetWindowPlacement] fails, [snap_left],
    [snap_right] and [snap_up] stash nothing, and the [unsnap] that
    follows moves nothing. *)
Lemma snap_without_placement_counterexample :
  let failing : Win32Api := failing_win32 in
  let w := world_of (toplevel GDK_WIN32_AEROSNAP_STATE_UNDETERMINED 0) in
  let w1 := snd (snap_left (win32 := failing) 1%positive (Some 1%positive) w) in
  snap_stash (impl w1) = None
  /\ snap_stash_int (impl w1) = None
  /\ snap_stash (impl (snd (snap_right (win32 := failing) 1%positive (Some 1%positive) w)))
     = None
  /\ snap_stash (impl (snd (snap_up (win32 := failing) w))) = None
  /\ calls (snd (unsnap (win32 := failing) 1%positive w1)) = calls w1.
Proof. repeat split. Qed.

Lemma style_bit_synchronization_witness :
  Z.land (recomputed_style (toplevel GDK_WIN32_AEROSNAP_STATE_UNDETERMINED 0) 0)
         WS_CAPTION = WS_CAPTION
  /\ Z.land (recomputed_style (toplevel GDK_WIN32_AEROSNAP_STATE_UNDETERMINED 0)
               0x00CF0000)
            WS_MAXIMIZEBOX = 0
  /\ (let w := world_of (toplevel GDK_WIN32_AEROSNAP_STATE_UNDETERMINED
                           GDK_TOPLEVEL_STATE_FULLSCREEN) in
      _gdk_win32_surface_update_style_bits w = (tt, w))
  /\ (let w := world_of (a_surface GDK_WIN32_POPUP false
                           GDK_WIN32_AEROSNAP_STATE_UNDETERMINED 0) in
      _gdk_win32_surface_update_style_bits w = (tt, w))
  /\ (let w := world_of (toplevel GDK_WIN32_AEROSNAP_STATE_UNDETERMINED 0) in
      exists rest,
        calls (snd (_gdk_win32_surface_update_style_bits w))
        = calls w ++ SetWindowLong GWL_STYLE 0x00CC0000 :: rest).
Proof.
  pose proof (style_bit_synchronization (double_arith := rational_double)
                (win32 := placed_win32)) as (_ & Hbit & Hfull & Hsame & Hdiffers).
  split; [|split; [|split; [|split]]].
  - apply (Hbit (toplevel GDK_WIN32_AEROSNAP_STATE_UNDETERMINED 0) 0
             (Z.lor (Z.lor GDK_DECOR_ALL GDK_DECOR_MINIMIZE) GDK_DECOR_MAXIMIZE)
             GDK_DECOR_TITLE WS_CAPTION eq_refl).
    do 2 apply list_elem_of_further. apply list_elem_of_here.
  - apply (Hbit (toplevel GDK_WIN32_AEROSNAP_STATE_UNDETERMINED 0) 0x00CF0000
             (Z.lor (Z.lor GDK_DECOR_ALL GDK_DECOR_MINIMIZE) GDK_DECOR_MAXIMIZE)
             GDK_DECOR_MAXIMIZE WS_MAXIMIZEBOX eq_refl).
    do 5 apply list_elem_of_further. apply list_elem_of_here.
  - intros w. apply Hfull. reflexivity.
  - intros w. apply Hsame; reflexivity.
  - intros w. apply (Hdiffers w); [reflexivity | discriminate].
Defined.

Lemma scale_factor_rules_witness :
  (let w := world_of (a_surface GDK_WIN32_TOPLEVEL true
                        GDK_WIN32_AEROSNAP_STATE_UNDETERMINED 0) in
   _gdk_win32_surface_get_scale_factor (display_of PROCESS_PER_MONITOR_DPI_AWARE false) w
   = (1, w))
  /\ (let w := world_of (toplevel GDK_WIN32_AEROSNAP_STATE_UNDETERMINED 0) in
      fst (_gdk_win32_surface_get_scale_factor (display_of PROCESS_DPI_UNAWARE true) w) = 1
      /\ impl (snd (_gdk_win32_surface_get_scale_factor
                      (display_of PROCESS_DPI_UNAWARE true) w)) = impl w)
  /\ (let w := world_of (toplevel GDK_WIN32_AEROSNAP_STATE_UNDETERMINED 0) in
      fst (_gdk_win32_surface_get_scale_factor
             (display_of PROCESS_PER_MONITOR_DPI_AWARE true) w) = 3
      /\ surface_scale
           (impl (snd (_gdk_win32_surface_get_scale_factor
                         (display_of PROCESS_PER_MONITOR_DPI_AWARE true) w))) = 3)
  /\ (let w := world_of (toplevel GDK_WIN32_AEROSNAP_STATE_UNDETERMINED 0) in
      fst (_gdk_win32_surface_get_scale_factor
             (display_of PROCESS_PER_MONITOR_DPI_AWARE false) w) = 2
      /\ surface_scale
           (impl (snd (_gdk_win32_surface_get_scale_factor
                         (display_of PROCESS_PER_MONITOR_DPI_AWARE false) w))) = 2).
Proof.
  split; [|split; [|split]].
  - intros w.
    apply (proj1 (scale_factor_rules (win32 := placed_win32) (display_of PROCESS_PER_MONITOR_DPI_AWARE false) w)).
    reflexivity.
  - intros w.
    apply (proj1 (proj2 (scale_factor_rules (win32 := placed_win32) (display_of PROCESS_DPI_UNAWARE true) w)));
      reflexivity.
  - intros w.
    destruct (proj2 (proj2
      (scale_factor_rules (win32 := placed_win32) (display_of PROCESS_PER_MONITOR_DPI_AWARE true) w))
      eq_refl ltac:(discriminate)) as (Heq & Hstored).
    rewrite Hstored, Heq. split; reflexivity.
  - intros w.
    destruct (proj2 (proj2
      (scale_factor_rules (win32 := placed_win32) (display_of PROCESS_PER_MONITOR_DPI_AWARE false) w))
      eq_refl ltac:(discriminate)) as (Heq & Hstored).
    rewrite Hstored, Heq. split; reflexivity.
Defined.

End Runs.
End Win32Spec.

(** ** The search entry *)
Module SearchEntrySpec.
Import SearchEntry.

(** Unless a statement names other handlers, it is about a search entry
    whose signals have no handlers that touch the entry or the main
    context. *)
#[local] Existing Instance no_handlers.

Lemma init_entry (w0 : World) :
  entry (obj (gtk_search_entry_init w0)) = Some (Pos.succ (next_object w0)).
Proof. reflexivity. Qed.

Lemma init_invariant (w0 : World) : initial w0 -> invariant w0 (gtk_search_entry_init w0).
Proof.
  intros (Hnext & Hids). split; simpl; try done.
  - rewrite lookup_insert_eq. by eexists.
  - intros id src Hsrc. by apply (Hids id src).
  - intros id (src & Hsrc & Hfunc & _). simpl in Hsrc.
    by destruct (Hids id src Hsrc) as (_ & Hother).
Qed.

(** The change of the text to a non-empty string. *)
Lemma changed_nonempty (w : World) (text : positive) (new_text : string) :
  entry (obj w) = Some text -> new_text <> EmptyString ->
  let w' := text_widget_changed new_text w in
  sources w' = <[next_source_id w := delayed_source w]> (pending_cancelled w)
  /\ next_source_id w' = next_source_id w + 1
  /\ delayed_changed_id (obj w') = next_source_id w
  /\ emitted w' = emitted w
  /\ entry (obj w') = entry (obj w)
  /\ this w' = this w
  /\ texts w' = <[text := new_text]> (texts w).
Proof.
  intros Hentry Hne. unfold text_widget_changed. rewrite Hentry. cbv zeta.
  unfold gtk_search_entry_changed, gtk_editable_get_text. simpl. rewrite Hentry.
  rewrite lookup_insert_eq, bool_decide_eq_false_2 by done.
  unfold reset_timeout, pending_cancelled, delayed_source,
    gdk_source_set_static_name_by_id, gtk_widget_set_child_visible.
  destruct (icon (obj w)); simpl;
    destruct (delayed_changed_id (obj w) >? 0); simpl;
    rewrite alter_insert_eq; done.
Qed.

(** The change of the text to the empty string. *)
Lemma changed_empty (w : World) (text : positive) :
  entry (obj w) = Some text -> 0 <= delayed_changed_id (obj w) ->
  let w' := text_widget_changed EmptyString w in
  sources w' = pending_cancelled w
  /\ next_source_id w' = next_source_id w
  /\ delayed_changed_id (obj w') = 0
  /\ emitted w' = emitted w ++ [SEARCH_CHANGED]
  /\ entry (obj w') = entry (obj w)
  /\ this w' = this w
  /\ texts w' = <[text := EmptyString]> (texts w).
Proof.
  intros Hentry Hdelayed. unfold text_widget_changed. rewrite Hentry. cbv zeta.
  unfold gtk_search_entry_changed, gtk_editable_get_text. simpl. rewrite Hentry.
  rewrite lookup_insert_eq, bool_decide_eq_true_2 by done.
  unfold pending_cancelled, gtk_widget_set_child_visible.
  destruct (icon (obj w)); simpl;
    destruct (Z.gtb_spec (delayed_changed_id (obj w)) 0); simpl;
    repeat split; try done; lia.
Qed.

(** The dispatch of a pending timeout of the entry. *)
Lemma dispatch_pending (w : World) (id : Z) :
  pending_search_changed w id ->
  let w' := dispatch id w in
  sources w' = delete id (sources w)
  /\ next_source_id w' = next_source_id w
  /\ delayed_changed_id (obj w') = 0
  /\ emitted w' = emitted w ++ [SEARCH_CHANGED]
  /\ entry (obj w') = entry (obj w)
  /\ this w' = this w
  /\ texts w' = texts w.
Proof.
  intros (src & Hsrc & Hfunc & Hdata). unfold dispatch.
  rewrite Hsrc, Hfunc. by rewrite decide_True.
Qed.

Lemma pending_after_insert (w w' : World) (id : Z) :
  this w' = this w ->
  sources w' = <[next_source_id w := delayed_source w]> (pending_cancelled w) ->
  (forall i, pending_search_changed w i -> i = delayed_changed_id (obj w)) ->
  (forall i src, sources w !! i = Some src -> 0 < i < next_source_id w) ->
  pending_search_changed w' id -> id = next_source_id w.
Proof.
  intros Hthis Hsources Hpending Hids (src & Hsrc & Hfunc & Hdata).
  destruct (decide (id = next_source_id w)) as [|Hne]; [done|].
  rewrite Hsources, lookup_insert_ne in Hsrc by done.
  unfold pending_cancelled in Hsrc.
  assert (pending_search_changed w id -> False) as Hfalse.
  { intros Hp. pose proof (Hpending _ Hp) as ->.
    destruct Hp as (src' & Hsrc' & _).
    pose proof (Hids _ _ Hsrc') as Hrange.
    destruct (Z.gtb_spec (delayed_changed_id (obj w)) 0); [|lia].
    by rewrite lookup_delete_eq in Hsrc. }
  exfalso. apply Hfalse. exists src. rewrite <- Hthis. split; [|done].
  destruct (delayed_changed_id (obj w) >? 0); [|done].
  apply lookup_delete_Some in Hsrc. tauto.
Qed.

Lemma pending_after_cancel (w w' : World) (id : Z) :
  this w' = this w ->
  sources w' = pending_cancelled w ->
  (forall i, pending_search_changed w i -> i = delayed_changed_id (obj w)) ->
  (forall i src, sources w !! i = Some src -> 0 < i < next_source_id w) ->
  pending_search_changed w' id -> False.
Proof.
  intros Hthis Hsources Hpending Hids (src & Hsrc & Hfunc & Hdata).
  rewrite Hsources in Hsrc. unfold pending_cancelled in Hsrc.
  assert (pending_search_changed w id) as Hp.
  { exists src. rewrite <- Hthis. split; [|done].
    destruct (delayed_changed_id (obj w) >? 0); [|done].
    apply lookup_delete_Some in Hsrc. tauto. }
  pose proof (Hpending _ Hp) as ->.
  destruct Hp as (src' & Hsrc' & _).
  pose proof (Hids _ _ Hsrc') as Hrange.
  destruct (Z.gtb_spec (delayed_changed_id (obj w)) 0); [|lia].
  by rewrite lookup_delete_eq in Hsrc.
Qed.

Lemma changed_invariant (w0 w : World) (new_text : string) :
  invariant w0 w -> invariant w0 (text_widget_changed new_text w).
Proof.
  intros [Hentry Htext Hthis Hnext Hids Hdelayed Hpending].
  destruct (decide (new_text = EmptyString)) as [->|Hne].
  - destruct (changed_empty w _ Hentry Hdelayed)
      as (Hs & Hn & Hd & _ & He & Ht & Hx).
    split; rewrite ?Hn, ?Hd, ?He, ?Ht, ?Hx; try done.
    + rewrite lookup_insert_eq. by eexists.
    + intros id src. rewrite Hs. unfold pending_cancelled.
      destruct (_ >? 0); [|by apply Hids].
      intros Hsrc. apply lookup_delete_Some in Hsrc as [_ Hsrc]. by apply (Hids id src).
    + intros id Hp. exfalso. by eapply pending_after_cancel.
  - destruct (changed_nonempty w _ new_text Hentry Hne)
      as (Hs & Hn & Hd & _ & He & Ht & Hx).
    split; rewrite ?Hn, ?Hd, ?He, ?Ht, ?Hx; try done; try lia.
    + rewrite lookup_insert_eq. by eexists.
    + intros id src. rewrite Hs.
      destruct (decide (id = next_source_id w)) as [->|Hid]; [lia|].
      rewrite lookup_insert_ne by done. unfold pending_cancelled.
      intros Hsrc.
      assert (sources w !! id = Some src) as Hsrc'.
      { destruct (_ >? 0); [|done]. apply lookup_delete_Some in Hsrc. tauto. }
      pose proof (Hids _ _ Hsrc'). lia.
    + intros id Hp. by eapply pending_after_insert.
Qed.

Lemma pending_same_sources (w w' : World) (id : Z) :
  this w' = this w -> sources w' = sources w ->
  pending_search_changed w' id -> pending_search_changed w id.
Proof.
  intros Hthis Hsources (src & Hsrc & Hfunc & Hdata).
  exists src. by rewrite <- Hsources, <- Hthis.
Qed.

Lemma dispatch_invariant (w0 w : World) (id : Z) :
  invariant w0 w -> invariant w0 (dispatch id w).
Proof.
  intros Hinv. pose proof Hinv as [Hentry Htext Hthis Hnext Hids Hdelayed Hpending].
  unfold dispatch.
  destruct (sources w !! id) as [src|] eqn:Hsrc; [|done].
  destruct (func src) eqn:Hfunc; [|done].
  destruct (decide (user_data src = this w)) as [Hdata|Hdata].
  - assert (pending_search_changed w id) as Hp by (by exists src).
    destruct (dispatch_pending w id Hp) as (Hs & Hn & Hd & _ & He & Ht & Hx).
    unfold dispatch in Hs, Hn, Hd, He, Ht, Hx.
    rewrite Hsrc, Hfunc, decide_True in Hs, Hn, Hd, He, Ht, Hx by done.
    split; rewrite ?Hn, ?Hd, ?He, ?Ht, ?Hx; try done.
    + intros i src'. rewrite Hs. intros Hi.
      apply lookup_delete_Some in Hi as [_ Hi]. by apply (Hids i src').
    + intros i (src' & Hi & Hf & Hu). exfalso.
      rewrite Hs in Hi. apply lookup_delete_Some in Hi as (Hne & Hi).
      rewrite Ht in Hu.
      assert (pending_search_changed w i) as Hpi by (by exists src').
      apply Hpending in Hp, Hpi. congruence.
  - split; simpl; try done.
    + intros i src' Hi. apply lookup_delete_Some in Hi as [_ Hi]. by apply (Hids i src').
    + intros i (src' & Hi & Hf & Hu). simpl in *.
      apply lookup_delete_Some in Hi as (_ & Hi).
      apply Hpending. by exists src'.
Qed.

Lemma step_invariant (w0 w w' : World) : invariant w0 w -> step w w' -> invariant w0 w'.
Proof.
  intros Hinv Hstep. destruct Hstep.
  - by apply changed_invariant.
  - by apply changed_invariant.
  - by apply dispatch_invariant.
  - destruct Hinv. split; try done;
      intros id Hp; by apply inv_pending0, (pending_same_sources _ _ id eq_refl eq_refl).
  - destruct Hinv. destruct widget; split; try done;
      intros id Hp; by apply inv_pending0, (pending_same_sources _ _ id eq_refl eq_refl).
  - destruct Hinv. split; simpl; try done; try lia.
    + intros id src.
      destruct (decide (id = next_source_id w)) as [->|Hid]; [lia|].
      rewrite lookup_insert_ne by done. intros Hsrc.
      pose proof (inv_ids0 _ _ Hsrc). lia.
    + intros id (src & Hsrc & Hfunc & Hdata). simpl in *.
      destruct (decide (id = next_source_id w)) as [->|Hid].
      * rewrite lookup_insert_eq in Hsrc. injection Hsrc as <-. discriminate Hfunc.
      * rewrite lookup_insert_ne in Hsrc by done. apply inv_pending0. by exists src.
  - destruct Hinv. split; simpl; try done.
    + intros i src' Hi. apply lookup_delete_Some in Hi as [_ Hi]. by apply (inv_ids0 i src').
    + intros i (src' & Hi & Hf & Hu). simpl in *.
      apply lookup_delete_Some in Hi as (_ & Hi).
      apply inv_pending0. by exists src'.
Qed.

Lemma reachable_invariant (w0 w : World) : initial w0 -> reachable w0 w -> invariant w0 w.
Proof.
  intros Hinit Hreach. induction Hreach as [|w w' _ IH Hstep].
  - by apply init_invariant.
  - by eapply step_invariant.
Qed.







(** The delayed emission of an entry whose signals have no handlers that
    call back into it.  In every state such an entry reaches, at most one
    timeout is pending that will emit search-changed on it.  A change to a
    non-empty text removes the pending timeout, if any, from the main
    context and then attaches a new one, of 150 milliseconds, whose id the
    entry stores, and emits nothing.  A change to the empty text removes
    the pending timeout, stores 0 as the id and emits search-changed at
    once.  When the pending timeout is dispatched, search-changed is
    emitted once, the stored id becomes 0 and the source is gone. *)
Theorem delayed_search_changed_single (w0 w : World) :
  initial w0 -> reachable (handlers := no_handlers) w0 w ->
  (forall id1 id2,
     pending_search_changed w id1 -> pending_search_changed w id2 -> id1 = id2)
  /\ (forall new_text, new_text <> EmptyString ->
        let w' := text_widget_changed new_text w in
        let new_id := next_source_id w in
        sources w'
        = <[new_id := {| interval := 150;
                         func := gtk_search_entry_changed_timeout_cb_func;
                         user_data := this w;
                         name := Some "[gtk] gtk_search_entry_changed_timeout_cb"%string |}]>
            (if delayed_changed_id (obj w) >? 0
             then delete (delayed_changed_id (obj w)) (sources w)
             else sources w)
        /\ (forall id, pending_search_changed w id -> sources w' !! id = None)
        /\ delayed_changed_id (obj w') = new_id
        /\ emitted w' = emitted w
        /\ (forall id, pending_search_changed w' id <-> id = new_id))
  /\ (let w' := text_widget_changed EmptyString w in
      sources w'
      = (if delayed_changed_id (obj w) >? 0
         then delete (delayed_changed_id (obj w)) (sources w)
         else sources w)
      /\ (forall id, pending_search_changed w id -> sources w' !! id = None)
      /\ delayed_changed_id (obj w') = 0
      /\ emitted w' = emitted w ++ [SEARCH_CHANGED]
      /\ (forall id, ~ pending_search_changed w' id))
  /\ (forall id, pending_search_changed w id ->
        let w' := dispatch id w in
        emitted w' = emitted w ++ [SEARCH_CHANGED]
        /\ delayed_changed_id (obj w') = 0
        /\ sources w' = delete id (sources w)
        /\ (forall id', ~ pending_search_changed w' id')).
Proof.
  intros Hinit Hreach.
  pose proof (reachable_invariant _ _ Hinit Hreach) as Hinv.
  pose proof Hinv as [Hentry Htext Hthis Hnext Hids Hdelayed Hpending].
  assert (forall id, pending_search_changed w id ->
            pending_cancelled w !! id = None /\ id <> next_source_id w) as Hcancel.
  { intros id Hp. pose proof (Hpending _ Hp) as ->.
    destruct Hp as (src & Hsrc & _). pose proof (Hids _ _ Hsrc) as Hrange.
    unfold pending_cancelled.
    destruct (Z.gtb_spec (delayed_changed_id (obj w)) 0); [|lia].
    split; [apply lookup_delete_eq | lia]. }
  split; [|split; [|split]].
  - intros id1 id2 H1 H2. apply Hpending in H1, H2. congruence.
  - intros new_text Hne w' new_id.
    destruct (changed_nonempty w _ new_text Hentry Hne)
      as (Hs & Hn & Hd & He & _ & Ht & _).
    fold w' in Hs, Hn, Hd, He, Ht.
    split; [done|]. split; [|split; [done|split; [done|]]].
    + intros id Hp. destruct (Hcancel id Hp) as (Hnone & Hid).
      by rewrite Hs, lookup_insert_ne.
    + intros id. split.
      * intros Hp. by eapply pending_after_insert.
      * intros ->. exists (delayed_source w). rewrite Hs, Ht.
        split; [apply lookup_insert_eq | done].
  - intros w'.
    destruct (changed_empty w _ Hentry Hdelayed) as (Hs & Hn & Hd & He & _ & Ht & _).
    fold w' in Hs, Hn, Hd, He, Ht.
    split; [done|]. split; [|split; [done|split; [done|]]].
    + intros id Hp. rewrite Hs. by apply Hcancel.
    + intros id Hp. by eapply (pending_after_cancel w w').
  - intros id Hp w'.
    destruct (dispatch_pending w id Hp) as (Hs & Hn & Hd & He & _ & Ht & _).
    fold w' in Hs, Hn, Hd, He, Ht.
    split; [done|]. split; [done|]. split; [done|].
    intros id' (src' & Hsrc' & Hfunc' & Hdata').
    rewrite Hs in Hsrc'. apply lookup_delete_Some in Hsrc' as (Hne & Hsrc').
    rewrite Ht in Hdata'.
    assert (pending_search_changed w id') as Hp' by (by exists src').
    apply Hpending in Hp, Hp'. congruence.
Qed.

Lemma delayed_search_changed_single_witness :
  let w0 := gtk_search_entry_init empty_world in
  let w := text_widget_changed "g" w0 in
  pending_search_changed w (next_source_id w0)
  /\ (forall id1 id2,
        pending_search_changed w id1 -> pending_search_changed w id2 -> id1 = id2)
  /\ delayed_changed_id (obj (text_widget_changed "gt" w)) = next_source_id w
  /\ sources (text_widget_changed "gt" w) !! next_source_id w0 = None
  /\ emitted (text_widget_changed EmptyString w) = emitted w ++ [SEARCH_CHANGED]
  /\ delayed_changed_id (obj (text_widget_changed EmptyString w)) = 0
  /\ emitted (dispatch (next_source_id w0) w) = emitted w ++ [SEARCH_CHANGED]
  /\ sources (dispatch (next_source_id w0) w) = delete (next_source_id w0) (sources w).
Proof.
  intros w0 w.
  assert (initial empty_world) as Hinit.
  { split; [reflexivity|]. intros id src Hsrc. simpl in Hsrc.
    by rewrite lookup_empty in Hsrc. }
  assert (reachable empty_world w0) as Hreach0 by apply reachable_init.
  assert (reachable empty_world w) as Hreach.
  { apply (reachable_step _ w0); [done | apply step_changed]. }
  destruct (delayed_search_changed_single empty_world w0 Hinit Hreach0)
    as (_ & Hfirst & _).
  destruct (Hfirst "g"%string ltac:(discriminate)) as (_ & _ & _ & _ & Hiff).
  pose proof (proj2 (Hiff (next_source_id w0)) eq_refl) as Hpending.
  destruct (delayed_search_changed_single empty_world w Hinit Hreach)
    as (Hsingle & Hnonempty & Hempty & Hdispatch).
  destruct (Hnonempty "gt"%string ltac:(discriminate)) as (_ & Hcancelled & Hid & _).
  destruct Hempty as (_ & _ & Hzero & Hemitted & _).
  destruct (Hdispatch (next_source_id w0) Hpending) as (Hfired & _ & Hgone & _).
  split; [exact Hpending|].
  split; [exact Hsingle|].
  split; [exact Hid|].
  split; [exact (Hcancelled (next_source_id w0) Hpending)|].
  split; [exact Hemitted|].
  split; [exact Hzero|].
  split; [exact Hfired|].
  exact Hgone.
Defined.

(** The same run, computed: the first change schedules the timeout 1, the
    second replaces it by the timeout 2, and clearing the text emits at
    once. *)
Example two_changes_then_clear :
  let w := text_widget_changed "gt"
             (text_widget_changed "g" (gtk_search_entry_init empty_world)) in
  delayed_changed_id (obj w) = 2
  /\ map_to_list (sources w)
     = [(2, {| interval := 150; func := gtk_search_entry_changed_timeout_cb_func;
               user_data := 1%positive;
               name := Some "[gtk] gtk_search_entry_changed_timeout_cb"%string |})]
  /\ emitted w = []
  /\ emitted (text_widget_changed EmptyString w) = [SEARCH_CHANGED]
  /\ map_to_list (sources (text_widget_changed EmptyString w)) = [].
Proof. vm_compute. repeat split. Qed.

(** C8.  The run on which the entry keeps two delayed emissions pending.
    A handler of search-changed strips a trailing space from the text.
    The text is set to "g " and the timeout 1 is scheduled.  When it is
    dispatched, the callback emits search-changed before it zeroes the
    stored id: the handler sets the text "g", which removes the source 1,
    schedules the timeout 2 and stores its id, and the callback then
    stores 0.  The timeout 2 is left pending with the stored id 0, so the
    next change, to "gt", cancels nothing and schedules the timeout 3:
    two timeouts are pending that will emit search-changed, and the
    dispatch of both emits it twice for the one change. *)
Theorem reentrant_handler_two_timeouts :
  let changed := text_widget_changed (handlers := trimming_handlers) in
  let fired := dispatch (handlers := trimming_handlers) in
  let w1 := changed "g " (gtk_search_entry_init empty_world) in
  let w2 := fired 1 w1 in
  let w3 := changed "gt" w2 in
  (delayed_changed_id (obj w1) = 1 /\ pending_search_changed w1 1)
  /\ (emitted w2 = [SEARCH_CHANGED]
      /\ texts w2 !! 3%positive = Some "g"%string
      /\ sources w2 !! 1 = None
      /\ pending_search_changed w2 2
      /\ delayed_changed_id (obj w2) = 0)
  /\ (delayed_changed_id (obj w3) = 3
      /\ pending_search_changed w3 2
      /\ pending_search_changed w3 3
      /\ emitted w3 = [SEARCH_CHANGED])
  /\ emitted (fired 3 (fired 2 w3)) = [SEARCH_CHANGED; SEARCH_CHANGED; SEARCH_CHANGED].
Proof.
  intros changed fired w1 w2 w3.
  assert (forall w id, sources w !! id = Some (delayed_source w) ->
            pending_search_changed w id) as Hpending.
  { intros w id Hsrc. exists (delayed_source w). split; [exact Hsrc|]. by split. }
  split; [split; [reflexivity|apply Hpending; vm_compute; reflexivity]|].
  split.
  { split; [vm_compute; reflexivity|]. split; [vm_compute; reflexivity|].
    split; [vm_compute; reflexivity|].
    split; [apply Hpending; vm_compute; reflexivity|reflexivity]. }
  split.
  { split; [vm_compute; reflexivity|].
    split; [apply Hpending; vm_compute; reflexivity|].
    split; [apply Hpending; vm_compute; reflexivity|vm_compute; reflexivity]. }
  vm_compute. reflexivity.
Qed.

End SearchEntrySpec.

(** ** The arithmetic of [int] *)
Module CIntSpec.
Import CInt.

Lemma wrap_fits (z : Z) : fits z -> wrap z = z.
Proof.
  unfold fits, INT_MIN, INT_MAX, wrap. intros Hz.
  rewrite Z.mod_small by lia. lia.
Qed.

Lemma wrap_range (z : Z) : fits (wrap z).
Proof.
  unfold fits, INT_MIN, INT_MAX, wrap.
  pose proof (Z.mod_pos_bound (z + 0x80000000) 0x100000000 ltac:(lia)). lia.
Qed.

(** The results of [int] operations that do not overflow: the innermost
    first. *)
Ltac unwrap :=
  unfold add, sub, mul;
  repeat match goal with
  | |- context [wrap ?z] =>
    lazymatch z with
    | context [wrap _] => fail
    | context [match _ with _ => _ end] => fail
    | _ => rewrite (wrap_fits z) by (unfold fits, INT_MIN, INT_MAX; lia)
    end
  end.

End CIntSpec.

(** ** Dragging: snap regions, the monitor under the pointer *)
Module Win32DragSpec.
Import Win32Surface Win32Drag CIntSpec.

Lemma point_in_rect_true x y r :
  point_in_rect x y r = true
  <-> GdkRectangle.x r <= x <= GdkRectangle.x r +ᵢ GdkRectangle.width r
      /\ GdkRectangle.y r <= y <= GdkRectangle.y r +ᵢ GdkRectangle.height r.
Proof.
  unfold point_in_rect.
  rewrite !andb_true_iff, !Z.geb_le, !Z.leb_le. lia.
Qed.

Ltac small_rects :=
  unfold small_rect, small, COORD_MAX in *; simpl in *.

Ltac plain t :=
  lazymatch t with
  | context [CInt.wrap _] => fail
  | context [match _ with _ => _ end] => fail
  | _ => idtac
  end.

Lemma unity_of_rects_sides (a b : GdkRectangle.t) :
  small_rect a -> small_rect b ->
  let u := unity_of_rects a b in
  GdkRectangle.x u = Z.min (GdkRectangle.x a) (GdkRectangle.x b)
  /\ GdkRectangle.y u = Z.min (GdkRectangle.y a) (GdkRectangle.y b)
  /\ GdkRectangle.x u + GdkRectangle.width u
     = Z.max (GdkRectangle.x a + GdkRectangle.width a)
             (GdkRectangle.x b + GdkRectangle.width b)
  /\ GdkRectangle.y u + GdkRectangle.height u
     = Z.max (GdkRectangle.y a + GdkRectangle.height a)
             (GdkRectangle.y b + GdkRectangle.height b).
Proof.
  destruct a as [ax ay aw ah], b as [bx by_ bw bh].
  intros Ha Hb. small_rects.
  unfold unity_of_rects; simpl.
  rewrite ?Z.gtb_ltb.
  repeat first
    [ progress unwrap
    | match goal with
      | |- context [?p <? ?q] =>
        plain p; plain q; destruct (Z.ltb_spec p q); simpl; rewrite ?Z.gtb_ltb
      end ];
  simpl in *; repeat split; lia.
Qed.

Lemma rectangle_by_sides (u v : GdkRectangle.t) :
  GdkRectangle.x u = GdkRectangle.x v ->
  GdkRectangle.y u = GdkRectangle.y v ->
  GdkRectangle.x u + GdkRectangle.width u = GdkRectangle.x v + GdkRectangle.width v ->
  GdkRectangle.y u + GdkRectangle.height u = GdkRectangle.y v + GdkRectangle.height v ->
  u = v.
Proof.
  destruct u, v; simpl; intros; f_equal; lia.
Qed.

(** X1.  For rectangles whose coordinates and sizes are at most 2^28 in
    absolute value, so that no [int] computation overflows,
    [unity_of_rects] returns the bounding box of its arguments: its left
    and top sides are the least of theirs, its right and bottom sides the
    greatest, whatever the signs of the widths and heights; so the order
    of the arguments does not matter, and every point of either argument
    is a point of the result. *)
Theorem unity_of_rects_bounding_box (a b : GdkRectangle.t) :
  small_rect a -> small_rect b ->
  let u := unity_of_rects a b in
  GdkRectangle.x u = Z.min (GdkRectangle.x a) (GdkRectangle.x b)
  /\ GdkRectangle.y u = Z.min (GdkRectangle.y a) (GdkRectangle.y b)
  /\ GdkRectangle.x u + GdkRectangle.width u
     = Z.max (GdkRectangle.x a + GdkRectangle.width a)
             (GdkRectangle.x b + GdkRectangle.width b)
  /\ GdkRectangle.y u + GdkRectangle.height u
     = Z.max (GdkRectangle.y a + GdkRectangle.height a)
             (GdkRectangle.y b + GdkRectangle.height b)
  /\ unity_of_rects b a = u
  /\ (forall x y, point_in_rect x y a = true \/ point_in_rect x y b = true ->
                  point_in_rect x y u = true).
Proof.
  intros Ha Hb u.
  destruct (unity_of_rects_sides a b Ha Hb) as (Hx & Hy & Hr & Hb').
  destruct (unity_of_rects_sides b a Hb Ha) as (Hx' & Hy' & Hr' & Hb'').
  fold u in Hx, Hy, Hr, Hb'.
  repeat split; try assumption.
  - apply rectangle_by_sides; lia.
  - intros x y E. apply point_in_rect_true.
    rewrite !point_in_rect_true in E.
    small_rects. revert E. unwrap. lia.
Qed.

(** The hit value of one region: the number of its two rectangles that
    hold the point. *)
Lemma point_in_aerosnap_region_values x y r :
  point_in_aerosnap_region x y r
  = (if point_in_rect x y (edge r) then 1 else 0)
    + (if point_in_rect x y (trigger r) then 1 else 0).
Proof.
  unfold point_in_aerosnap_region.
  by destruct (point_in_rect x y (edge r)), (point_in_rect x y (trigger r)).
Qed.

(** X2.  The search of an array of regions stops at the first region that
    holds the point in one of its rectangles: the result is the value of
    [point_in_aerosnap_region] for the first region of the array for which
    that value is not 0, whatever regions follow it, and 0 when there is
    no such region.  So it is 0, 1 or 2, and it is 2 only if the edge
    rectangle and the trigger rectangle of that first region both hold
    the point. *)
Theorem first_hit_values (x y : Z) (l : list AeroSnapEdgeRegion) :
  (first_hit x y l = 0
   <-> Forall (fun r => point_in_aerosnap_region x y r = 0) l)
  /\ (forall before r after,
        l = before ++ r :: after ->
        Forall (fun r' => point_in_aerosnap_region x y r' = 0) before ->
        point_in_aerosnap_region x y r <> 0 ->
        first_hit x y l = point_in_aerosnap_region x y r
        /\ (first_hit x y l = 2 ->
            point_in_rect x y (edge r) = true
            /\ point_in_rect x y (trigger r) = true))
  /\ 0 <= first_hit x y l <= 2.
Proof.
  split; [|split].
  - induction l as [|r l IH]; simpl.
    + split; [constructor|reflexivity].
    + destruct (Z.eqb_spec (point_in_aerosnap_region x y r) 0) as [E|E].
      * rewrite IH. split; [by constructor|]. intros H. by apply Forall_cons_1 in H as [_ H].
      * split; [contradiction|]. intros H. by apply Forall_cons_1 in H as [H _].
  - intros before r after -> Hbefore Hr.
    assert (first_hit x y (before ++ r :: after) = point_in_aerosnap_region x y r)
      as Hfirst.
    { induction Hbefore as [|r' before Hr' _ IH]; simpl.
      - by apply Z.eqb_neq in Hr as ->.
      - by rewrite Hr', Z.eqb_refl. }
    split; [exact Hfirst|].
    rewrite Hfirst, point_in_aerosnap_region_values.
    destruct (point_in_rect x y (edge r)), (point_in_rect x y (trigger r));
      intros H; try discriminate H; done.
  - induction l as [|r l IH]; simpl; [lia|].
    destruct (Z.eqb_spec (point_in_aerosnap_region x y r) 0) as [E|E]; [exact IH|].
    rewrite point_in_aerosnap_region_values.
    destruct (point_in_rect x y (edge r)), (point_in_rect x y (trigger r)); lia.
Qed.

Section WithMonitors.
Context {win32 : Win32Api}.
Variable gdk_monitor_get_geometry : positive -> GdkRectangle.t.

Local Abbreviation workarea m := (gdk_win32_monitor_get_workarea (Some m)).

Ltac region_inside :=
  intros Hwa Hg Hs Ht x y; rewrite !point_in_rect_true;
  unfold AEROSNAP_REGION_THICKNESS, AEROSNAP_REGION_TRIGGER_THICKNESS in *;
  small_rects; unwrap; lia.

Lemma up_region_inside wa g s :
  small_rect wa -> small_rect g ->
  0 <= s -> AEROSNAP_REGION_THICKNESS * s <= COORD_MAX ->
  trigger_inside_edge
    (up_region wa g (AEROSNAP_REGION_THICKNESS *ᵢ s)
       (AEROSNAP_REGION_TRIGGER_THICKNESS *ᵢ s)).
Proof. region_inside. Qed.

Lemma left_region_inside wa g s :
  small_rect wa -> small_rect g ->
  0 <= s -> AEROSNAP_REGION_THICKNESS * s <= COORD_MAX ->
  trigger_inside_edge
    (left_region wa g (AEROSNAP_REGION_THICKNESS *ᵢ s)
       (AEROSNAP_REGION_TRIGGER_THICKNESS *ᵢ s)).
Proof. region_inside. Qed.

Lemma right_region_inside wa g s :
  small_rect wa -> small_rect g ->
  0 <= s -> AEROSNAP_REGION_THICKNESS * s <= COORD_MAX ->
  trigger_inside_edge
    (right_region wa g (AEROSNAP_REGION_THICKNESS *ᵢ s)
       (AEROSNAP_REGION_TRIGGER_THICKNESS *ᵢ s)).
Proof. region_inside. Qed.

Lemma down_region_inside wa g s :
  small_rect wa -> small_rect g ->
  0 <= s -> AEROSNAP_REGION_THICKNESS * s <= COORD_MAX ->
  trigger_inside_edge
    (down_region wa g (AEROSNAP_REGION_THICKNESS *ᵢ s)
       (AEROSNAP_REGION_TRIGGER_THICKNESS *ᵢ s)).
Proof. region_inside. Qed.

Lemma Forall_snoc_if {A} (P : A -> Prop) (b : bool) l a :
  Forall P l -> P a -> Forall P (if b then l ++ [a] else l).
Proof.
  intros Hl Ha. destruct b; [|assumption].
  apply Forall_app. split; [assumption|]. now constructor.
Qed.

Lemma append_monitor_regions_well_formed s idx m c :
  small_rect (workarea m) /\ small_rect (gdk_monitor_get_geometry m) ->
  0 <= s -> AEROSNAP_REGION_THICKNESS * s <= COORD_MAX ->
  regions_well_formed c ->
  regions_well_formed (append_monitor_regions gdk_monitor_get_geometry s idx m c).
Proof.
  intros [Hwa Hg] Hs Ht (Hmax & Hl & Hr & Hf).
  unfold regions_well_formed, append_monitor_regions; simpl.
  repeat split; repeat apply Forall_snoc_if; try assumption;
    auto using up_region_inside, left_region_inside, right_region_inside,
      down_region_inside.
Qed.

Lemma monitors_loop_well_formed s l idx c :
  Forall (fun m => small_rect (workarea m) /\ small_rect (gdk_monitor_get_geometry m)) l ->
  0 <= s -> AEROSNAP_REGION_THICKNESS * s <= COORD_MAX ->
  regions_well_formed c ->
  regions_well_formed (monitors_loop gdk_monitor_get_geometry s l idx c).
Proof.
  intros Hl Hs Ht. revert idx c.
  induction Hl as [|m l Hm _ IH]; simpl; intros idx c Hc; [assumption|].
  apply IH. now apply append_monitor_regions_well_formed.
Qed.

(** X3.  When the scale is not negative and the thickness of the regions,
    20 times the scale, as well as the coordinates and sizes of the work
    area and of the geometry of every monitor of the display are at most
    2^28 in absolute value, so that no [int] computation overflows,
    [calculate_aerosnap_regions] appends only regions whose trigger
    rectangle lies inside their edge rectangle: arrays in which every
    region is so remain so. *)
Theorem calculate_aerosnap_regions_well_formed (surface_scale : Z) (context : regions) :
  0 <= surface_scale ->
  AEROSNAP_REGION_THICKNESS * surface_scale <= COORD_MAX ->
  Forall (fun m => small_rect (workarea m) /\ small_rect (gdk_monitor_get_geometry m))
    gdk_display_get_monitors ->
  regions_well_formed context ->
  regions_well_formed
    (calculate_aerosnap_regions gdk_monitor_get_geometry surface_scale context).
Proof.
  intros Hs Ht Hm Hc. now apply monitors_loop_well_formed.
Qed.

(** The inner loop, for one edge that another monitor can take away:
    [get] reads the edge and [P] is what the work area of the other
    monitor has to satisfy for the edge to stay. *)
Lemma other_monitors_loop_flag (get : edges -> bool) (P : GdkRectangle.t -> Prop)
    wa idx :
  (forall o e, get (exclude_edges wa o e) = true <-> get e = true /\ P o) ->
  (forall e, move_edge_UP e || move_edge_LEFT e || move_edge_RIGHT e
             || resize_edge_DOWN e = false -> get e = false) ->
  forall l k e,
    get (other_monitors_loop wa idx l k e) = true
    <-> get e = true
        /\ forall (i : nat) other,
             l !! i = Some other -> k + Z.of_nat i <> idx -> P (workarea other).
Proof.
  intros Hstep Hexit.
  induction l as [|o l IH]; intros k e; simpl.
  - split; [|tauto]. intros H. split; [exact H|]. intros i other Hi. discriminate Hi.
  - destruct (move_edge_UP e || move_edge_LEFT e || move_edge_RIGHT e
              || resize_edge_DOWN e) eqn:Hany; simpl.
    + destruct (Z.eqb_spec k idx) as [Hk|Hk].
      * rewrite IH. split; intros [He H]; (split; [exact He|]).
        -- intros [|i] other Hi Hne; simpl in Hi.
           ++ exfalso. apply Hne. lia.
           ++ apply (H i other Hi). lia.
        -- intros i other Hi Hne. apply (H (S i) other Hi). lia.
      * rewrite IH, Hstep. split.
        -- intros [[He H0] H]. split; [exact He|].
           intros [|i] other Hi Hne; simpl in Hi.
           ++ injection Hi as <-. exact H0.
           ++ apply (H i other Hi). lia.
        -- intros [He H]. split; [split; [exact He|]|].
           ++ apply (H 0%nat o eq_refl). lia.
           ++ intros i other Hi Hne. apply (H (S i) other Hi). lia.
    + rewrite (Hexit e Hany). split; [discriminate|]. intros [He _]. discriminate He.
Qed.

Lemma other_monitors_loop_up wa idx l :
  forall k e,
  resize_edge_UP e = move_edge_UP e ->
  resize_edge_UP (other_monitors_loop wa idx l k e)
  = move_edge_UP (other_monitors_loop wa idx l k e).
Proof.
  induction l as [|o l IH]; intros k e Hup; simpl; [exact Hup|].
  destruct (negb _); [exact Hup|].
  destruct (k =? idx); apply IH; [exact Hup|].
  simpl. now rewrite Hup.
Qed.

Lemma other_monitors_loop_down wa idx l :
  forall k e,
  move_edge_DOWN (other_monitors_loop wa idx l k e) = move_edge_DOWN e.
Proof.
  induction l as [|o l IH]; intros k e; simpl; [reflexivity|].
  destruct (negb _); [reflexivity|].
  destruct (k =? idx); rewrite IH; reflexivity.
Qed.

Lemma any_edge_false e :
  move_edge_UP e || move_edge_LEFT e || move_edge_RIGHT e || resize_edge_DOWN e = false ->
  move_edge_UP e = false /\ move_edge_LEFT e = false
  /\ move_edge_RIGHT e = false /\ resize_edge_DOWN e = false.
Proof.
  destruct (move_edge_UP e), (move_edge_LEFT e), (move_edge_RIGHT e),
    (resize_edge_DOWN e); simpl; intros H; try discriminate; repeat split.
Qed.

(** X4.  An edge of a monitor is left for snapping exactly when the work
    area of no other monitor of the display lies wholly beyond it: the
    right edge when none starts at or right of the right side, the left
    edge when none ends at or left of the left side, the top edge when none
    ends at or above the top, the bottom edge (for resizing) when none
    starts at or below the bottom.  The top edge serves moving and resizing
    alike, and the bottom edge never serves moving. *)
Theorem monitor_edges_free (monitor_idx : Z) (monitor : positive) :
  let wa := workarea monitor in
  let e := monitor_edges monitor_idx monitor in
  let others (P : GdkRectangle.t -> Prop) :=
    forall (i : nat) other,
      gdk_display_get_monitors !! i = Some other -> Z.of_nat i <> monitor_idx ->
      P (workarea other) in
  (move_edge_RIGHT e = true
   <-> others (fun o => GdkRectangle.x o < GdkRectangle.x wa +ᵢ GdkRectangle.width wa))
  /\ (move_edge_LEFT e = true
      <-> others (fun o => GdkRectangle.x wa < GdkRectangle.x o +ᵢ GdkRectangle.width o))
  /\ (move_edge_UP e = true
      <-> others (fun o => GdkRectangle.y wa < GdkRectangle.y o +ᵢ GdkRectangle.height o))
  /\ (resize_edge_DOWN e = true
      <-> others (fun o => GdkRectangle.y o < GdkRectangle.y wa +ᵢ GdkRectangle.height wa))
  /\ resize_edge_UP e = move_edge_UP e
  /\ move_edge_DOWN e = false.
Proof.
  intros wa e others. unfold others, e, monitor_edges. fold wa. clearbody wa.
  split; [|split; [|split; [|split; [|split]]]].
  - rewrite (other_monitors_loop_flag move_edge_RIGHT
      (fun o => GdkRectangle.x o < GdkRectangle.x wa +ᵢ GdkRectangle.width wa)).
    + simpl. split; [intros [_ H]; exact H|]. intros H; split; [reflexivity|exact H].
    + intros o e0. simpl. destruct (Z.geb_spec (GdkRectangle.x o)
        (GdkRectangle.x wa +ᵢ GdkRectangle.width wa)); intuition (discriminate || lia).
    + intros e0 H. now apply any_edge_false in H.
  - rewrite (other_monitors_loop_flag move_edge_LEFT
      (fun o => GdkRectangle.x wa < GdkRectangle.x o +ᵢ GdkRectangle.width o)).
    + simpl. split; [intros [_ H]; exact H|]. intros H; split; [reflexivity|exact H].
    + intros o e0. simpl. destruct (Z.leb_spec
        (GdkRectangle.x o +ᵢ GdkRectangle.width o) (GdkRectangle.x wa));
        intuition (discriminate || lia).
    + intros e0 H. now apply any_edge_false in H.
  - rewrite (other_monitors_loop_flag move_edge_UP
      (fun o => GdkRectangle.y wa < GdkRectangle.y o +ᵢ GdkRectangle.height o)).
    + simpl. split; [intros [_ H]; exact H|]. intros H; split; [reflexivity|exact H].
    + intros o e0. simpl. destruct (Z.leb_spec
        (GdkRectangle.y o +ᵢ GdkRectangle.height o) (GdkRectangle.y wa));
        intuition (discriminate || lia).
    + intros e0 H. now apply any_edge_false in H.
  - rewrite (other_monitors_loop_flag resize_edge_DOWN
      (fun o => GdkRectangle.y o < GdkRectangle.y wa +ᵢ GdkRectangle.height wa)).
    + simpl. split; [intros [_ H]; exact H|]. intros H; split; [reflexivity|exact H].
    + intros o e0. simpl. destruct (Z.geb_spec (GdkRectangle.y o)
        (GdkRectangle.y wa +ᵢ GdkRectangle.height wa)); intuition (discriminate || lia).
    + intros e0 H. now apply any_edge_false in H.
  - now apply other_monitors_loop_up.
  - now rewrite other_monitors_loop_down.
Qed.

Lemma append_monitor_regions_maximize_fullup s idx m c :
  (forall r, r ∈ maximize_regions c -> r ∈ fullup_regions c) ->
  forall r,
    r ∈ maximize_regions (append_monitor_regions gdk_monitor_get_geometry s idx m c) ->
    r ∈ fullup_regions (append_monitor_regions gdk_monitor_get_geometry s idx m c).
Proof.
  intros Hc r. unfold append_monitor_regions; simpl.
  unfold monitor_edges. rewrite other_monitors_loop_up by reflexivity.
  fold (monitor_edges idx m).
  destruct (move_edge_UP (monitor_edges idx m)),
           (resize_edge_DOWN (monitor_edges idx m));
    rewrite ?elem_of_app, ?list_elem_of_singleton; intuition.
Qed.

(** X5.  Every region in which a moved window is offered to be maximized
    is also a region in which a resized window is offered its full height:
    if this holds of the arrays before [calculate_aerosnap_regions], it
    holds after. *)
Theorem maximize_regions_are_fullup_regions (surface_scale : Z) (context : regions) :
  (forall r, r ∈ maximize_regions context -> r ∈ fullup_regions context) ->
  forall r,
    r ∈ maximize_regions
          (calculate_aerosnap_regions gdk_monitor_get_geometry surface_scale context) ->
    r ∈ fullup_regions
          (calculate_aerosnap_regions gdk_monitor_get_geometry surface_scale context).
Proof.
  unfold calculate_aerosnap_regions.
  generalize 0 at 1 2. revert context.
  induction gdk_display_get_monitors as [|m l IH]; simpl; intros c k Hc; [exact Hc|].
  apply IH. now apply append_monitor_regions_maximize_fullup.
Qed.


Local Abbreviation dist x y m := (point_distance x y (gdk_monitor_get_geometry m)).

(** Without overflow the distance is not negative, and less than
    [G_MAXINT]. *)
Lemma point_distance_small x y g :
  small x -> small y -> small_rect g ->
  0 <= point_distance x y g < G_MAXINT.
Proof.
  destruct g as [gx gy gw gh]. intros Hx Hy Hg.
  unfold G_MAXINT, CInt.INT_MAX. small_rects.
  unfold point_distance; simpl.
  repeat first
    [ progress unwrap
    | match goal with
      | |- context [?p <? ?q] => plain p; plain q; destruct (Z.ltb_spec p q)
      | |- context [?p <=? ?q] => plain p; plain q; destruct (Z.leb_spec p q)
      end ];
  lia.
Qed.

Lemma nearest_monitor_from_spec x y l :
  (forall m, m ∈ l -> 0 <= dist x y m) ->
  forall nearest nearest_dist,
  0 < nearest_dist ->
  let res := nearest_monitor_from gdk_monitor_get_geometry x y l nearest nearest_dist in
  (res = nearest /\ forall m', m' ∈ l -> nearest_dist <= dist x y m')
  \/ (exists pre m post,
        l = pre ++ m :: post /\ res = Some m /\ dist x y m < nearest_dist
        /\ (forall m', m' ∈ pre -> dist x y m < dist x y m')
        /\ (forall m', m' ∈ post -> dist x y m <= dist x y m')).
Proof.
  induction l as [|o l IH]; intros Hall0 nearest nd Hnd; simpl.
  - left. split; [reflexivity|]. intros m' Hin. now apply elem_of_nil in Hin.
  - pose proof (Hall0 o ltac:(apply list_elem_of_here)) as Hd0.
    assert (forall m, m ∈ l -> 0 <= dist x y m) as Hall0'
      by (intros m Hm; apply Hall0; now apply list_elem_of_further).
    specialize (IH Hall0').
    destruct (Z.ltb_spec (dist x y o) nd) as [Hlt|Hge].
    + rewrite Z.ltb_irrefl.
      destruct (Z.eqb_spec (dist x y o) 0) as [Hz|Hz].
      * right. exists [], o, l.
        split; [reflexivity|split; [reflexivity|split; [exact Hlt|split]]].
        -- intros m' Hin. now apply elem_of_nil in Hin.
        -- intros m' Hin. rewrite Hz. now apply Hall0'.
      * destruct (IH (Some o) (dist x y o))
          as [[Hres Hall]|(pre & m & post & Hl & Hres & Hm & Hpre & Hpost)]; [lia| |].
        -- right. exists [], o, l.
           split; [reflexivity|split; [exact Hres|split; [exact Hlt|split]]].
           ++ intros m' Hin. now apply elem_of_nil in Hin.
           ++ exact Hall.
        -- right. exists (o :: pre), m, post.
           split; [now rewrite Hl|split; [exact Hres|split; [lia|split]]].
           ++ intros m' Hin.
              apply elem_of_cons in Hin as [->|Hin]; [lia|now apply Hpre].
           ++ exact Hpost.
    + destruct (Z.ltb_spec (dist x y o) nd) as [Hlt|_]; [lia|].
      destruct (Z.eqb_spec nd 0) as [Hz|_]; [lia|].
      destruct (IH nearest nd Hnd)
        as [[Hres Hall]|(pre & m & post & Hl & Hres & Hm & Hpre & Hpost)].
      * left. split; [exact Hres|].
        intros m' Hin. apply elem_of_cons in Hin as [->|Hin]; [lia|now apply Hall].
      * right. exists (o :: pre), m, post.
        split; [now rewrite Hl|split; [exact Hres|split; [exact Hm|split]]].
        -- intros m' Hin.
           apply elem_of_cons in Hin as [->|Hin]; [lia|now apply Hpre].
        -- exact Hpost.
Qed.

(** X6.  For a point and monitors whose coordinates and sizes are at most
    2^28 in absolute value, so that no [int] computation overflows, the
    distance [get_monitor_at_point] computes is never negative, and the
    function returns the first monitor of the display that is nearest to
    the point: every monitor before it in the list is strictly farther,
    every monitor after it is at least as far.  It returns NULL only when
    the display has no monitor. *)
Theorem get_monitor_at_point_nearest (x y : Z) :
  small x -> small y ->
  Forall (fun m => small_rect (gdk_monitor_get_geometry m)) gdk_display_get_monitors ->
  (forall m, m ∈ gdk_display_get_monitors -> 0 <= dist x y m)
  /\ match get_monitor_at_point gdk_monitor_get_geometry x y with
     | Some m =>
       exists pre post,
         gdk_display_get_monitors = pre ++ m :: post
         /\ (forall m', m' ∈ pre -> dist x y m < dist x y m')
         /\ (forall m', m' ∈ post -> dist x y m <= dist x y m')
     | None => gdk_display_get_monitors = []
     end.
Proof.
  intros Hx Hy Hm.
  assert (forall m, m ∈ gdk_display_get_monitors -> 0 <= dist x y m < G_MAXINT)
    as Hdist.
  { intros m Hin. apply point_distance_small; try assumption.
    rewrite Forall_forall in Hm. now apply Hm. }
  split; [intros m Hin; now apply Hdist|].
  unfold get_monitor_at_point.
  destruct (nearest_monitor_from_spec x y gdk_display_get_monitors
              ltac:(intros m Hin; now apply Hdist) None G_MAXINT)
    as [[Hres Hall]|(pre & m & post & Hl & Hres & Hlt & Hpre & Hpost)];
    [reflexivity| |].
  - simpl in Hres. rewrite Hres.
    destruct gdk_display_get_monitors as [|m l]; [reflexivity|].
    pose proof (Hall m ltac:(apply list_elem_of_here)).
    pose proof (Hdist m ltac:(apply list_elem_of_here)). lia.
  - simpl in Hres. rewrite Hres. exists pre, post. auto.
Qed.

End WithMonitors.

(** X7.  [handle_aerosnap_move_resize] keeps the snap of the drag context
    in agreement with it: a context that is not revealed has no snap, the
    snaps to a half or to the whole work area belong to a move and the
    full-height snap to a resize.  It leaves the operation, the edge and
    the regions alone, and it makes at most one call to the indicator: none
    or an update when the snap stays, [stop_indicator] when the snap is
    given up, [start_indicator] with the new snap when a snap is taken. *)
Theorem handle_aerosnap_move_resize_invariant
    (context : GdkW32DragMoveResizeContext) (x y : Z) :
  drag_invariant context ->
  let context' := fst (handle_aerosnap_move_resize context x y) in
  let calls := snd (handle_aerosnap_move_resize context x y) in
  drag_invariant context'
  /\ op context' = op context
  /\ drag_edge context' = drag_edge context
  /\ snap_regions context' = snap_regions context
  /\ (calls = [] /\ context' = context
      \/ calls = [update_fullup_indicator] /\ context' = context
         /\ current_snap context = GDK_WIN32_AEROSNAP_STATE_FULLUP
      \/ calls = [stop_indicator]
         /\ current_snap context <> GDK_WIN32_AEROSNAP_STATE_UNDETERMINED
         /\ current_snap context' = GDK_WIN32_AEROSNAP_STATE_UNDETERMINED
      \/ calls = [start_indicator x y (current_snap context')]
         /\ current_snap context' <> GDK_WIN32_AEROSNAP_STATE_UNDETERMINED
         /\ current_snap context' <> current_snap context
         /\ revealed context' = true).
Proof.
  destruct context as [o e rev snap regs].
  unfold drag_invariant, handle_aerosnap_move_resize; simpl.
  intros [Hrev Hop].
  destruct rev; simpl.
  - destruct snap, o; simpl in *; try discriminate;
      repeat match goal with
      | |- context [if ?c then _ else _] => destruct c; simpl
      end;
      repeat split; intros; try discriminate; try reflexivity;
      first [ left; repeat split; reflexivity
            | right; left; repeat split; reflexivity
            | right; right; left; repeat split; (reflexivity || discriminate)
            | right; right; right; repeat split; (reflexivity || discriminate) ].
  - rewrite (Hrev eq_refl) in *.
    destruct o; simpl;
      repeat match goal with
      | |- context [if ?c then _ else _] => destruct c; simpl
      end;
      repeat split; intros; try discriminate; try reflexivity;
      first [ left; repeat split; reflexivity
            | right; right; right; repeat split; (reflexivity || discriminate) ].
Qed.

(** *** Runs on the concrete window system *)
Section Runs.
#[local] Existing Instance Instances.placed_win32.

Example unity_of_rects_run :
  unity_of_rects
    {| GdkRectangle.x := 0; GdkRectangle.y := 0;
       GdkRectangle.width := 10; GdkRectangle.height := 10 |}
    {| GdkRectangle.x := 5; GdkRectangle.y := -5;
       GdkRectangle.width := 10; GdkRectangle.height := 10 |}
  = {| GdkRectangle.x := 0; GdkRectangle.y := -5;
       GdkRectangle.width := 15; GdkRectangle.height := 15 |}.
Proof. reflexivity. Qed.

(** Beyond the range of [int] the result is not the bounding box: the
    right side of the first rectangle wraps around and the second
    rectangle is returned as it is. *)
Example unity_of_rects_overflow_run :
  unity_of_rects
    {| GdkRectangle.x := 2147483000; GdkRectangle.y := 0;
       GdkRectangle.width := 1000; GdkRectangle.height := 10 |}
    {| GdkRectangle.x := 0; GdkRectangle.y := 0;
       GdkRectangle.width := 10; GdkRectangle.height := 10 |}
  = {| GdkRectangle.x := 0; GdkRectangle.y := 0;
       GdkRectangle.width := 10; GdkRectangle.height := 10 |}.
Proof. reflexivity. Qed.

Lemma unity_of_rects_bounding_box_witness :
  let a := {| GdkRectangle.x := 0; GdkRectangle.y := 0;
              GdkRectangle.width := 10; GdkRectangle.height := 10 |} in
  let b := {| GdkRectangle.x := 5; GdkRectangle.y := -5;
              GdkRectangle.width := 10; GdkRectangle.height := 10 |} in
  small_rect a /\ small_rect b
  /\ GdkRectangle.x (unity_of_rects a b) + GdkRectangle.width (unity_of_rects a b) = 15
  /\ unity_of_rects b a = unity_of_rects a b
  /\ point_in_rect 2 2 (unity_of_rects a b) = true.
Proof.
  intros a b.
  assert (small_rect a) as Ha by (unfold small_rect, small, COORD_MAX; simpl; lia).
  assert (small_rect b) as Hb by (unfold small_rect, small, COORD_MAX; simpl; lia).
  destruct (unity_of_rects_bounding_box a b Ha Hb) as (_ & _ & Hright & _ & Hcomm & Hin).
  split; [exact Ha|]. split; [exact Hb|].
  split; [exact Hright|]. split; [exact Hcomm|].
  apply Hin. left. reflexivity.
Defined.

Lemma no_regions_well_formed : regions_well_formed no_regions.
Proof. repeat split; constructor. Qed.

Lemma calculate_aerosnap_regions_well_formed_witness :
  regions_well_formed two_monitor_regions.
Proof.
  apply (calculate_aerosnap_regions_well_formed (win32 := Instances.placed_win32)
           fixed_geometry 1 no_regions).
  - lia.
  - unfold AEROSNAP_REGION_THICKNESS, COORD_MAX. lia.
  - repeat (apply List.Forall_cons;
            [split; unfold small_rect, small, COORD_MAX; simpl; lia|]).
    apply List.Forall_nil.
  - exact no_regions_well_formed.
Defined.

(** The first monitor has the second to its right and the second the
    first to its left; no monitor is above or below the other. *)
Example two_monitor_regions_run :
  length (maximize_regions two_monitor_regions) = 2%nat
  /\ length (halfleft_regions two_monitor_regions) = 1%nat
  /\ length (halfright_regions two_monitor_regions) = 1%nat
  /\ length (fullup_regions two_monitor_regions) = 4%nat
  /\ first_hit 0 500 (halfleft_regions two_monitor_regions) = 2
  /\ first_hit 10 500 (halfleft_regions two_monitor_regions) = 1
  /\ first_hit 1920 200 (halfleft_regions two_monitor_regions) = 0
  /\ first_hit 2560 200 (halfright_regions two_monitor_regions) = 2.
Proof. vm_compute. repeat split. Qed.

(** Two regions that both hold the point (10, 500), the first in its edge
    rectangle only and the second in both rectangles: the search returns
    the value of the one that comes first. *)
Lemma first_hit_values_witness :
  let wide := {| GdkRectangle.x := 0; GdkRectangle.y := 0;
                 GdkRectangle.width := 20; GdkRectangle.height := 1040 |} in
  let narrow := {| GdkRectangle.x := 0; GdkRectangle.y := 0;
                   GdkRectangle.width := 1; GdkRectangle.height := 1040 |} in
  let r1 := {| edge := wide; trigger := narrow |} in
  let r2 := {| edge := wide; trigger := wide |} in
  point_in_aerosnap_region 10 500 r1 = 1
  /\ point_in_aerosnap_region 10 500 r2 = 2
  /\ first_hit 10 500 [r1; r2] = 1
  /\ first_hit 10 500 [r2; r1] = 2
  /\ point_in_rect 10 500 (trigger r2) = true.
Proof.
  intros wide narrow r1 r2.
  split; [reflexivity|]. split; [reflexivity|].
  destruct (first_hit_values 10 500 [r1; r2]) as (_ & Hfirst & _).
  destruct (Hfirst [] r1 [r2] eq_refl (List.Forall_nil _) ltac:(discriminate)) as [H12 _].
  destruct (first_hit_values 10 500 [r2; r1]) as (_ & Hsecond & _).
  destruct (Hsecond [] r2 [r1] eq_refl (List.Forall_nil _) ltac:(discriminate))
    as [H21 Hboth].
  split; [exact H12|]. split; [exact H21|].
  apply Hboth. exact H21.
Defined.

(** The first monitor keeps its left edge and loses its right edge to the
    second; the second keeps its right edge and loses its left edge. *)
Example monitor_edges_run :
  monitor_edges (win32 := Instances.placed_win32) 0 1
  = {| move_edge_UP := true; move_edge_DOWN := false; move_edge_LEFT := true;
       move_edge_RIGHT := false; resize_edge_UP := true; resize_edge_DOWN := true |}
  /\ monitor_edges (win32 := Instances.placed_win32) 1 2
  = {| move_edge_UP := true; move_edge_DOWN := false; move_edge_LEFT := false;
       move_edge_RIGHT := true; resize_edge_UP := true; resize_edge_DOWN := true |}.
Proof. vm_compute. split; reflexivity. Qed.

Lemma maximize_regions_are_fullup_regions_witness :
  Forall (fun r => r ∈ fullup_regions two_monitor_regions)
    (maximize_regions two_monitor_regions).
Proof.
  apply Forall_forall.
  apply (maximize_regions_are_fullup_regions (win32 := Instances.placed_win32)
           fixed_geometry 1 no_regions).
  intros r Hin. exact Hin.
Defined.

Example get_monitor_at_point_run :
  get_monitor_at_point (win32 := Instances.placed_win32) fixed_geometry 100 100
    = Some 1%positive
  /\ get_monitor_at_point (win32 := Instances.placed_win32) fixed_geometry 2000 500
    = Some 2%positive
  /\ get_monitor_at_point (win32 := Instances.placed_win32) fixed_geometry 2000 700
    = Some 1%positive
  /\ get_monitor_at_point (win32 := Instances.placed_win32) fixed_geometry (-5) 2000
    = Some 1%positive.
Proof. vm_compute. repeat split. Qed.

(** At the least [int] the distance to the first monitor wraps around to a
    negative number, and the search does not stop at the second monitor,
    which holds no point nearer than that. *)
Example get_monitor_at_point_overflow_run :
  point_distance (-2147483648) 0 (fixed_geometry 1) = -2147483648
  /\ get_monitor_at_point (win32 := Instances.placed_win32) fixed_geometry
       (-2147483648) 0
     = Some 1%positive.
Proof. vm_compute. split; reflexivity. Qed.

(** The point (2000, 700) is below the second monitor, at the distance
    221, and right of the first, at the distance 81. *)
Lemma get_monitor_at_point_nearest_witness :
  small 2000 /\ small 700
  /\ get_monitor_at_point (win32 := Instances.placed_win32) fixed_geometry 2000 700
     = Some 1%positive
  /\ point_distance 2000 700 (fixed_geometry 1) = 81
  /\ 0 <= point_distance 2000 700 (fixed_geometry 2).
Proof.
  assert (small 2000) as Hx by (unfold small, COORD_MAX; lia).
  assert (small 700) as Hy by (unfold small, COORD_MAX; lia).
  destruct (get_monitor_at_point_nearest (win32 := Instances.placed_win32)
              fixed_geometry 2000 700 Hx Hy) as [Hdist _].
  { repeat (apply List.Forall_cons; [unfold small_rect, small, COORD_MAX; simpl; lia|]).
    apply List.Forall_nil. }
  split; [exact Hx|]. split; [exact Hy|].
  split; [reflexivity|]. split; [reflexivity|].
  apply (Hdist 2%positive).
  apply list_elem_of_further, list_elem_of_here.
Defined.

(** A move that reaches the left trigger of the first monitor reveals the
    half-left snap. *)
Example handle_aerosnap_move_resize_run :
  handle_aerosnap_move_resize
    (drag_start GDK_WIN32_DRAGOP_MOVE GDK_SURFACE_EDGE_NORTH two_monitor_regions)
    0 500
  = (with_snap GDK_WIN32_AEROSNAP_STATE_HALFLEFT true
       (drag_start GDK_WIN32_DRAGOP_MOVE GDK_SURFACE_EDGE_NORTH two_monitor_regions),
     [start_indicator 0 500 GDK_WIN32_AEROSNAP_STATE_HALFLEFT]).
Proof. vm_compute. reflexivity. Qed.

(** A move over the regions of the two monitors: at the top of the first
    monitor the snap to the whole work area is taken and the indicator
    started; back in the middle of the monitor the snap is given up and
    the indicator stopped. *)
Lemma handle_aerosnap_move_resize_invariant_witness :
  let c0 := drag_start GDK_WIN32_DRAGOP_MOVE GDK_SURFACE_EDGE_NORTH
              two_monitor_regions in
  let r1 := handle_aerosnap_move_resize c0 100 0 in
  let r2 := handle_aerosnap_move_resize (fst r1) 100 500 in
  drag_invariant c0
  /\ current_snap (fst r1) = GDK_WIN32_AEROSNAP_STATE_MAXIMIZE
  /\ snd r1 = [start_indicator 100 0 GDK_WIN32_AEROSNAP_STATE_MAXIMIZE]
  /\ drag_invariant (fst r1)
  /\ snap_regions (fst r1) = two_monitor_regions
  /\ current_snap (fst r2) = GDK_WIN32_AEROSNAP_STATE_UNDETERMINED
  /\ snd r2 = [stop_indicator]
  /\ drag_invariant (fst r2).
Proof.
  intros c0 r1 r2.
  assert (drag_invariant c0) as H0 by (split; [reflexivity|exact I]).
  destruct (handle_aerosnap_move_resize_invariant c0 100 0 H0)
    as (H1 & _ & _ & Hregions & _).
  destruct (handle_aerosnap_move_resize_invariant (fst r1) 100 500 H1)
    as (H2 & _).
  split; [exact H0|].
  split; [vm_compute; reflexivity|]. split; [vm_compute; reflexivity|].
  split; [exact H1|]. split; [exact Hregions|].
  split; [vm_compute; reflexivity|]. split; [vm_compute; reflexivity|].
  exact H2.
Defined.

End Runs.

End Win32DragSpec.

(** ** More of the Win32 surface backend *)
Module Win32ExtSpec.
Import WinUser Win32Surface Win32SurfaceExt Win32Spec.

Ltac surface_unfold :=
  unfold gdk_win32_surface_move, gdk_win32_surface_move_resize,
    gdk_win32_surface_move_resize_internal,
    gdk_win32_surface_do_move, gdk_win32_surface_do_move_resize,
    gdk_win32_surface_resize,
    _gdk_win32_surface_invalidate_egl_framebuffer, get_outer_rect,
    _gdk_win32_adjust_client_rect;
  gdk_unfold.

Section WithWin32.
Context {double_arith : DoubleArith} {win32 : Win32Api}.


Lemma clamp_max (v : Z) : (if v <? 1 then 1 else v) = Z.max 1 v.
Proof. destruct (Z.ltb_spec v 1); lia. Qed.

(** X9.  A width or a height below 1 counts as 1: unless the call is a
    move with both of them negative, moving and resizing with a width and
    a height does what it does with each of them raised to at least 1. *)
Theorem move_resize_clamps_size (with_move : bool) (x y width height : Z) (w : World) :
  with_move = false \/ 0 <= width \/ 0 <= height ->
  gdk_win32_surface_move_resize_internal with_move x y width height w
  = gdk_win32_surface_move_resize_internal with_move x y
      (Z.max 1 width) (Z.max 1 height) w.
Proof.
  intros Hsome.
  assert (with_move && ((width <? 0) && (height <? 0)) = false) as Hcond.
  { destruct Hsome as [->|[H|H]]; [done|..]; apply andb_false_iff; right;
      apply andb_false_iff; [left|right]; apply Z.ltb_ge; lia. }
  assert (with_move && ((Z.max 1 width <? 0) && (Z.max 1 height <? 0)) = false)
    as Hcond'.
  { apply andb_false_iff; right. apply andb_false_iff; left. apply Z.ltb_ge. lia. }
  unfold gdk_win32_surface_move_resize_internal.
  rewrite Hcond, Hcond'.
  unfold gdk_win32_surface_do_move_resize, gdk_win32_surface_resize.
  rewrite (clamp_max width), (clamp_max height),
    (clamp_max (Z.max 1 width)), (clamp_max (Z.max 1 height)).
  assert (forall v, Z.max 1 (Z.max 1 v) = Z.max 1 v) as Hidem by (intros; lia).
  rewrite !Hidem. reflexivity.
Qed.

(** A destroyed surface is left alone: minimizing, maximizing and
    unmaximizing it change nothing and call nothing.  Moving or resizing a
    surface that is destroyed or fullscreen calls nothing but
    [gdk_surface_request_layout], and changes no field other than
    [egl_force_redraw_all]. *)
Theorem destroyed_surface_left_alone (w : World) :
  (destroyed (impl w) = true ->
   gdk_win32_surface_minimize w = (tt, w)
   /\ gdk_win32_surface_maximize w = (tt, w)
   /\ gdk_win32_surface_unmaximize w = (tt, w))
  /\ (destroyed (impl w) = true \/ fullscreen (impl w) = true ->
      forall with_move x y width height,
        let w' :=
          snd (gdk_win32_surface_move_resize_internal with_move x y width height w) in
        calls w' = calls w ++ [gdk_surface_request_layout]
        /\ (impl w' = impl w \/ impl w' = set_egl_force_redraw_all true (impl w))).
Proof.
  split.
  - intros Hd.
    unfold gdk_win32_surface_minimize, gdk_win32_surface_maximize,
      gdk_win32_surface_unmaximize.
    gdk_unfold. by rewrite Hd.
  - intros Hdf with_move x y width height.
    assert (destroyed (impl w) = true
            \/ (Z.land (state (impl w)) GDK_TOPLEVEL_STATE_FULLSCREEN =? 0) = false)
      as Hdf'.
    { destruct Hdf as [Hd|Hf]; [by left|right].
      unfold fullscreen in Hf. by apply negb_true_iff in Hf. }
    clear Hdf. surface_unfold. unfold fullscreen. simpl.
    destruct (modal_move_resize (calls w)); simpl; [auto|].
    destruct with_move; simpl.
    all: try (destruct ((width <? 0) && (height <? 0)); simpl).
    all: try (destruct (gl_paint_context_uses_es (impl w)); simpl).
    all: destruct (destroyed (impl w)) eqn:Hd; simpl;
      [|destruct Hdf' as [Hdf'|Hdf']; [discriminate|]; rewrite Hdf'; simpl].
    all: split; [reflexivity|]; first [by left | by right].
Qed.


(** *** Composition *)

Lemma gdk_bind_eq {A B : Type} (m : Gdk A) (k : A -> Gdk B) (w : World) :
  (m ≫= k) w = k (fst (m w)) (snd (m w)).
Proof. unfold mbind, Gdk_bind. by destruct (m w). Qed.

Lemma preserves_bind {A B : Type} (P : GdkWin32Surface -> Prop)
    (m : Gdk A) (k : A -> Gdk B) :
  preserves P m -> (forall a, preserves P (k a)) -> preserves P (m ≫= k).
Proof.
  intros Hm Hk w Hw. rewrite gdk_bind_eq. apply Hk, Hm, Hw.
Qed.

Lemma preserves_ret {A : Type} (P : GdkWin32Surface -> Prop) (a : A) :
  preserves P (mret a).
Proof. intros w Hw. exact Hw. Qed.

Lemma preserves_skip (P : GdkWin32Surface -> Prop) : preserves P skip.
Proof. intros w Hw. exact Hw. Qed.

Lemma preserves_get_impl (P : GdkWin32Surface -> Prop) : preserves P get_impl.
Proof. intros w Hw. exact Hw. Qed.

Lemma preserves_history (P : GdkWin32Surface -> Prop) : preserves P history.
Proof. intros w Hw. exact Hw. Qed.

Lemma preserves_emit (P : GdkWin32Surface -> Prop) (c : call) : preserves P (emit c).
Proof. intros w Hw. exact Hw. Qed.

Lemma preserves_modify (P : GdkWin32Surface -> Prop)
    (f : GdkWin32Surface -> GdkWin32Surface) :
  (forall s, P s -> P (f s)) -> preserves P (modify f).
Proof. intros Hf w Hw. apply Hf, Hw. Qed.

(** A computation that leaves the AeroSnap fields alone keeps every
    property that only they decide. *)
Lemma preserves_of_fields {A : Type} (P : GdkWin32Surface -> Prop) (m : Gdk A) :
  (forall s s', snap_fields s' = snap_fields s -> P s -> P s') ->
  (forall w, snap_fields (impl (snd (m w))) = snap_fields (impl w)) ->
  preserves P m.
Proof. intros HP Hm w Hw. exact (HP _ _ (Hm w) Hw). Qed.

Ltac preserves_step :=
  lazymatch goal with
  | |- preserves _ (mbind _ _) => apply preserves_bind; [|intros ?]
  | |- preserves _ (mret _) => apply preserves_ret
  | |- preserves _ skip => apply preserves_skip
  | |- preserves _ get_impl => apply preserves_get_impl
  | |- preserves _ history => apply preserves_history
  | |- preserves _ (emit _) => apply preserves_emit
  | |- preserves _ (modify _) => apply preserves_modify; intros ? ?; assumption
  | |- preserves _ (if ?c then _ else _) => destruct c
  | |- preserves _ (match ?c with _ => _ end) => destruct c
  | |- preserves _ _ => progress cbv beta zeta
  end.

(** *** The AeroSnap fields under the other operations *)

Lemma move_resize_internal_fields (with_move : bool) (x y width height : Z) (w : World) :
  snap_fields
    (impl (snd (gdk_win32_surface_move_resize_internal with_move x y width height w)))
  = snap_fields (impl w).
Proof.
  surface_unfold. simpl.
  destruct (modal_move_resize (calls w)); simpl; [done|].
  destruct with_move; simpl.
  all: try (destruct ((width <? 0) && (height <? 0)); simpl).
  all: try (destruct (gl_paint_context_uses_es (impl w)); simpl).
  all: destruct (destroyed (impl w)); simpl; [done|].
  all: destruct (fullscreen _); simpl; [done|].
  all: try done.
  all: by destruct (force_recompute_size _).
Qed.

Lemma GtkShowWindow_fields (cmd_show : SW) (w : World) :
  snap_fields (impl (snd (GtkShowWindow cmd_show w))) = snap_fields (impl w).
Proof.
  unfold GtkShowWindow. gdk_unfold.
  destruct cmd_show; simpl; try done; by destruct (IsWindowVisible (calls w)).
Qed.

Lemma minimize_fields (w : World) :
  snap_fields (impl (snd (gdk_win32_surface_minimize w))) = snap_fields (impl w).
Proof.
  unfold gdk_win32_surface_minimize, GtkShowWindow, synthesize_surface_state.
  gdk_unfold.
  destruct (destroyed (impl w)); [done|].
  destruct (is_mapped (impl w)); [|done]. simpl.
  by destruct (active_window_is_self (calls w)).
Qed.

Lemma maximize_fields (w : World) :
  snap_fields (impl (snd (gdk_win32_surface_maximize w))) = snap_fields (impl w).
Proof.
  unfold gdk_win32_surface_maximize, GtkShowWindow, synthesize_surface_state.
  gdk_unfold.
  destruct (destroyed (impl w)); [done|]. simpl.
  destruct (is_mapped (impl w)); [|done]. simpl.
  by destruct (IsWindowVisible (calls w)).
Qed.

Lemma unmaximize_fields (w : World) :
  snap_fields (impl (snd (gdk_win32_surface_unmaximize w))) = snap_fields (impl w).
Proof.
  unfold gdk_win32_surface_unmaximize, GtkShowWindow, synthesize_surface_state,
    _gdk_win32_surface_invalidate_egl_framebuffer.
  gdk_unfold.
  destruct (destroyed (impl w)); [done|].
  destruct (gl_paint_context_uses_es (impl w)); simpl;
    destruct (is_mapped (impl w)); simpl;
    try destruct (IsWindowVisible (calls w)); simpl;
    by destruct (inhibit_configure (impl w)).
Qed.

Lemma paired_of_fields (s s' : GdkWin32Surface) :
  snap_fields s' = snap_fields s -> stash_paired s -> stash_paired s'.
Proof.
  unfold snap_fields, stash_paired. intros [= _ -> ->]. done.
Qed.

Lemma stash_window_paired : preserves stash_paired stash_window.
Proof.
  intros w Hw. unfold stash_window. gdk_unfold. simpl.
  destruct (GetWindowPlacement (calls w)); [|done].
  destruct (GetMonitorInfoA (calls w)) as [[rcMonitor rcWork]|]; [|done].
  simpl. unfold stash_paired. simpl. split; discriminate.
Qed.

Lemma discard_snapinfo_stashes (w : World) :
  stash_paired (impl w) ->
  snap_stash (impl (snd (discard_snapinfo w))) = None
  /\ snap_stash_int (impl (snd (discard_snapinfo w))) = None.
Proof.
  intros Hw. unfold discard_snapinfo, clear_snap_stashes. gdk_unfold. simpl.
  destruct (snap_stash (impl w)) eqn:Hs; simpl; [done|].
  split; [done|]. by apply Hw.
Qed.

Lemma unsnap_stashes (monitor : positive) (w : World) :
  stash_paired (impl w) ->
  snap_stash (impl (snd (unsnap monitor w))) = None
  /\ snap_stash_int (impl (snd (unsnap monitor w))) = None.
Proof.
  intros Hw.
  destruct (snap_stash (impl w)) as [stash|] eqn:Hstash.
  - destruct (snap_stash_int (impl w)) as [stash_int|] eqn:Hstash_int.
    + rewrite (unsnap_stashed _ _ _ _ Hstash Hstash_int). cbv zeta.
      rewrite !gdk_bind_eq. done.
    + apply Hw in Hstash_int. congruence.
  - rewrite unsnap_not_stashed by done. simpl.
    split; [done|]. by apply Hw.
Qed.

Lemma paired_of_none (s : GdkWin32Surface) :
  snap_stash s = None /\ snap_stash_int s = None -> stash_paired s.
Proof. intros [H1 H2]. unfold stash_paired. by rewrite H1, H2. Qed.

Lemma discard_snapinfo_paired : preserves stash_paired discard_snapinfo.
Proof. intros w Hw. by apply paired_of_none, discard_snapinfo_stashes. Qed.

Lemma unsnap_paired (monitor : positive) : preserves stash_paired (unsnap monitor).
Proof. intros w Hw. by apply paired_of_none, unsnap_stashes. Qed.

Lemma move_resize_paired (x y width height : Z) :
  preserves stash_paired (gdk_win32_surface_move_resize x y width height).
Proof.
  apply preserves_of_fields; [apply paired_of_fields|].
  intros w. apply move_resize_internal_fields.
Qed.

Lemma snap_left_paired (monitor : positive) (snap_monitor : option positive) :
  preserves stash_paired (snap_left monitor snap_monitor).
Proof.
  unfold snap_left.
  repeat lazymatch goal with
  | |- preserves _ stash_window => apply stash_window_paired
  | |- preserves _ (gdk_win32_surface_move_resize _ _ _ _) => apply move_resize_paired
  | |- _ => preserves_step
  end.
Qed.

Lemma snap_right_paired (monitor : positive) (snap_monitor : option positive) :
  preserves stash_paired (snap_right monitor snap_monitor).
Proof.
  unfold snap_right.
  repeat lazymatch goal with
  | |- preserves _ stash_window => apply stash_window_paired
  | |- preserves _ (gdk_win32_surface_move_resize _ _ _ _) => apply move_resize_paired
  | |- _ => preserves_step
  end.
Qed.

Lemma snap_up_paired : preserves stash_paired snap_up.
Proof.
  unfold snap_up.
  repeat lazymatch goal with
  | |- preserves _ stash_window => apply stash_window_paired
  | |- preserves _ (gdk_win32_surface_move_resize _ _ _ _) => apply move_resize_paired
  | |- _ => preserves_step
  end.
Qed.

Lemma minimize_paired : preserves stash_paired gdk_win32_surface_minimize.
Proof. apply preserves_of_fields; [apply paired_of_fields|apply minimize_fields]. Qed.

Lemma maximize_paired : preserves stash_paired gdk_win32_surface_maximize.
Proof. apply preserves_of_fields; [apply paired_of_fields|apply maximize_fields]. Qed.

Lemma unmaximize_paired : preserves stash_paired gdk_win32_surface_unmaximize.
Proof. apply preserves_of_fields; [apply paired_of_fields|apply unmaximize_fields]. Qed.

Ltac paired_tac :=
  repeat lazymatch goal with
  | |- preserves _ stash_window => apply stash_window_paired
  | |- preserves _ (gdk_win32_surface_move_resize _ _ _ _) => apply move_resize_paired
  | |- preserves _ (unsnap _) => apply unsnap_paired
  | |- preserves _ discard_snapinfo => apply discard_snapinfo_paired
  | |- preserves _ (snap_left _ _) => apply snap_left_paired
  | |- preserves _ (snap_right _ _) => apply snap_right_paired
  | |- preserves _ snap_up => apply snap_up_paired
  | |- preserves _ gdk_win32_surface_minimize => apply minimize_paired
  | |- preserves _ gdk_win32_surface_maximize => apply maximize_paired
  | |- preserves _ gdk_win32_surface_unmaximize => apply unmaximize_paired
  | |- _ => preserves_step
  end.

(** X10.  The two stashes of a surface are allocated and freed together:
    if both or neither are present before, then both or neither are present
    after [stash_window], [discard_snapinfo], [unsnap], each of the three
    snapping functions, [_gdk_win32_surface_handle_aerosnap] with any key
    combination and [apply_snap] with any snap; so [unsnap] never reads a
    stash that is not there.  After [unsnap] and after [discard_snapinfo]
    neither is present. *)
Theorem snap_stashes_paired (w : World) :
  stash_paired (impl w) ->
  (forall (monitor : positive) (snap_monitor : option positive) (op : Gdk unit),
     op ∈ [stash_window; discard_snapinfo; unsnap monitor;
           snap_left monitor snap_monitor; snap_right monitor snap_monitor; snap_up] ->
     stash_paired (impl (snd (op w))))
  /\ (forall combo,
        stash_paired (impl (snd (_gdk_win32_surface_handle_aerosnap combo w))))
  /\ (forall snap, stash_paired (impl (snd (apply_snap snap w))))
  /\ (forall monitor,
        snap_stash (impl (snd (unsnap monitor w))) = None
        /\ snap_stash_int (impl (snd (unsnap monitor w))) = None)
  /\ snap_stash (impl (snd (discard_snapinfo w))) = None
  /\ snap_stash_int (impl (snd (discard_snapinfo w))) = None.
Proof.
  intros Hw. split; [|split; [|split; [|split]]].
  - intros monitor snap_monitor op Hop.
    repeat (apply elem_of_cons in Hop as [->|Hop]);
      [ by apply stash_window_paired | by apply discard_snapinfo_paired
      | by apply unsnap_paired | by apply snap_left_paired
      | by apply snap_right_paired | by apply snap_up_paired
      | by apply elem_of_nil in Hop ].
  - intros combo. revert w Hw.
    change (preserves stash_paired (_gdk_win32_surface_handle_aerosnap combo)).
    unfold _gdk_win32_surface_handle_aerosnap. paired_tac.
  - intros snap. revert w Hw.
    change (preserves stash_paired (apply_snap snap)).
    unfold apply_snap. paired_tac.
  - intros monitor. by apply unsnap_stashes.
  - by apply discard_snapinfo_stashes.
Qed.


Lemma fields_snap_state (s s' : GdkWin32Surface) :
  snap_fields s' = snap_fields s -> snap_state s' = snap_state s.
Proof. unfold snap_fields. by intros [= -> _ _]. Qed.

Lemma aerosnap_unmaximize_first (w : World) :
  snap_state
    (impl (snd ((if truth (Z.land (state (impl w)) GDK_TOPLEVEL_STATE_MAXIMIZED)
                 then gdk_win32_surface_unmaximize else skip) w)))
  = snap_state (impl w).
Proof.
  destruct (truth _); [|done]. apply fields_snap_state, unmaximize_fields.
Qed.

Lemma seq_snap_state (m k : Gdk unit) (st : GdkWin32AeroSnapState) (w : World) :
  (forall w', snap_state (impl (snd (k w'))) = st) ->
  snap_state (impl (snd ((m;; k) w))) = st.
Proof. intros Hk. rewrite gdk_bind_eq. apply Hk. Qed.

Lemma unsnap_state (monitor : positive) (w : World) :
  snap_state (impl (snd (unsnap monitor w))) = GDK_WIN32_AEROSNAP_STATE_UNDETERMINED.
Proof. apply unsnap_frame. Qed.

(** X11.  The LEFT and RIGHT key combinations step the snap state of a
    window, maximized or not, through a cycle: LEFT takes a window
    without a snap or at full height to the left half, a window on the
    left half to the right half (of the neighbouring monitor) and a window
    on the right half back to no snap; RIGHT does the same the other way
    round.  Neither changes the snap state MAXIMIZE. *)
Theorem aerosnap_left_right_cycle (w : World) :
  snap_state
    (impl (snd (_gdk_win32_surface_handle_aerosnap GDK_WIN32_AEROSNAP_COMBO_LEFT w)))
  = match snap_state (impl w) with
    | GDK_WIN32_AEROSNAP_STATE_UNDETERMINED
    | GDK_WIN32_AEROSNAP_STATE_FULLUP => GDK_WIN32_AEROSNAP_STATE_HALFLEFT
    | GDK_WIN32_AEROSNAP_STATE_HALFLEFT => GDK_WIN32_AEROSNAP_STATE_HALFRIGHT
    | GDK_WIN32_AEROSNAP_STATE_HALFRIGHT => GDK_WIN32_AEROSNAP_STATE_UNDETERMINED
    | GDK_WIN32_AEROSNAP_STATE_MAXIMIZE => GDK_WIN32_AEROSNAP_STATE_MAXIMIZE
    end
  /\ snap_state
       (impl (snd (_gdk_win32_surface_handle_aerosnap GDK_WIN32_AEROSNAP_COMBO_RIGHT w)))
     = match snap_state (impl w) with
       | GDK_WIN32_AEROSNAP_STATE_UNDETERMINED
       | GDK_WIN32_AEROSNAP_STATE_FULLUP => GDK_WIN32_AEROSNAP_STATE_HALFRIGHT
       | GDK_WIN32_AEROSNAP_STATE_HALFRIGHT => GDK_WIN32_AEROSNAP_STATE_HALFLEFT
       | GDK_WIN32_AEROSNAP_STATE_HALFLEFT => GDK_WIN32_AEROSNAP_STATE_UNDETERMINED
       | GDK_WIN32_AEROSNAP_STATE_MAXIMIZE => GDK_WIN32_AEROSNAP_STATE_MAXIMIZE
       end.
Proof.
  pose proof (aerosnap_unmaximize_first w) as Hfirst.
  split; unfold _gdk_win32_surface_handle_aerosnap;
    rewrite (gdk_bind_eq get_impl), (gdk_bind_eq history); cbn [fst snd get_impl history];
    cbv zeta; rewrite gdk_bind_eq, (gdk_bind_eq get_impl); cbn [fst snd get_impl];
    rewrite <- Hfirst;
    generalize ((if truth (Z.land (state (impl w)) GDK_TOPLEVEL_STATE_MAXIMIZED)
                 then gdk_win32_surface_unmaximize else skip) w).2;
    clear Hfirst; intros w1;
    destruct (snap_state (impl w1)) eqn:Hs.
  - apply seq_snap_state. intros. apply snap_left_state.
  - exact Hs.
  - apply seq_snap_state. intros. apply snap_right_state.
  - apply unsnap_state.
  - apply seq_snap_state. intros. apply snap_left_state.
  - apply seq_snap_state. intros. apply snap_right_state.
  - exact Hs.
  - apply unsnap_state.
  - apply seq_snap_state. intros. apply snap_left_state.
  - apply seq_snap_state. intros. apply snap_right_state.
Qed.

(** Key combinations that do nothing: NOTHING, SHIFT+LEFT and
    SHIFT+RIGHT always; UP and SHIFT+UP on a maximized window; SHIFT+UP on
    a window that has a snap; DOWN on a window that is minimized, not
    maximized and not snapped to a half or to full height; LEFT and RIGHT
    on a window that is not maximized and whose snap state is MAXIMIZE.
    The surface and the list of calls are then what they were. *)
Theorem aerosnap_idle_combinations (w : World) :
  let maximized := truth (Z.land (state (impl w)) GDK_TOPLEVEL_STATE_MAXIMIZED) in
  let minimized := truth (Z.land (state (impl w)) GDK_TOPLEVEL_STATE_MINIMIZED) in
  (forall combo,
     combo ∈ [GDK_WIN32_AEROSNAP_COMBO_NOTHING; GDK_WIN32_AEROSNAP_COMBO_SHIFTLEFT;
              GDK_WIN32_AEROSNAP_COMBO_SHIFTRIGHT] ->
     _gdk_win32_surface_handle_aerosnap combo w = (tt, w))
  /\ (maximized = true ->
      _gdk_win32_surface_handle_aerosnap GDK_WIN32_AEROSNAP_COMBO_UP w = (tt, w)
      /\ _gdk_win32_surface_handle_aerosnap GDK_WIN32_AEROSNAP_COMBO_SHIFTUP w = (tt, w))
  /\ (snap_state (impl w) <> GDK_WIN32_AEROSNAP_STATE_UNDETERMINED ->
      _gdk_win32_surface_handle_aerosnap GDK_WIN32_AEROSNAP_COMBO_SHIFTUP w = (tt, w))
  /\ (maximized = false -> minimized = true ->
      snap_state (impl w) = GDK_WIN32_AEROSNAP_STATE_UNDETERMINED
      \/ snap_state (impl w) = GDK_WIN32_AEROSNAP_STATE_MAXIMIZE ->
      _gdk_win32_surface_handle_aerosnap GDK_WIN32_AEROSNAP_COMBO_DOWN w = (tt, w)
      /\ _gdk_win32_surface_handle_aerosnap GDK_WIN32_AEROSNAP_COMBO_SHIFTDOWN w
         = (tt, w))
  /\ (maximized = false ->
      snap_state (impl w) = GDK_WIN32_AEROSNAP_STATE_MAXIMIZE ->
      _gdk_win32_surface_handle_aerosnap GDK_WIN32_AEROSNAP_COMBO_LEFT w = (tt, w)
      /\ _gdk_win32_surface_handle_aerosnap GDK_WIN32_AEROSNAP_COMBO_RIGHT w = (tt, w)).
Proof.
  intros maximized minimized. subst maximized minimized.
  unfold _gdk_win32_surface_handle_aerosnap.
  split; [|split; [|split; [|split]]].
  - intros combo Hin.
    repeat (apply elem_of_cons in Hin as [->|Hin]); try done.
    by apply elem_of_nil in Hin.
  - intros Hmax. gdk_unfold. by rewrite Hmax.
  - intros Hsnap. gdk_unfold. destruct (truth _); [done|]. simpl.
    by destruct (snap_state (impl w)).
  - intros Hmax Hmin Hsnap. gdk_unfold. rewrite Hmax, Hmin. simpl.
    by destruct Hsnap as [-> | ->].
  - intros Hmax Hsnap. gdk_unfold. rewrite Hmax. simpl. by rewrite Hsnap.
Qed.

(** X12.  [apply_snap] with no snap does nothing.  With any other snap it
    ends with [inhibit_configure] set and [force_recompute_size] clear, on
    a destroyed surface too, and it leaves the snap state at the snap it
    was given; except that for MAXIMIZE the snap state is left
    UNDETERMINED, the maximized state being kept by the window system. *)
Theorem apply_snap_effects (snap : GdkWin32AeroSnapState) (w : World) :
  let w' := snd (apply_snap snap w) in
  (snap = GDK_WIN32_AEROSNAP_STATE_UNDETERMINED -> apply_snap snap w = (tt, w))
  /\ (snap <> GDK_WIN32_AEROSNAP_STATE_UNDETERMINED ->
      inhibit_configure (impl w') = true
      /\ force_recompute_size (impl w') = false
      /\ snap_state (impl w')
         = match snap with
           | GDK_WIN32_AEROSNAP_STATE_MAXIMIZE => GDK_WIN32_AEROSNAP_STATE_UNDETERMINED
           | _ => snap
           end).
Proof.
  intros w'. subst w'. split.
  - intros ->. done.
  - intros Hsnap. unfold apply_snap.
    rewrite (gdk_bind_eq history). cbn [fst snd history]. cbv zeta.
    rewrite gdk_bind_eq.
    destruct snap; [done|..]; rewrite !gdk_bind_eq; cbn [fst snd modify impl];
      (split; [reflexivity|split; [reflexivity|]]); cbn [snap_state set_force_recompute_size set_inhibit_configure].
    + rewrite (fields_snap_state _ _ (maximize_fields _)). apply unsnap_state.
    + apply snap_left_state.
    + apply snap_right_state.
    + apply snap_up_state.
Qed.


(** *** The message about the scale *)

Lemma scale_factor_message (d : GdkWin32Display) (w : World) :
  let w' := snd (_gdk_win32_surface_get_scale_factor d w) in
  (calls w' = calls w /\ hidpi_msg_displayed w' = hidpi_msg_displayed w)
  \/ (hidpi_msg_displayed w = false /\ hidpi_msg_displayed w' = true
      /\ calls w'
         = calls w
           ++ [g_message "Note: GDK_SCALE is ignored as HiDPI awareness is disabled."]).
Proof.
  unfold _gdk_win32_surface_get_scale_factor, g_message_once. gdk_unfold.
  destruct (destroyed (impl w)); [by left|].
  destruct (dpi_aware_type d); simpl.
  - destruct (has_fixed_scale d); [|by left].
    destruct (hidpi_msg_displayed w) eqn:Hflag; simpl; [left|right]; by rewrite ?Hflag.
  - destruct (has_fixed_scale d); by left.
  - destruct (has_fixed_scale d); by left.
Qed.

(** X13.  Over any sequence of calls of
    [_gdk_win32_surface_get_scale_factor], for whatever displays, the only
    call made is the message that GDK_SCALE is ignored, and it is made at
    most once: never if it had been made before the sequence. *)
Theorem hidpi_message_at_most_once (displays : list GdkWin32Display) (w : World) :
  let run :=
    fold_left (fun w d => snd (_gdk_win32_surface_get_scale_factor d w)) displays w in
  (calls run = calls w /\ hidpi_msg_displayed run = hidpi_msg_displayed w)
  \/ (hidpi_msg_displayed w = false /\ hidpi_msg_displayed run = true
      /\ calls run
         = calls w
           ++ [g_message "Note: GDK_SCALE is ignored as HiDPI awareness is disabled."]).
Proof.
  revert w. induction displays as [|d displays IH]; intros w; simpl; [by left|].
  destruct (scale_factor_message d w) as [[Hc Hf]|(Hf & Hf' & Hc)];
    destruct (IH (snd (_gdk_win32_surface_get_scale_factor d w)))
      as [[Hc2 Hf2]|(Hg & Hg' & Hc2)].
  - left. split; congruence.
  - right. rewrite Hc2, Hc. split; [congruence|done].
  - right. rewrite Hc2, Hf2. done.
  - congruence.
Qed.

(** *** Maximizing and back *)

Lemma lor_then_clear (s b : Z) : Z.land s b = 0 -> Z.land (Z.lor s b) (Z.lnot b) = s.
Proof.
  intros Hd. apply Z.bits_inj'. intros n Hn.
  pose proof (land_disjoint_bits _ _ Hd n) as Hbit.
  rewrite Z.land_spec, Z.lor_spec, Z.lnot_spec by done.
  by destruct (Z.testbit s n), (Z.testbit b n).
Qed.

Lemma maximize_live (w : World) :
  destroyed (impl w) = false ->
  let w1 := snd (gdk_win32_surface_maximize w) in
  destroyed (impl w1) = false
  /\ is_mapped (impl w1) = is_mapped (impl w)
  /\ inhibit_configure (impl w1) = true
  /\ (is_mapped (impl w) = false ->
      state (impl w1) = Z.lor (state (impl w)) GDK_TOPLEVEL_STATE_MAXIMIZED
      /\ calls w1
         = calls w ++ [gdk_synthesize_surface_state 0 GDK_TOPLEVEL_STATE_MAXIMIZED])
  /\ (is_mapped (impl w) = true ->
      state (impl w1) = state (impl w)
      /\ exists before, calls w1 = calls w ++ before ++ [ShowWindow SW_MAXIMIZE]).
Proof.
  intros Hlive.
  unfold gdk_win32_surface_maximize, GtkShowWindow, synthesize_surface_state.
  gdk_unfold. rewrite Hlive. simpl.
  destruct (is_mapped (impl w)) eqn:Hm; simpl; rewrite ?Hm.
  - destruct (IsWindowVisible (calls w)); simpl; rewrite ?Hm;
      (split; [done|split; [done|split; [done|split; [done|]]]]); intros _;
      (split; [done|]).
    + by exists [].
    + eexists [_]. by rewrite <- app_assoc.
  - split; [done|split; [done|split; [done|split; [|done]]]]. intros _.
    split; [|done]. change (Z.lnot 0) with (-1). apply Z.land_m1_r.
Qed.

Lemma unmaximize_live (w : World) :
  destroyed (impl w) = false ->
  let w2 := snd (gdk_win32_surface_unmaximize w) in
  (inhibit_configure (impl w) = true ->
   inhibit_configure (impl w2) = false /\ force_recompute_size (impl w2) = true)
  /\ (is_mapped (impl w) = false ->
      state (impl w2) = Z.land (state (impl w)) (Z.lnot GDK_TOPLEVEL_STATE_MAXIMIZED)
      /\ calls w2
         = calls w ++ [gdk_synthesize_surface_state GDK_TOPLEVEL_STATE_MAXIMIZED 0])
  /\ (is_mapped (impl w) = true ->
      state (impl w2) = state (impl w)
      /\ exists between, calls w2 = calls w ++ between ++ [ShowWindow SW_RESTORE]).
Proof.
  intros Hlive.
  unfold gdk_win32_surface_unmaximize, GtkShowWindow, synthesize_surface_state,
    _gdk_win32_surface_invalidate_egl_framebuffer.
  gdk_unfold. rewrite Hlive.
  destruct (gl_paint_context_uses_es (impl w)); simpl;
    destruct (is_mapped (impl w)) eqn:Hm; simpl; rewrite ?Hm;
    try destruct (IsWindowVisible (calls w)); simpl; rewrite ?Hm;
    destruct (inhibit_configure (impl w)) eqn:Hinh; simpl; rewrite ?Hinh;
    (split; [|split]); intros Hx; try discriminate Hx;
    rewrite ?Z.lor_0_r; (split; [done|]); try done.
  all: first [by exists [] | eexists [_]; by rewrite <- app_assoc].
Qed.

(** X14.  Maximizing a live surface and then unmaximizing it leaves
    [inhibit_configure] clear and [force_recompute_size] set, whatever they
    were.  For a surface that is not mapped the two calls are two
    synthesized state changes, after which the MAXIMIZED bit of the state
    is clear, and the state is the one before if the bit was clear then;
    for a mapped surface the state is left to the window system, which is
    asked to show the window maximized and then restored. *)
Theorem maximize_unmaximize_round_trip (w : World) :
  destroyed (impl w) = false ->
  let w' := snd (gdk_win32_surface_unmaximize (snd (gdk_win32_surface_maximize w))) in
  inhibit_configure (impl w') = false
  /\ force_recompute_size (impl w') = true
  /\ (is_mapped (impl w) = false ->
      Z.land (state (impl w')) GDK_TOPLEVEL_STATE_MAXIMIZED = 0
      /\ (Z.land (state (impl w)) GDK_TOPLEVEL_STATE_MAXIMIZED = 0 ->
          state (impl w') = state (impl w))
      /\ calls w'
         = calls w
           ++ [gdk_synthesize_surface_state 0 GDK_TOPLEVEL_STATE_MAXIMIZED;
               gdk_synthesize_surface_state GDK_TOPLEVEL_STATE_MAXIMIZED 0])
  /\ (is_mapped (impl w) = true ->
      state (impl w') = state (impl w)
      /\ exists before between,
           calls w'
           = calls w ++ before ++ [ShowWindow SW_MAXIMIZE]
             ++ between ++ [ShowWindow SW_RESTORE]).
Proof.
  intros Hlive w'. subst w'.
  destruct (maximize_live w Hlive) as (Hlive1 & Hm1 & Hinh1 & Hun1 & Hmap1).
  destruct (unmaximize_live _ Hlive1) as (Hinh2 & Hun2 & Hmap2).
  destruct (Hinh2 Hinh1) as [Hi Hf].
  split; [exact Hi|split; [exact Hf|split]].
  - intros Hm. destruct (Hun1 Hm) as [Hs1 Hc1].
    rewrite Hm1 in Hun2. destruct (Hun2 Hm) as [Hs2 Hc2].
    rewrite Hs2, Hs1, Hc2, Hc1. split; [apply land_lnot_same|].
    split; [apply lor_then_clear|by rewrite <- app_assoc].
  - intros Hm. destruct (Hmap1 Hm) as (Hs1 & before & Hc1).
    rewrite Hm1 in Hmap2. destruct (Hmap2 Hm) as (Hs2 & between & Hc2).
    split; [congruence|]. exists before, between.
    rewrite Hc2, Hc1. by rewrite <- !app_assoc.
Qed.


(** *** Decorations *)

Lemma land_within_sub (s big b : Z) :
  Z.land big b = b -> Z.land (Z.land s big) b = Z.land s b.
Proof.
  intros Hsub. apply Z.bits_inj'. intros n Hn.
  assert (Z.testbit big n && Z.testbit b n = Z.testbit b n) as Hbit
    by (by rewrite <- Z.land_spec, Hsub).
  rewrite !Z.land_spec.
  by destruct (Z.testbit s n), (Z.testbit b n), (Z.testbit big n).
Qed.

Lemma toplevel_decorations (window : GdkWin32Surface) :
  GDK_IS_TOPLEVEL (surface_type window) = true ->
  exists decorations,
    get_effective_window_decorations window = (true, decorations)
    /\ if decorate_all window
       then decorations
            = Z.lor (Z.lor (Z.lor GDK_DECOR_ALL GDK_DECOR_RESIZEH) GDK_DECOR_MAXIMIZE)
                    GDK_DECOR_MINIMIZE
            \/ decorations
               = Z.lor (Z.lor GDK_DECOR_ALL GDK_DECOR_MAXIMIZE) GDK_DECOR_MINIMIZE
       else decorations = 0.
Proof.
  intros Htop. unfold get_effective_window_decorations. rewrite Htop. simpl.
  destruct (decorate_all window); simpl; [|by eexists].
  destruct (_ && _); [by eexists; split; [|left]|].
  destruct (truth _); eexists; (split; [done|]); [by right|].
  right. apply Z.bits_inj'. intros n Hn. rewrite !Z.lor_spec.
  by destruct (Z.testbit GDK_DECOR_ALL n), (Z.testbit GDK_DECOR_MINIMIZE n),
    (Z.testbit GDK_DECOR_MAXIMIZE n).
Qed.

Lemma recomputed_style_bit (window : GdkWin32Surface) (old_style flag bit : Z) :
  GDK_IS_TOPLEVEL (surface_type window) = true ->
  (flag, bit) ∈ decoration_style_bits ->
  exists decorations,
    get_effective_window_decorations window = (true, decorations)
    /\ Z.land (recomputed_style window old_style) bit
       = if bit_rule (Z.land decorations GDK_DECOR_ALL) (Z.land decorations flag)
         then bit else 0.
Proof.
  intros Htop Hin.
  destruct (toplevel_decorations window Htop) as (decorations & Heff & Hcases).
  exists decorations. split; [done|].
  unfold recomputed_style. rewrite Heff.
  apply decorated_bit; [|done].
  destruct (decorate_all window); [by right|by left].
Qed.

(** X15.  [_gdk_win32_surface_lacks_wm_decorations] agrees with
    [_gdk_win32_surface_update_style_bits] on a live toplevel that has a
    window handle: the style the latter computes has at least one of the
    six decoration bits when [decorate_all] is set and none of them when
    it is clear, and the former, reading that style from the window,
    returns TRUE exactly when [decorate_all] is clear. *)
Theorem lacks_wm_decorations_in_sync (hwnd : Z) (old_style : Z) (w : World) :
  GDK_IS_TOPLEVEL (surface_type (impl w)) = true ->
  destroyed (impl w) = false ->
  hwnd <> 0 ->
  GetWindowLong (calls w) GWL_STYLE = recomputed_style (impl w) old_style ->
  _gdk_win32_surface_lacks_wm_decorations hwnd w = (negb (decorate_all (impl w)), w)
  /\ (Z.land (recomputed_style (impl w) old_style) decoration_bits = 0
      <-> decorate_all (impl w) = false).
Proof.
  intros Htop Hlive Hhwnd Hstyle.
  destruct (toplevel_decorations (impl w) Htop) as (decorations & Heff & Hcases).
  assert (decorate_all (impl w) = true ->
          Z.land (recomputed_style (impl w) old_style) WS_BORDER = WS_BORDER) as Hborder.
  { intros Hall. rewrite Hall in Hcases.
    destruct (recomputed_style_bit (impl w) old_style GDK_DECOR_BORDER WS_BORDER Htop)
      as (d & Hd & ->); [apply list_elem_of_here|].
    rewrite Heff in Hd. injection Hd as <-.
    by destruct Hcases as [-> | ->]. }
  assert (decorate_all (impl w) = false ->
          Z.land (recomputed_style (impl w) old_style) decoration_bits = 0) as Hnone.
  { intros Hall. rewrite Hall in Hcases. subst decorations.
    unfold decoration_bits. rewrite !Z.land_lor_distr_r.
    assert (forall flag bit, (flag, bit) ∈ decoration_style_bits ->
              Z.land (recomputed_style (impl w) old_style) bit = 0) as Hbit.
    { intros flag bit Hin.
      destruct (recomputed_style_bit (impl w) old_style flag bit Htop Hin)
        as (d & Hd & ->).
      rewrite Heff in Hd. injection Hd as <-. done. }
    rewrite (Hbit GDK_DECOR_BORDER WS_BORDER),
      (Hbit GDK_DECOR_RESIZEH WS_THICKFRAME), (Hbit GDK_DECOR_TITLE WS_CAPTION),
      (Hbit GDK_DECOR_MENU WS_SYSMENU), (Hbit GDK_DECOR_MINIMIZE WS_MINIMIZEBOX),
      (Hbit GDK_DECOR_MAXIMIZE WS_MAXIMIZEBOX); [done|..];
      unfold decoration_style_bits;
      repeat first [apply list_elem_of_here | apply list_elem_of_further]. }
  assert (decorate_all (impl w) = true ->
          Z.land (recomputed_style (impl w) old_style) decoration_bits <> 0) as Hsome.
  { intros Hall Hzero. specialize (Hborder Hall).
    rewrite <- (land_within_sub _ decoration_bits) in Hborder by reflexivity.
    rewrite Hzero in Hborder. discriminate Hborder. }
  split.
  - unfold _gdk_win32_surface_lacks_wm_decorations. gdk_unfold.
    rewrite Hlive. destruct (decorate_all (impl w)) eqn:Hall; simpl; [|done].
    destruct (Z.eqb_spec hwnd 0) as [|_]; [done|].
    rewrite Hstyle.
    destruct (Z.eqb_spec (recomputed_style (impl w) old_style) 0) as [Hz|_].
    + specialize (Hborder eq_refl). rewrite Hz in Hborder. discriminate Hborder.
    + unfold truth. specialize (Hsome eq_refl).
      apply Z.eqb_neq in Hsome. by rewrite Hsome.
  - split.
    + intros Hzero. destruct (decorate_all (impl w)) eqn:Hall; [|done].
      by destruct (Hsome eq_refl).
    + exact Hnone.
Qed.

(** X16.  What [_gdk_win32_surface_update_style_bits] calls: nothing but
    [SetWindowLong], [SetLayeredWindowAttributes] and [SetWindowPos], and
    it leaves the surface as it was.  An extended style it writes never has
    [WS_EX_TOPMOST]; it makes a window layered only if the surface is a drag
    surface that was not layered; the window is put above the others only
    if the surface is a drag surface not topmost before, and is never taken
    out of the topmost windows.  Unless it calls nothing, its last call is
    [SetWindowPos]. *)
Theorem style_bits_calls (w : World) :
  let w' := snd (_gdk_win32_surface_update_style_bits w) in
  let old_exstyle := GetWindowLong (calls w) GWL_EXSTYLE in
  let is_drag := GDK_IS_DRAG_SURFACE (surface_type (impl w)) in
  impl w' = impl w
  /\ exists extra,
       calls w' = calls w ++ extra
       /\ Forall
            (fun c =>
               match c with
               | SetWindowLong GWL_STYLE v =>
                 v = recomputed_style (impl w) (GetWindowLong (calls w) GWL_STYLE)
               | SetWindowLong GWL_EXSTYLE v => Z.land v WS_EX_TOPMOST = 0
               | SetLayeredWindowAttributes _ _ _ =>
                 is_drag = true /\ truth (Z.land old_exstyle WS_EX_LAYERED) = false
               | SetWindowPos insert_after _ _ _ _ _ =>
                 insert_after <> HWND_NOTOPMOST
                 /\ (insert_after = HWND_TOPMOST ->
                     is_drag = true
                     /\ truth (Z.land old_exstyle WS_EX_TOPMOST) = false)
               | _ => False
               end) extra
       /\ (extra = []
           \/ exists rest insert_after X Y cx cy uFlags,
                extra = rest ++ [SetWindowPos insert_after X Y cx cy uFlags]).
Proof.
  intros w' old_exstyle is_drag. subst w' old_exstyle is_drag.
  pose proof (recomputed_exstyle_not_topmost (impl w)
                (GetWindowLong (calls w) GWL_EXSTYLE)) as Htop.
  unfold _gdk_win32_surface_update_style_bits. gdk_unfold.
  destruct (fullscreen (impl w)); simpl.
  { split; [done|]. exists []. rewrite app_nil_r. split; [done|]. split; [done|by left]. }
  set (style := GetWindowLong (calls w) GWL_STYLE) in *.
  set (exstyle := GetWindowLong (calls w) GWL_EXSTYLE) in *.
  destruct (style =? recomputed_style (impl w) style);
    destruct (Z.land exstyle (Z.lnot WS_EX_TOPMOST) =? recomputed_exstyle (impl w) exstyle);
    destruct (GDK_IS_DRAG_SURFACE (surface_type (impl w)));
    destruct (truth (Z.land exstyle WS_EX_LAYERED));
    destruct (truth (Z.land exstyle WS_EX_TOPMOST));
    simpl; (split; [done|]); rewrite <- ?app_assoc; simpl;
    eexists; (split; [reflexivity || (symmetry; apply app_nil_r)|]);
    (split; [repeat constructor; done|]);
    first
      [ by left
      | right; by eexists [], _, _, _, _, _, _
      | right; by eexists [_], _, _, _, _, _, _
      | right; by eexists [_; _], _, _, _, _, _, _
      | right; by eexists [_; _; _], _, _, _, _, _, _ ].
Qed.

(** *** The shadow and the snaps *)



End WithWin32.

(** *** Runs on the concrete window system *)
Section Runs.
Import Instances.

Local Abbreviation W := (World (double_arith := rational_double)).

Lemma move_resize_clamps_size_witness :
  gdk_win32_surface_move_resize_internal (win32 := placed_win32) true 10 20 (-1) 300
    (world_of (toplevel GDK_WIN32_AEROSNAP_STATE_UNDETERMINED 0))
  = gdk_win32_surface_move_resize_internal (win32 := placed_win32) true 10 20
      (Z.max 1 (-1)) (Z.max 1 300)
      (world_of (toplevel GDK_WIN32_AEROSNAP_STATE_UNDETERMINED 0)).
Proof.
  apply (move_resize_clamps_size (win32 := placed_win32) true 10 20 (-1) 300).
  right. right. lia.
Defined.

(** A move to a negative width of a window of 800 by 600: the window
    becomes one pixel wide. *)
Example move_resize_negative_width_run :
  calls (snd (gdk_win32_surface_move_resize (win32 := placed_win32) 10 20 (-1) 300
                (world_of (toplevel GDK_WIN32_AEROSNAP_STATE_UNDETERMINED 0))))
  = [SetWindowPos SWP_NOZORDER_SPECIFIED 10 20 1 300
       (Z.lor SWP_NOACTIVATE SWP_NOZORDER);
     gdk_surface_request_layout].
Proof. vm_compute. reflexivity. Qed.

Lemma destroyed_surface_left_alone_witness :
  gdk_win32_surface_minimize (win32 := placed_win32)
    (world_of (a_surface GDK_WIN32_TOPLEVEL true GDK_WIN32_AEROSNAP_STATE_UNDETERMINED 0))
  = (tt, world_of (a_surface GDK_WIN32_TOPLEVEL true
                     GDK_WIN32_AEROSNAP_STATE_UNDETERMINED 0)).
Proof.
  apply (proj1 (destroyed_surface_left_alone (win32 := placed_win32)
                  (world_of (a_surface GDK_WIN32_TOPLEVEL true
                               GDK_WIN32_AEROSNAP_STATE_UNDETERMINED 0)))).
  reflexivity.
Defined.

Lemma snap_stashes_paired_witness :
  stash_paired
    (impl (snd (_gdk_win32_surface_handle_aerosnap (win32 := placed_win32)
                  GDK_WIN32_AEROSNAP_COMBO_LEFT
                  (world_of (toplevel GDK_WIN32_AEROSNAP_STATE_UNDETERMINED 0))))).
Proof.
  apply (proj1 (proj2 (snap_stashes_paired (win32 := placed_win32)
                         (world_of (toplevel GDK_WIN32_AEROSNAP_STATE_UNDETERMINED 0))
                         (conj (fun _ => eq_refl) (fun _ => eq_refl))))).
Defined.

(** LEFT three times on a window without a snap: left half, right half,
    no snap; the stashes are present in between and gone at the end. *)
Example aerosnap_left_three_times_run :
  let left := _gdk_win32_surface_handle_aerosnap (win32 := placed_win32)
                GDK_WIN32_AEROSNAP_COMBO_LEFT in
  let w0 : W := world_of (toplevel GDK_WIN32_AEROSNAP_STATE_UNDETERMINED 0) in
  let w1 := snd (left w0) in
  let w2 := snd (left w1) in
  let w3 := snd (left w2) in
  snap_state (impl w1) = GDK_WIN32_AEROSNAP_STATE_HALFLEFT
  /\ snap_state (impl w2) = GDK_WIN32_AEROSNAP_STATE_HALFRIGHT
  /\ snap_state (impl w3) = GDK_WIN32_AEROSNAP_STATE_UNDETERMINED
  /\ snap_stash_int (impl w1) <> None
  /\ snap_stash_int (impl w3) = None.
Proof. vm_compute. repeat split; discriminate. Qed.

Lemma aerosnap_idle_combinations_witness :
  _gdk_win32_surface_handle_aerosnap (win32 := placed_win32)
    GDK_WIN32_AEROSNAP_COMBO_UP
    (world_of (toplevel GDK_WIN32_AEROSNAP_STATE_UNDETERMINED
                 GDK_TOPLEVEL_STATE_MAXIMIZED))
  = (tt, world_of (toplevel GDK_WIN32_AEROSNAP_STATE_UNDETERMINED
                     GDK_TOPLEVEL_STATE_MAXIMIZED)).
Proof.
  apply (proj1 (proj2 (aerosnap_idle_combinations (win32 := placed_win32)
                         (world_of (toplevel GDK_WIN32_AEROSNAP_STATE_UNDETERMINED
                                      GDK_TOPLEVEL_STATE_MAXIMIZED))))).
  reflexivity.
Defined.

Lemma apply_snap_effects_witness :
  let w' :=
    snd (apply_snap (win32 := placed_win32) GDK_WIN32_AEROSNAP_STATE_MAXIMIZE
           (world_of (toplevel GDK_WIN32_AEROSNAP_STATE_HALFLEFT 0))) in
  inhibit_configure (impl w') = true
  /\ force_recompute_size (impl w') = false
  /\ snap_state (impl w') = GDK_WIN32_AEROSNAP_STATE_UNDETERMINED.
Proof.
  apply (proj2 (apply_snap_effects (win32 := placed_win32)
                  GDK_WIN32_AEROSNAP_STATE_MAXIMIZE
                  (world_of (toplevel GDK_WIN32_AEROSNAP_STATE_HALFLEFT 0)))).
  discriminate.
Defined.

(** Three queries of the scale of a surface of a DPI-unaware process
    with a fixed scale: one message. *)
Example hidpi_message_run :
  calls (fold_left
           (fun (w : W) d =>
              snd (_gdk_win32_surface_get_scale_factor (win32 := placed_win32) d w))
           [display_of PROCESS_DPI_UNAWARE true; display_of PROCESS_DPI_UNAWARE true;
            display_of PROCESS_DPI_UNAWARE true]
           (world_of (toplevel GDK_WIN32_AEROSNAP_STATE_UNDETERMINED 0)))
  = [g_message "Note: GDK_SCALE is ignored as HiDPI awareness is disabled."].
Proof. vm_compute. reflexivity. Qed.

Lemma maximize_unmaximize_round_trip_witness :
  let w : W := world_of (toplevel GDK_WIN32_AEROSNAP_STATE_UNDETERMINED 0) in
  let w' :=
    snd (gdk_win32_surface_unmaximize (win32 := placed_win32)
           (snd (gdk_win32_surface_maximize (win32 := placed_win32) w))) in
  inhibit_configure (impl w') = false /\ force_recompute_size (impl w') = true.
Proof.
  intros w w'.
  destruct (maximize_unmaximize_round_trip (win32 := placed_win32) w eq_refl)
    as (Hi & Hf & _).
  split; [exact Hi|exact Hf].
Defined.

Lemma lacks_wm_decorations_in_sync_witness :
  _gdk_win32_surface_lacks_wm_decorations (win32 := styled_win32 0x00CC0000) 1
    (world_of (toplevel GDK_WIN32_AEROSNAP_STATE_UNDETERMINED 0))
  = (false, world_of (toplevel GDK_WIN32_AEROSNAP_STATE_UNDETERMINED 0)).
Proof.
  apply (proj1 (lacks_wm_decorations_in_sync (win32 := styled_win32 0x00CC0000)
                  1 0x00CF0000
                  (world_of (toplevel GDK_WIN32_AEROSNAP_STATE_UNDETERMINED 0))
                  eq_refl eq_refl ltac:(discriminate) eq_refl)).
Defined.

(** A drag surface that is neither layered nor topmost is made both. *)
Example style_bits_drag_surface_run :
  calls (snd (_gdk_win32_surface_update_style_bits (win32 := placed_win32)
                (world_of (a_surface GDK_WIN32_DRAG_SURFACE false
                             GDK_WIN32_AEROSNAP_STATE_UNDETERMINED 0))))
  = [SetWindowLong GWL_EXSTYLE
       (Z.lor (Z.lor (Z.lor 0x00000100 WS_EX_TOOLWINDOW) WS_EX_LAYERED)
              WS_EX_TRANSPARENT);
     SetLayeredWindowAttributes 0 255 LWA_ALPHA;
     SetWindowPos HWND_TOPMOST 100 100 800 600
       (Z.lor (Z.lor SWP_FRAMECHANGED SWP_NOACTIVATE) SWP_NOREPOSITION)].
Proof. vm_compute. reflexivity. Qed.


(** With a shadow of 10 pixels on every side the left snap on the first
    monitor puts the window at (-10, -10) with 980 by 1060 pixels. *)
Example shadow_width_then_snap_run :
  let w1 :=
    snd (gdk_win32_surface_set_shadow_width 10 10 10 10
           (world_of (toplevel GDK_WIN32_AEROSNAP_STATE_UNDETERMINED 0))) in
  calls (snd (snap_left (win32 := placed_win32) 1 (Some 1%positive) w1))
  = [SetWindowPos SWP_NOZORDER_SPECIFIED (-10) (-10) 980 1060
       (Z.lor SWP_NOACTIVATE SWP_NOZORDER);
     gdk_surface_request_layout].
Proof. vm_compute. reflexivity. Qed.

End Runs.
End Win32ExtSpec.

(** ** More of the key filter of the input-method context *)
Module ImeExtSpec.
Import GdkKeysyms Ime ImeSpec.

Lemma dead_key_unichar_cases (keyval : Z) (spacing : bool) :
  _gtk_im_context_ime_dead_key_unichar keyval spacing <> 0 ->
  IS_DEAD_KEY keyval = true
  /\ 0x0300 <= _gtk_im_context_ime_dead_key_unichar keyval false <= 0x0345.
Proof.
  unfold _gtk_im_context_ime_dead_key_unichar, IS_DEAD_KEY.
  repeat match goal with
  | |- context [keyval =? ?k] => destruct (Z.eqb_spec keyval k) as [->|_]
  end; intros Hne; try done; destruct spacing; done.
Qed.

(** X18.  The table of dead keys: a key symbol has a combining character
    only if [IS_DEAD_KEY] accepts it, the combining characters all lie
    between U+0300 and U+0345, and a key symbol that has a spacing form
    also has a combining character.  Four symbols that [IS_DEAD_KEY]
    accepts have no entry in the table. *)
Theorem dead_key_table_within_range (keyval : Z) :
  let combining := _gtk_im_context_ime_dead_key_unichar keyval false in
  let spacing := _gtk_im_context_ime_dead_key_unichar keyval true in
  (combining <> 0 -> IS_DEAD_KEY keyval = true /\ 0x0300 <= combining <= 0x0345)
  /\ (spacing <> 0 -> combining <> 0)
  /\ (IS_DEAD_KEY keyval = true ->
      (combining = 0 <-> keyval ∈ [0xfe5e; 0xfe5f; 0xfe63; 0xfe66])).
Proof.
  intros combining spacing. subst combining spacing.
  split; [apply dead_key_unichar_cases|split].
  - intros Hs. destruct (dead_key_unichar_cases keyval true Hs) as [_ Hr]. lia.
  - unfold IS_DEAD_KEY. intros Hd. apply andb_true_iff in Hd as [Hlo Hhi].
    apply Z.leb_le in Hlo, Hhi.
    unfold GDK_KEY_dead_grave, GDK_KEY_dead_dasia in *.
    assert (keyval ∈ seqZ 0xfe50 23) as Hin by (apply elem_of_seqZ; lia).
    vm_compute seqZ in Hin.
    repeat (apply elem_of_cons in Hin as [->|Hin]);
      try (by apply elem_of_nil in Hin);
      (split; intros H0;
       [ first [ discriminate H0
               | repeat first [apply list_elem_of_here | apply list_elem_of_further] ]
       | first [ reflexivity
               | repeat (apply elem_of_cons in H0 as [H0|H0]; [discriminate H0|]);
                 by apply elem_of_nil in H0 ] ]).
Qed.

Section WithGLib.
Context `{GLibUnicode}.

Lemma filter_keypress_shape (context : GtkIMContextIME) (event : option GdkEvent) :
  let '(retval, context', sigs) := gtk_im_context_ime_filter_keypress context event in
  client_surface context' = client_surface context
  /\ focus context' = focus context
  /\ (retval = true /\ (exists s, sigs = [Commit s]) /\ dead_key_keyval context' = 0
      \/ retval = false /\ (exists s, sigs = [Commit s; Commit s])
         /\ dead_key_keyval context' = 0
      \/ retval = false /\ sigs = []
         /\ (context' = context
             \/ exists e, event = Some e /\ IS_DEAD_KEY (keyval e) = true
                          /\ dead_key_keyval context' = keyval e)).
Proof.
  assert (forall c : GtkIMContextIME,
            client_surface c = client_surface c
            /\ focus c = focus c
            /\ (false = true /\ (exists s, @nil signal = [Commit s])
                /\ dead_key_keyval c = 0
                \/ false = false /\ (exists s, @nil signal = [Commit s; Commit s])
                   /\ dead_key_keyval c = 0
                \/ false = false /\ @nil signal = []
                   /\ (c = c
                       \/ exists e, event = Some e /\ IS_DEAD_KEY (keyval e) = true
                                    /\ dead_key_keyval c = keyval e))) as Hnothing.
  { intros c. split; [done|split; [done|]]. right. right.
    split; [done|split; [done|by left]]. }
  unfold gtk_im_context_ime_filter_keypress, _gtk_im_context_ime_commit_unichar.
  destruct event as [event|]; [|apply Hnothing].
  destruct (event_type event); [|apply Hnothing].
  cbv zeta.
  destruct (negb (_ =? 0)); [apply Hnothing|].
  destruct (negb (focus context)); [apply Hnothing|].
  destruct (client_surface context) eqn:Hclient; [|rewrite <- Hclient; apply Hnothing].
  rewrite <- Hclient. clear Hnothing.
  destruct ((keyval event =? GDK_KEY_space) && _).
  { simpl. split; [done|split; [done|]]. left. eauto. }
  destruct (negb (gdk_keyval_to_unicode (keyval event) =? 0) && _).
  { simpl. split; [done|split; [done|]]. left. eauto. }
  destruct (IS_DEAD_KEY (keyval event)) eqn:Hdead.
  - destruct (negb _ && _).
    + simpl. split; [done|split; [done|]]. right. left. eauto.
    + simpl. split; [done|split; [done|]]. right. right.
      split; [done|split; [done|]]. right. eauto.
  - split; [done|split; [done|]]. right. right.
    split; [done|split; [done|by left]].
Qed.

(** X19.  The shape of every result of
    [gtk_im_context_ime_filter_keypress], whatever the context and the
    event: it returns TRUE exactly when it emits one commit; when it
    returns FALSE it emits nothing, or the same commit twice; after any
    commit no dead key is pending.  It never changes the client surface or
    the focus, and it keeps the pending dead key either 0 or a key symbol
    that [IS_DEAD_KEY] accepts. *)
Theorem filter_keypress_result_shape (context : GtkIMContextIME)
    (event : option GdkEvent) :
  let retval := fst (fst (gtk_im_context_ime_filter_keypress context event)) in
  let context' := snd (fst (gtk_im_context_ime_filter_keypress context event)) in
  let sigs := snd (gtk_im_context_ime_filter_keypress context event) in
  client_surface context' = client_surface context
  /\ focus context' = focus context
  /\ (retval = true <-> exists s, sigs = [Commit s])
  /\ (retval = false -> sigs = [] \/ exists s, sigs = [Commit s; Commit s])
  /\ (sigs <> [] -> dead_key_keyval context' = 0)
  /\ (dead_key_keyval context = 0 \/ IS_DEAD_KEY (dead_key_keyval context) = true ->
      dead_key_keyval context' = 0 \/ IS_DEAD_KEY (dead_key_keyval context') = true).
Proof.
  pose proof (filter_keypress_shape context event) as Hshape.
  destruct (gtk_im_context_ime_filter_keypress context event)
    as [[retval context'] sigs].
  simpl. destruct Hshape as (Hclient & Hfocus & Hcases).
  split; [done|split; [done|]].
  destruct Hcases as [(-> & [s ->] & Hdk)|[(-> & [s ->] & Hdk)|(-> & -> & Hctx)]].
  - split; [split; eauto|]. split; [done|]. split; [done|]. by left.
  - split; [split; [done|by intros [s' ?]]|]. split; [eauto|]. split; [done|]. by left.
  - split; [split; [done|by intros [s' ?]]|]. split; [eauto|]. split; [done|].
    intros Hinv. destruct Hctx as [->|(e & _ & Hdead & ->)]; [done|by right].
Qed.

(** X20.  Pressing the pending dead key again, when it has a combining
    character and no printable character of its own, commits its spacing
    form twice, uncomposed, and leaves no dead key pending; the filter
    then returns FALSE although it has committed. *)
Theorem dead_key_double_press (context : GtkIMContextIME) (event : GdkEvent) :
  event_type event = GDK_KEY_PRESS ->
  unconsumed_no_text_input event = 0 ->
  focus context = true ->
  client_surface context <> None ->
  keyval event = dead_key_keyval context ->
  _gtk_im_context_ime_dead_key_unichar (keyval event) false <> 0 ->
  (gdk_keyval_to_unicode (keyval event) = 0
   \/ g_unichar_iscntrl (gdk_keyval_to_unicode (keyval event)) = true) ->
  let c := _gtk_im_context_ime_dead_key_unichar (keyval event) true in
  gtk_im_context_ime_filter_keypress context (Some event)
  = (false, set_dead_key_keyval 0 context,
     [Commit (commit_string c); Commit (commit_string c)]).
Proof.
  intros Hty Hmod Hfocus Hclient Hkey Htable Huni c. subst c.
  destruct (dead_key_unichar_cases _ _ Htable) as [Hdead _].
  rewrite filter_keypress_past_gates by done. cbv zeta.
  assert ((keyval event =? GDK_KEY_space) = false) as ->.
  { apply Z.eqb_neq. intros Heq. rewrite Heq in Hdead. discriminate Hdead. }
  rewrite andb_false_l.
  assert (negb (gdk_keyval_to_unicode (keyval event) =? 0)
          && negb (g_unichar_iscntrl (gdk_keyval_to_unicode (keyval event)))
          = false) as ->.
  { destruct Huni as [-> | ->]; [done | by rewrite andb_false_r]. }
  rewrite Hdead. apply Z.eqb_neq in Htable. rewrite Htable.
  rewrite <- Hkey, Z.eqb_refl. reflexivity.
Qed.

(** X21.  A dead key and then a key, on a context that passes the gates
    and has no dead key pending.  The dead key only becomes pending.  A
    following space commits the spacing form of the dead key; a following
    printable key other than space commits its character composed with the
    combining character of the dead key.  Either way the context is then
    what it was before the dead key. *)
Theorem dead_key_then_key (context : GtkIMContextIME) (dead next : GdkEvent) :
  focus context = true ->
  client_surface context <> None ->
  dead_key_keyval context = 0 ->
  event_type dead = GDK_KEY_PRESS -> unconsumed_no_text_input dead = 0 ->
  event_type next = GDK_KEY_PRESS -> unconsumed_no_text_input next = 0 ->
  _gtk_im_context_ime_dead_key_unichar (keyval dead) false <> 0 ->
  gdk_keyval_to_unicode (keyval dead) = 0 ->
  let first := gtk_im_context_ime_filter_keypress context (Some dead) in
  let second := gtk_im_context_ime_filter_keypress (snd (fst first)) (Some next) in
  first = (false, set_dead_key_keyval (keyval dead) context, [])
  /\ (keyval next = GDK_KEY_space ->
      second
      = (true, context,
         [Commit (commit_string
                    (_gtk_im_context_ime_dead_key_unichar (keyval dead) true))]))
  /\ (keyval next <> GDK_KEY_space ->
      gdk_keyval_to_unicode (keyval next) <> 0 ->
      g_unichar_iscntrl (gdk_keyval_to_unicode (keyval next)) = false ->
      second
      = (true, context,
         [Commit (commit_string
                    (g_unichar_compose (gdk_keyval_to_unicode (keyval next))
                       (_gtk_im_context_ime_dead_key_unichar (keyval dead) false)))])).
Proof.
  intros Hfocus Hclient Hdk Hty1 Hmod1 Hty2 Hmod2 Htable Huni first second.
  destruct (dead_key_unichar_cases _ _ Htable) as [Hdead _].
  assert (keyval dead <> 0) as Hnz.
  { intros Heq. rewrite Heq in Hdead. discriminate Hdead. }
  assert (first = (false, set_dead_key_keyval (keyval dead) context, [])) as Hfirst.
  { subst first. rewrite filter_keypress_past_gates by done. cbv zeta.
    rewrite Hdk, Huni, Hdead. simpl. rewrite andb_false_r.
    apply Z.eqb_neq in Hnz. rewrite Hnz, andb_false_r. reflexivity. }
  assert (set_dead_key_keyval 0 (set_dead_key_keyval (keyval dead) context) = context)
    as Hback.
  { destruct context. simpl in *. by subst. }
  split; [exact Hfirst|]. subst second. rewrite Hfirst. cbn [fst snd].
  set (pending := set_dead_key_keyval (keyval dead) context).
  assert (dead_key_keyval pending = keyval dead) as Hpending by done.
  assert (focus pending = true) as Hfocus' by done.
  assert (client_surface pending <> None) as Hclient' by done.
  split.
  - intros Hspace.
    rewrite filter_keypress_past_gates by done. cbv zeta.
    rewrite Hspace, Z.eqb_refl, Hpending. apply Z.eqb_neq in Hnz. rewrite Hnz.
    cbn [negb andb]. subst pending. by rewrite Hback.
  - intros Hspace Hc Hcntrl.
    rewrite filter_keypress_past_gates by done. cbv zeta.
    apply Z.eqb_neq in Hspace. rewrite Hspace, andb_false_l.
    apply Z.eqb_neq in Hc. rewrite Hc, Hcntrl. cbn [negb andb].
    rewrite commit_unichar_dead_key by (by rewrite Hpending).
    rewrite Hpending. subst pending. by rewrite Hback.
Qed.

End WithGLib.

(** *** Runs with the concrete library functions *)
Section Runs.
#[local] Existing Instance glib_unicode_instance.

Lemma dead_key_table_within_range_witness :
  IS_DEAD_KEY GDK_KEY_dead_cedilla = true
  /\ 0x0300 <= _gtk_im_context_ime_dead_key_unichar GDK_KEY_dead_cedilla false <= 0x0345.
Proof.
  apply (proj1 (dead_key_table_within_range GDK_KEY_dead_cedilla)).
  discriminate.
Defined.

Lemma filter_keypress_result_shape_witness :
  dead_key_keyval
    (snd (fst (gtk_im_context_ime_filter_keypress (focused GDK_KEY_dead_acute)
                 (Some (press 0x65))))) = 0.
Proof.
  apply (proj1 (proj2 (proj2 (proj2 (proj2
    (filter_keypress_result_shape (focused GDK_KEY_dead_acute) (Some (press 0x65)))))))).
  discriminate.
Defined.

Lemma dead_key_double_press_witness :
  gtk_im_context_ime_filter_keypress (focused GDK_KEY_dead_acute)
    (Some (press GDK_KEY_dead_acute))
  = (false, set_dead_key_keyval 0 (focused GDK_KEY_dead_acute),
     [Commit (commit_string 0x00b4); Commit (commit_string 0x00b4)]).
Proof.
  apply (dead_key_double_press (focused GDK_KEY_dead_acute) (press GDK_KEY_dead_acute));
    try reflexivity; try discriminate.
  left. reflexivity.
Defined.

(** The acute accent twice: two commits of U+00B4 in UTF-8. *)
Example dead_key_double_press_run :
  gtk_im_context_ime_filter_keypress (focused GDK_KEY_dead_acute)
    (Some (press GDK_KEY_dead_acute))
  = (false, focused 0, [Commit [0xc2; 0xb4]; Commit [0xc2; 0xb4]]).
Proof. vm_compute. reflexivity. Qed.

(** A dead key without an entry in the table is not doubled: it stays
    pending. *)
Example dead_key_without_entry_run :
  gtk_im_context_ime_filter_keypress (focused 0xfe5e) (Some (press 0xfe5e))
  = (false, focused 0xfe5e, []).
Proof. vm_compute. reflexivity. Qed.

Lemma dead_key_then_key_witness :
  gtk_im_context_ime_filter_keypress
    (snd (fst (gtk_im_context_ime_filter_keypress (focused 0)
                 (Some (press GDK_KEY_dead_acute)))))
    (Some (press 0x65))
  = (true, focused 0,
     [Commit (commit_string
                (g_unichar_compose (gdk_keyval_to_unicode (keyval (press 0x65)))
                   (_gtk_im_context_ime_dead_key_unichar
                      (keyval (press GDK_KEY_dead_acute)) false)))]).
Proof.
  apply (proj2 (proj2 (dead_key_then_key (focused 0) (press GDK_KEY_dead_acute)
                         (press 0x65) eq_refl ltac:(discriminate) eq_refl
                         eq_refl eq_refl eq_refl eq_refl ltac:(discriminate) eq_refl)));
    [discriminate|discriminate|reflexivity].
Defined.

(** Acute accent, then e: one commit of U+00E9 in UTF-8. *)
Example dead_key_then_key_run :
  gtk_im_context_ime_filter_keypress
    (snd (fst (gtk_im_context_ime_filter_keypress (focused 0)
                 (Some (press GDK_KEY_dead_acute)))))
    (Some (press 0x65))
  = (true, focused 0, [Commit [0xc3; 0xa9]]).
Proof. vm_compute. reflexivity. Qed.

End Runs.

End ImeExtSpec.

(** ** More of the stack of modal windows *)
Module ModalExtSpec.
Import ModalStack.

Lemma delete_first_absent (l : list positive) (window : positive) :
  window ∉ l -> delete_first l window = l.
Proof.
  induction l as [|data next IH]; simpl; [done|].
  intros Hnotin. apply not_elem_of_cons in Hnotin as [Hne Hnotin].
  destruct (Pos.eqb_spec data window) as [Heq|_]; [by subst|].
  by rewrite IH.
Qed.

Lemma delete_first_present (l : list positive) (window : positive) :
  window ∈ l ->
  exists newer older,
    l = newer ++ window :: older /\ (window ∉ newer)
    /\ delete_first l window = newer ++ older.
Proof.
  induction l as [|data next IH]; simpl; intros Hin.
  - by apply elem_of_nil in Hin.
  - destruct (Pos.eqb_spec data window) as [->|Hne].
    + exists [], next. split; [done|]. split; [apply not_elem_of_nil|done].
    + apply elem_of_cons in Hin as [->|Hin]; [done|].
      destruct (IH Hin) as (newer & older & -> & Hnotin & ->).
      exists (data :: newer), older. split; [done|]. split; [|done].
      apply not_elem_of_cons. split; [congruence|done].
Qed.

Lemma remove_is_delete_first (l : list positive) (window : positive) :
  _gdk_remove_modal_window l window = delete_first l window.
Proof. by destruct l. Qed.

Section WithSurfaces.
Variable GDK_SURFACE_IS_MAPPED : positive -> bool.

Local Abbreviation current := (_gdk_modal_current GDK_SURFACE_IS_MAPPED).
Local Abbreviation blocked := (_gdk_modal_blocked GDK_SURFACE_IS_MAPPED).

Lemma current_app (newer older : list positive) :
  current (newer ++ older)
  = match current newer with Some m => Some m | None => current older end.
Proof.
  induction newer as [|m newer IH]; simpl; [done|].
  by destruct (GDK_SURFACE_IS_MAPPED m).
Qed.

(** X22.  Pushing a window on the modal stack and removing it again gives
    the stack back.  [_gdk_remove_modal_window] removes the newest entry of
    the window only and keeps the others in their order; it changes nothing
    when the window is not on the stack, the empty stack included.
    Removing a window that is not the current modal window leaves the
    current modal window what it was. *)
Theorem modal_push_remove (modal_window_stack : list positive) (window : positive) :
  _gdk_remove_modal_window (_gdk_push_modal_window modal_window_stack window) window
  = modal_window_stack
  /\ (window ∉ modal_window_stack ->
      _gdk_remove_modal_window modal_window_stack window = modal_window_stack)
  /\ (window ∈ modal_window_stack ->
      exists newer older,
        modal_window_stack = newer ++ window :: older
        /\ (window ∉ newer)
        /\ _gdk_remove_modal_window modal_window_stack window = newer ++ older)
  /\ (forall modal,
        current modal_window_stack = Some modal -> modal <> window ->
        current (_gdk_remove_modal_window modal_window_stack window) = Some modal).
Proof.
  split; [|split; [|split]].
  - unfold _gdk_push_modal_window. simpl. by rewrite Pos.eqb_refl.
  - rewrite remove_is_delete_first. apply delete_first_absent.
  - rewrite remove_is_delete_first. apply delete_first_present.
  - intros modal Hcurrent Hne. rewrite remove_is_delete_first.
    destruct (decide (window ∈ modal_window_stack)) as [Hin|Hnotin].
    + destruct (delete_first_present _ _ Hin) as (newer & older & Hl & _ & ->).
      rewrite Hl, current_app in Hcurrent. rewrite current_app.
      destruct (current newer); [done|].
      simpl in Hcurrent. destruct (GDK_SURFACE_IS_MAPPED window); [|done].
      congruence.
    + by rewrite delete_first_absent.
Qed.

End WithSurfaces.

Lemma modal_push_remove_witness :
  _gdk_modal_current (fun w => Pos.eqb w 2 || Pos.eqb w 3)
    (_gdk_remove_modal_window [1; 2; 3]%positive 3%positive)
  = Some 2%positive.
Proof.
  apply (proj2 (proj2 (proj2
    (modal_push_remove (fun w => Pos.eqb w 2 || Pos.eqb w 3)
       [1; 2; 3]%positive 3%positive)))).
  - reflexivity.
  - discriminate.
Defined.

End ModalExtSpec.

(** ** More of the search entry *)
Module SearchEntryExtSpec.
Import GdkKeysyms GdkKeysymsNav SearchEntry SearchEntryExt SearchEntrySpec.

(** The statements are about a search entry whose signals have no
    handlers that touch the entry or the main context. *)
#[local] Existing Instance no_handlers.

Lemma nonempty_change_pending (w0 w : World) (new_text : string) :
  invariant w0 w -> new_text <> EmptyString ->
  let w' := text_widget_changed new_text w in
  emitted w' = emitted w
  /\ pending_search_changed w' (delayed_changed_id (obj w')).
Proof.
  intros [Hentry Htext Hthis Hnext Hids Hdelayed Hpending] Hne w'.
  destruct (changed_nonempty w _ new_text Hentry Hne)
    as (Hs & Hn & Hd & He & _ & Ht & _).
  fold w' in Hs, Hn, Hd, He, Ht.
  split; [done|]. rewrite Hd. exists (delayed_source w). rewrite Hs, Ht.
  split; [apply lookup_insert_eq|done].
Qed.

Lemma type_texts_reachable (w0 : World) (new_texts : list string) :
  forall w, reachable w0 w -> reachable w0 (type_texts new_texts w).
Proof.
  induction new_texts as [|t rest IH]; intros w Hreach; [done|].
  apply IH. eapply reachable_step; [exact Hreach|apply step_changed].
Qed.

Lemma type_texts_snoc (new_texts : list string) (t : string) (w : World) :
  type_texts (new_texts ++ [t]) w = text_widget_changed t (type_texts new_texts w).
Proof. unfold type_texts. by rewrite fold_left_app. Qed.

Lemma type_texts_emitted (w0 : World) (new_texts : list string) :
  initial w0 ->
  Forall (fun t => t <> EmptyString) new_texts ->
  forall w, reachable w0 w -> emitted (type_texts new_texts w) = emitted w.
Proof.
  intros Hinit Hall. induction Hall as [|t rest Ht _ IH]; intros w Hreach; [done|].
  simpl. rewrite IH by (eapply reachable_step; [exact Hreach|apply step_changed]).
  apply (nonempty_change_pending w0); [by apply reachable_invariant|done].
Qed.

(** X23.  On a search entry whose signal handlers leave the entry and the
    main context alone (none calls back into the entry during an
    emission): however many times the text changes to a non-empty text
    before the timeout runs, search-changed is emitted once: the changes
    emit nothing and leave one timeout pending, the one whose id the entry
    stores; its dispatch emits search-changed, and then none is pending. *)
Theorem typing_burst_one_search_changed (w0 w : World) (new_texts : list string) :
  initial w0 -> reachable (handlers := no_handlers) w0 w ->
  new_texts <> [] ->
  Forall (fun t => t <> EmptyString) new_texts ->
  let w' := type_texts new_texts w in
  let w'' := dispatch (delayed_changed_id (obj w')) w' in
  emitted w' = emitted w
  /\ (forall id, pending_search_changed w' id <-> id = delayed_changed_id (obj w'))
  /\ emitted w'' = emitted w ++ [SEARCH_CHANGED]
  /\ (forall id, ~ pending_search_changed w'' id).
Proof.
  intros Hinit Hreach Hsome Hall w' w''.
  assert (emitted w' = emitted w) as Hemitted by (by eapply type_texts_emitted).
  assert (reachable w0 w') as Hreach' by (by apply type_texts_reachable).
  pose proof (reachable_invariant _ _ Hinit Hreach') as Hinv'.
  assert (pending_search_changed w' (delayed_changed_id (obj w'))) as Hp.
  { subst w' w''. clear Hreach' Hinv' Hemitted.
    destruct (exists_last Hsome) as (front & t & ->).
    apply Forall_app in Hall as [_ Hlast]. apply Forall_cons_1 in Hlast as [Ht _].
    rewrite type_texts_snoc.
    apply (nonempty_change_pending w0); [|done].
    by apply reachable_invariant, type_texts_reachable. }
  split; [done|]. split.
  { intros id. split; [apply (inv_pending _ _ Hinv')|by intros ->]. }
  destruct (dispatch_pending w' _ Hp) as (Hs & _ & _ & He & _ & Ht & _).
  fold w'' in Hs, He, Ht.
  split; [by rewrite He, Hemitted|].
  intros id (src & Hsrc & Hfunc & Hdata).
  rewrite Hs in Hsrc. apply lookup_delete_Some in Hsrc as (Hne & Hsrc).
  rewrite Ht in Hdata.
  assert (pending_search_changed w' id) as Hp' by (by exists src).
  by apply (inv_pending _ _ Hinv') in Hp'.
Qed.

(** *** The clear icon *)




(** *** The end of a search entry *)

(** The id the entry stores, when it is not 0, is the id of its pending
    timeout. *)
Lemma stored_id_pending (w0 w : World) :
  initial w0 -> reachable w0 w ->
  delayed_changed_id (obj w) > 0 ->
  pending_search_changed w (delayed_changed_id (obj w)).
Proof.
  intros Hinit Hreach.
  induction Hreach as [|w w' Hreach IH Hstep]; [simpl; lia|].
  pose proof (reachable_invariant _ _ Hinit Hreach)
    as [Hentry Htext Hthis Hnext Hids Hdelayed Hpending].
  assert (forall new_text,
    delayed_changed_id (obj (text_widget_changed new_text w)) > 0 ->
    pending_search_changed (text_widget_changed new_text w)
      (delayed_changed_id (obj (text_widget_changed new_text w)))) as Hchanged.
  { intros new_text. destruct (decide (new_text = EmptyString)) as [->|Hne].
    - pose proof (changed_empty w _ Hentry Hdelayed) as Hce. cbv zeta in Hce.
      destruct Hce as (_ & _ & Hd & _). rewrite Hd. lia.
    - intros _. apply (nonempty_change_pending w0); [|done].
      by apply reachable_invariant. }
  destruct Hstep as [new_text w| w | id w Hsome | w | widget w | i f d w | id f src w].
  - apply Hchanged.
  - apply Hchanged.
  - unfold dispatch. destruct (sources w !! id) as [src|] eqn:Hsrc; [|exact IH].
    destruct (func src) eqn:Hfunc; [|exact IH].
    destruct (decide (user_data src = this w)) as [Hdata|Hdata]; [simpl; lia|].
    simpl. intros Hpos. destruct (IH Hpos) as (src' & Hsrc' & Hfunc' & Hdata').
    exists src'. simpl. split; [|done].
    rewrite lookup_delete_ne; [done|]. intros Heq. rewrite <- Heq in Hsrc'. congruence.
  - exact IH.
  - destruct widget; exact IH.
  - simpl. intros Hpos. destruct (IH Hpos) as (src' & Hsrc' & Hfunc' & Hdata').
    exists src'. simpl. split; [|done].
    rewrite lookup_insert_ne; [done|].
    pose proof (Hids _ _ Hsrc'). lia.
  - simpl. intros Hpos. destruct (IH Hpos) as (src' & Hsrc' & Hfunc' & Hdata').
    exists src'. simpl. split; [|done].
    rewrite lookup_delete_ne; [done|]. intros Heq. rewrite <- Heq in Hsrc'. congruence.
Qed.

(** X25.  On a search entry whose signal handlers leave the entry and the
    main context alone (none calls back into the entry during an
    emission): [gtk_search_entry_finalize], in any state the entry has
    reached, leaves no timeout in the main context that would emit
    search-changed on the entry; the sources of the rest of the program
    stay, and nothing is emitted. *)
Theorem finalize_cancels_timeout (w0 w : World) :
  initial w0 -> reachable (handlers := no_handlers) w0 w ->
  let w' := gtk_search_entry_finalize w in
  (forall id, ~ pending_search_changed w' id)
  /\ (forall id src f,
        sources w !! id = Some src -> func src = other_func f ->
        sources w' !! id = Some src)
  /\ emitted w' = emitted w
  /\ entry (obj w') = None /\ icon (obj w') = None /\ capture_widget (obj w') = None.
Proof.
  intros Hinit Hreach w'.
  pose proof (reachable_invariant _ _ Hinit Hreach)
    as [Hentry Htext Hthis Hnext Hids Hdelayed Hpending].
  assert (sources w' = pending_cancelled w /\ this w' = this w
          /\ emitted w' = emitted w /\ entry (obj w') = None
          /\ icon (obj w') = None /\ capture_widget (obj w') = None)
    as (Hs & Ht & He & Hen & Hic & Hcw).
  { subst w'. unfold gtk_search_entry_finalize, pending_cancelled. simpl.
    by destruct (delayed_changed_id (obj w) >? 0). }
  split; [|split; [|done]].
  - intros id Hp. by eapply (pending_after_cancel w w').
  - intros id src f Hsrc Hfunc. rewrite Hs. unfold pending_cancelled.
    destruct (Z.gtb_spec (delayed_changed_id (obj w)) 0) as [Hpos|_]; [|done].
    rewrite lookup_delete_ne; [done|]. intros <-.
    destruct (stored_id_pending _ _ Hinit Hreach) as (src' & Hsrc' & Hfunc' & _); [lia|].
    congruence.
Qed.

(** *** Keys captured from another widget *)



(** A key event that the key filter of the input-method context
    refuses because it carries Control or Alt, not consumed, is a
    navigation key for the search entry, whatever its key symbol: such an
    event is neither taken as text nor forwarded to start a search. *)
Theorem keynav_covers_no_text_input (event : Ime.GdkEvent) :
  Ime.unconsumed_no_text_input event <> 0 ->
  gtk_search_entry_is_keynav (Ime.keyval event) (Ime.modifier_state event) = true.
Proof.
  unfold Ime.unconsumed_no_text_input, gtk_search_entry_is_keynav. intros Hmod.
  assert (Z.land (Ime.modifier_state event) (Z.lor GDK_CONTROL_MASK GDK_ALT_MASK) <> 0)
    as Hmask.
  { intros Hzero. apply Hmod. by rewrite (Z.lor_comm GDK_ALT_MASK), Hzero. }
  apply Z.eqb_neq in Hmask. rewrite Hmask. apply orb_true_r.
Qed.

(** *** Runs on a main context without other sources *)

Lemma empty_world_initial : initial empty_world.
Proof.
  split; [reflexivity|]. intros id src Hsrc. simpl in Hsrc.
  by rewrite lookup_empty in Hsrc.
Qed.

Lemma typing_burst_one_search_changed_witness :
  let w := gtk_search_entry_init empty_world in
  let w' := type_texts ["g"; "gt"]%string w in
  let w'' := dispatch (delayed_changed_id (obj w')) w' in
  emitted w' = emitted w /\ emitted w'' = emitted w ++ [SEARCH_CHANGED].
Proof.
  intros w w' w''.
  destruct (typing_burst_one_search_changed empty_world w ["g"; "gt"]%string
              empty_world_initial (reachable_init _) ltac:(discriminate)
              ltac:(repeat constructor; discriminate))
    as (Hquiet & _ & Hfired & _).
  exact (conj Hquiet Hfired).
Defined.

(** The same burst, computed. *)
Example typing_burst_run :
  let w' := type_texts ["g"; "gt"; "gtk"]%string (gtk_search_entry_init empty_world) in
  emitted w' = []
  /\ delayed_changed_id (obj w') = 3
  /\ emitted (dispatch 3 w') = [SEARCH_CHANGED]
  /\ map_to_list (sources (dispatch 3 w')) = [].
Proof. vm_compute. repeat split. Qed.


Lemma finalize_cancels_timeout_witness :
  let w := text_widget_changed "gtk" (gtk_search_entry_init empty_world) in
  emitted (gtk_search_entry_finalize w) = emitted w
  /\ entry (obj (gtk_search_entry_finalize w)) = None.
Proof.
  intros w.
  assert (reachable empty_world w) as Hreach.
  { apply (reachable_step _ (gtk_search_entry_init empty_world));
      [apply reachable_init | apply step_changed]. }
  destruct (finalize_cancels_timeout empty_world w empty_world_initial Hreach)
    as (_ & _ & Hemitted & Hentry & _).
  exact (conj Hemitted Hentry).
Defined.

(** A pending timeout is gone after the finalizer. *)
Example finalize_run :
  let w := text_widget_changed "gtk" (gtk_search_entry_init empty_world) in
  map_to_list (sources w)
  = [(1, {| interval := 150; func := gtk_search_entry_changed_timeout_cb_func;
            user_data := 1%positive;
            name := Some "[gtk] gtk_search_entry_changed_timeout_cb"%string |})]
  /\ map_to_list (sources (gtk_search_entry_finalize w)) = [].
Proof. vm_compute. repeat split. Qed.

(** With a handler that sets a text while the timeout callback emits, the
    entry stores the id 0 while the timeout 2 is pending, and the
    finalizer leaves that timeout in the main context. *)
Example finalize_after_reentrant_handler_run :
  let w2 :=
    dispatch (handlers := trimming_handlers) 1
      (text_widget_changed (handlers := trimming_handlers) "g "
         (gtk_search_entry_init empty_world)) in
  delayed_changed_id (obj w2) = 0
  /\ (map_to_list (sources w2)).*1 = [2]
  /\ (map_to_list (sources (gtk_search_entry_finalize w2))).*1 = [2].
Proof. vm_compute. repeat split. Qed.


(** The key g captured while the entry is empty starts a search; the key
    t after it does not; the Down key is not forwarded. *)
Example captured_keys_run :
  let w := gtk_search_entry_init empty_world in
  let w1 := snd (capture_widget_key_handled (key_inserts "g") 0x67 0 w) in
  let w2 := snd (capture_widget_key_handled (key_inserts "gt") 0x74 0 w1) in
  emitted w1 = [SEARCH_STARTED]
  /\ emitted w2 = [SEARCH_STARTED]
  /\ capture_widget_key_handled (key_inserts "x") GDK_KEY_Down 0 w2 = (false, w2).
Proof. vm_compute. repeat split. Qed.

Lemma keynav_covers_no_text_input_witness :
  gtk_search_entry_is_keynav 0x67 GDK_CONTROL_MASK = true.
Proof.
  apply (keynav_covers_no_text_input
           {| Ime.event_type := Ime.GDK_KEY_PRESS; Ime.modifier_state := GDK_CONTROL_MASK;
              Ime.consumed_modifiers := 0; Ime.keyval := 0x67 |}).
  discriminate.
Defined.

End SearchEntryExtSpec.

(** ** The input-method context and the Windows input method *)
Module ImeSessionSpec.
Import Ime ImeSession.

Ltac im_unfold :=
  unfold done; unfold mbind, mret, IM_bind, IM_ret, get_ctx, past, update, emit.

Ltac im_cases :=
  repeat match goal with
  | |- context [match ?c with _ => _ end] =>
    lazymatch c with
    | context [match _ with _ => _ end] => fail
    | _ => destruct c eqn:?; simpl
    end
  end.

Section WithImm.
Context {imm : ImmApi}.

Lemma im_bind_eq {A B : Type} (m : IM A) (k : A -> IM B) (w : World) :
  (m ≫= k) w = k (fst (m w)) (snd (m w)).
Proof. unfold mbind, IM_bind. by destruct (m w). Qed.

(** X27.  [get_utf8_preedit_string] never returns NULL and leaves the
    context alone.  The cursor position it stores is never negative and
    never beyond the size of the composition string; whenever no string
    was read (no client surface, no input context, no string, or a failed
    conversion) it returns the empty string and the position 0.  It emits
    no signal: all it does to the outside is to release the input context
    it got and to print warnings. *)
Theorem preedit_string_never_null (kind : Z) (want_pos : bool) (w : World) :
  let r := get_utf8_preedit_string kind want_pos w in
  let size := ImmGetCompositionStringW_size (events w) kind in
  ctx (snd r) = ctx w
  /\ (exists str, fst (fst r) = Some str)
  /\ 0 <= snd (fst r) <= Z.max 0 size
  /\ (client_surface (key (ctx w)) = None \/ ImmGetContext (events w) = false
      \/ size <= 0 \/ g_utf16_to_utf8 (events w) kind = None ->
      fst r = (Some [], 0))
  /\ exists extra,
       events (snd r) = events w ++ extra
       /\ Forall (fun e => e = ImmReleaseContext \/ exists text, e = g_warning text) extra.
Proof.
  unfold get_utf8_preedit_string. im_unfold. simpl.
  destruct (client_surface (key (ctx w))) eqn:Hclient; simpl.
  2:{ split; [done|]. split; [eauto|]. split; [lia|]. split; [done|].
      exists []. by rewrite app_nil_r. }
  destruct (ImmGetContext (events w)) eqn:Hhimc; simpl.
  2:{ split; [done|]. split; [eauto|]. split; [lia|]. split; [done|].
      exists []. by rewrite app_nil_r. }
  destruct (Z.gtb_spec (ImmGetCompositionStringW_size (events w) kind) 0) as [Hsize|Hsize];
    simpl.
  - destruct (g_utf16_to_utf8 (events w) kind) eqn:Hconv; simpl;
      destruct want_pos; simpl;
      repeat match goal with
      | |- context [(?p <? ?q)] => destruct (Z.ltb_spec p q); simpl
      end;
      (split; [done|]); (split; [eauto|]); (split; [lia|]);
      (split; [intros [?|[?|[?|?]]]; first [done | lia]|]);
      rewrite <- ?app_assoc; simpl;
      eexists; (split; [reflexivity|]);
      repeat (apply List.Forall_cons; [first [by left | right; by eexists]|]);
      apply List.Forall_nil.
  - destruct want_pos; simpl;
      repeat match goal with
      | |- context [(?p <? ?q)] => destruct (Z.ltb_spec p q); simpl
      end;
      (split; [done|]); (split; [eauto|]); (split; [lia|]);
      (split; [done|]);
      rewrite <- ?app_assoc; simpl;
      eexists; (split; [reflexivity|]);
      repeat (apply List.Forall_cons; [first [by left | right; by eexists]|]);
      apply List.Forall_nil.
Qed.


(** X28.  What [gtk_im_context_ime_focus_out] leaves behind, when no signal
    handler calls back into the context.  Without a client surface it
    does nothing.  With one, the context is left without
    focus, not preediting and not opened, with [pretend_empty_preedit]
    clear if it was clear; so the key filter then refuses every event.
    The signals emitted are: for a context that was preediting and commits
    on focus change, preedit-changed, preedit-end, commit with the
    composition string, preedit-start, preedit-changed and then
    preedit-changed, preedit-end; for any other context that was
    preediting, preedit-changed, preedit-end; otherwise none. *)
Theorem focus_out_leaves_context_idle `{GLibUnicode} (w : World) :
  let w' := snd (gtk_im_context_ime_focus_out w) in
  (client_surface (key (ctx w)) = None -> gtk_im_context_ime_focus_out w = (tt, w))
  /\ (client_surface (key (ctx w)) <> None ->
      focus (key (ctx w')) = false
      /\ preediting (ctx w') = false
      /\ opened (ctx w') = false
      /\ client_surface (key (ctx w')) = client_surface (key (ctx w))
      /\ dead_key_keyval (key (ctx w')) = dead_key_keyval (key (ctx w))
      /\ (pretend_empty_preedit (ctx w) = false -> pretend_empty_preedit (ctx w') = false)
      /\ (forall event,
            gtk_im_context_ime_filter_keypress (key (ctx w')) event
            = (false, key (ctx w'), []))
      /\ exists extra,
           let utf8 :=
             default [] (fst (fst (get_utf8_preedit_string GCS_COMPSTR false w))) in
           events w' = events w ++ extra
           /\ signals extra
              = (if preediting (ctx w) then
                   match focus_behavior (ctx w) with
                   | GTK_WIN32_IME_FOCUS_BEHAVIOR_COMMIT =>
                     [preedit_changed; preedit_end; commit utf8; preedit_start;
                      preedit_changed; preedit_changed; preedit_end]
                   | _ => [preedit_changed; preedit_end]
                   end
                 else [])).
Proof.
  intros w'. subst w'. split.
  - intros Hnone. unfold gtk_im_context_ime_focus_out. im_unfold. by rewrite Hnone.
  - intros Hsome.
    assert (forall c : GtkIMContextIME, focus c = false ->
              forall event,
                gtk_im_context_ime_filter_keypress c event = (false, c, [])) as Hrefuse.
    { intros c Hfocus [event|]; [|done].
      unfold gtk_im_context_ime_filter_keypress.
      destruct (event_type event); [|done]. cbv zeta.
      destruct (negb (_ =? 0)); [done|]. by rewrite Hfocus. }
    unfold gtk_im_context_ime_focus_out, focus_out_end, commit_bracketed,
      gtk_im_context_ime_reset, get_utf8_preedit_string.
    im_unfold. simpl.
    destruct (client_surface (key (ctx w))) as [surface|] eqn:Hclient; [|done].
    simpl.
    destruct (focus_behavior (ctx w)) eqn:Hbehavior;
      destruct (preediting (ctx w)) eqn:Hpre; simpl;
      repeat first
        [ progress (rewrite Hclient; simpl)
        | match goal with
          | |- context [ImmGetContext ?h] => destruct (ImmGetContext h) eqn:?; simpl
          | |- context [?p >? 0] => destruct (p >? 0) eqn:?; simpl
          | |- context [g_utf16_to_utf8 ?h ?k] =>
            destruct (g_utf16_to_utf8 h k) eqn:?; simpl
          end ];
      (split; [done|]); (split; [done|]); (split; [done|]); (split; [done|]);
      (split; [done|]); (split; [done|]);
      (split; [by apply Hrefuse|]);
      rewrite <- ?app_assoc; simpl;
      eexists; (split; [reflexivity|]); reflexivity.
Qed.


Lemma get_window_position_origin (parents : list positive) (x y : Z) :
  get_window_position parents x y = (x, y).
Proof. by induction parents. Qed.

(** X29.  [gtk_im_context_ime_set_cursor_location] places the composition
    window at the cursor location itself: the window position added to it
    is always (0, 0), whatever the chain of popup parents.  With an area
    the location is stored first, also when there is no client surface or
    no input context; nothing else of the context changes and no signal
    is emitted. *)
Theorem cursor_location_places_window (area : option GdkRectangle.t) (w : World) :
  let w' := snd (gtk_im_context_ime_set_cursor_location area w) in
  let location := default (cursor_location (ctx w)) area in
  ctx w' = match area with
           | Some a => set_cursor_location a (ctx w)
           | None => ctx w
           end
  /\ cursor_location (ctx w') = location
  /\ events w'
     = events w ++
       (if bool_decide (client_surface (key (ctx w)) = None)
           || negb (ImmGetContext (events w))
        then []
        else [ImmSetCompositionWindow (GdkRectangle.x location) (GdkRectangle.y location);
              ImmReleaseContext]).
Proof.
  unfold gtk_im_context_ime_set_cursor_location. im_unfold.
  destruct area as [a|]; simpl;
    destruct (client_surface (key (ctx w))) as [surface|]; simpl;
    rewrite ?app_nil_r; try done;
    destruct (ImmGetContext (events w)); simpl; rewrite ?app_nil_r; try done;
    rewrite get_window_position_origin; simpl; by rewrite <- app_assoc.
Qed.

(** X30.  [gtk_im_context_ime_message_filter].  A context without focus, a
    message for another window, or a window without input context: the
    filter returns CONTINUE, stores nothing in [*ret_valp] and does
    nothing.  Otherwise it stores 0 in [*ret_valp], releases the input
    context last, and never touches the focus, the client surface, the
    dead key, [use_preedit] or the focus behaviour.  The message is
    removed (value 1) exactly when it is one of the three composition
    messages and preedit is in use, or it carries a result string; with
    a result string a commit is always emitted, between preedit-changed,
    preedit-end and preedit-start, preedit-changed.  Only
    WM_IME_STARTCOMPOSITION and WM_IME_ENDCOMPOSITION change [preediting]. *)
Theorem message_filter_effects (msg : MSG) (w : World) :
  let r := gtk_im_context_ime_message_filter msg w in
  let w' := snd r in
  (focus (key (ctx w)) = false
   \/ gdk_win32_surface_get_impl_hwnd (client_surface (key (ctx w))) <> hwnd msg
   \/ ImmGetContext (events w) = false ->
   r = ((GDK_WIN32_MESSAGE_FILTER_CONTINUE, None), w))
  /\ (focus (key (ctx w)) = true ->
      gdk_win32_surface_get_impl_hwnd (client_surface (key (ctx w))) = hwnd msg ->
      ImmGetContext (events w) = true ->
      snd (fst r) = Some 0
      /\ key (ctx w') = key (ctx w)
      /\ use_preedit (ctx w') = use_preedit (ctx w)
      /\ focus_behavior (ctx w') = focus_behavior (ctx w)
      /\ cursor_location (ctx w') = cursor_location (ctx w)
      /\ (pretend_empty_preedit (ctx w) = false -> pretend_empty_preedit (ctx w') = false)
      /\ preediting (ctx w')
         = (if message msg =? WM_IME_STARTCOMPOSITION then true
            else if message msg =? WM_IME_ENDCOMPOSITION then false
            else preediting (ctx w))
      /\ fst (fst r)
         = (if (is_composition_message msg && use_preedit (ctx w)) || has_result msg
            then 1 else 0)
      /\ exists extra utf8,
           events w' = events w ++ extra
           /\ last extra = Some ImmReleaseContext
           /\ signals extra
              = if message msg =? WM_IME_COMPOSITION then
                  (if negb (Z.land (lParam msg) GCS_COMPSTR =? 0)
                   then [preedit_changed] else [])
                  ++ (if negb (Z.land (lParam msg) GCS_RESULTSTR =? 0)
                      then [preedit_changed; preedit_end; commit utf8; preedit_start;
                            preedit_changed]
                      else [])
                else if message msg =? WM_IME_STARTCOMPOSITION then [preedit_start]
                else if message msg =? WM_IME_ENDCOMPOSITION
                then [preedit_changed; preedit_end]
                else []).
Proof.
  intros r w'. subst r w'. split.
  - unfold gtk_im_context_ime_message_filter. im_unfold.
    intros [Hfocus | [Hhwnd | Himc]].
    + by rewrite Hfocus.
    + destruct (focus (key (ctx w))); [|done]. simpl.
      by destruct (Z.eqb_spec
                     (gdk_win32_surface_get_impl_hwnd (client_surface (key (ctx w))))
                     (hwnd msg)).
    + destruct (focus (key (ctx w))); [|done]. simpl.
      destruct (negb (_ =? hwnd msg)); [done|]. cbv beta. by rewrite Himc.
  - intros Hfocus Hhwnd Himc.
    unfold gtk_im_context_ime_message_filter, is_composition_message, has_result.
    im_unfold. rewrite Hfocus, Hhwnd, Z.eqb_refl. cbn [negb]. rewrite Himc. cbn [negb].
    destruct (message msg =? WM_IME_COMPOSITION) eqn:Hcomp.
    { apply Z.eqb_eq in Hcomp. rewrite Hcomp.
      replace (WM_IME_COMPOSITION =? WM_IME_STARTCOMPOSITION) with false by done.
      replace (WM_IME_COMPOSITION =? WM_IME_ENDCOMPOSITION) with false by done.
      unfold commit_bracketed, get_utf8_preedit_string. im_unfold.
      destruct (client_surface (key (ctx w))) as [surface|] eqn:Hclient;
        rewrite ?get_window_position_origin; simpl;
      destruct (Z.land (lParam msg) GCS_COMPSTR =? 0);
        destruct (Z.land (lParam msg) GCS_RESULTSTR =? 0); simpl;
        repeat match goal with
        | |- context [client_surface (key (ctx w))] => rewrite Hclient; simpl
        | |- context [ImmGetContext ?h] => destruct (ImmGetContext h) eqn:?; simpl
        | |- context [?p >? 0] => destruct (p >? 0) eqn:?; simpl
        | |- context [g_utf16_to_utf8 ?h ?k] =>
          destruct (g_utf16_to_utf8 h k) eqn:?; simpl
        end;
        destruct (use_preedit (ctx w)) eqn:Huse; simpl;
        (split; [done|]); (split; [done|]); (split; [done|]); (split; [done|]);
        (split; [done|]); (split; [done|]); (split; [done|]); (split; [done|]);
        rewrite <- ?app_assoc; simpl;
        eexists _, _; (split; [reflexivity|]); (split; [reflexivity|]); reflexivity. }
    destruct (message msg =? WM_IME_STARTCOMPOSITION) eqn:Hstart.
    { unfold gtk_im_context_ime_set_cursor_location. im_unfold. simpl.
      destruct (client_surface (key (ctx w))) as [surface|] eqn:Hclient; simpl;
        rewrite ?Himc; simpl;
        rewrite ?get_window_position_origin; simpl;
        destruct (use_preedit (ctx w)) eqn:Huse; simpl;
        (split; [done|]); (split; [done|]); (split; [done|]); (split; [done|]);
        (split; [done|]); (split; [done|]); (split; [done|]); (split; [done|]);
        rewrite <- ?app_assoc; simpl;
        eexists _, _; (split; [reflexivity|]); (split; [reflexivity|]); reflexivity. }
    destruct (message msg =? WM_IME_ENDCOMPOSITION) eqn:Hend.
    { simpl. destruct (use_preedit (ctx w)) eqn:Huse; simpl;
        (split; [done|]); (split; [done|]); (split; [done|]); (split; [done|]);
        (split; [done|]); (split; [done|]); (split; [done|]); (split; [done|]);
        rewrite <- ?app_assoc; simpl;
        eexists _, _; (split; [reflexivity|]); (split; [reflexivity|]); reflexivity. }
    simpl.
    destruct (message msg =? WM_IME_NOTIFY); simpl;
      [destruct (wParam msg =? IMN_SETOPENSTATUS); simpl|];
      (split; [done|]); (split; [by destruct (ctx w)|]); (split; [done|]);
      (split; [done|]); (split; [done|]); (split; [done|]); (split; [done|]);
      (split; [done|]);
      rewrite <- ?app_assoc; simpl.
    all: eexists _, _; (split; [reflexivity|]); (split; [reflexivity|]); reflexivity.
  Unshelve. all: exact [].
Qed.

End WithImm.

(** *** Runs with an input method that holds the strings "ab" and "c" *)
Section Runs.
#[local] Existing Instance fixed_imm.
#[local] Existing Instance glib_unicode_instance.

Lemma preedit_string_never_null_witness :
  client_surface (key (ctx (session_of gtk_im_context_ime_init))) = None
  /\ fst (get_utf8_preedit_string GCS_COMPSTR true (session_of gtk_im_context_ime_init))
     = (Some [], 0).
Proof.
  split; [reflexivity|].
  destruct (preedit_string_never_null GCS_COMPSTR true
              (session_of gtk_im_context_ime_init)) as (_ & _ & _ & Hempty & _).
  apply Hempty. left. reflexivity.
Defined.

Lemma focus_out_leaves_context_idle_witness :
  let w := session_of (focused_context GTK_WIN32_IME_FOCUS_BEHAVIOR_COMMIT true) in
  let w' := snd (gtk_im_context_ime_focus_out w) in
  client_surface (key (ctx w)) = Some 1%positive
  /\ focus (key (ctx w')) = false
  /\ preediting (ctx w') = false
  /\ opened (ctx w') = false
  /\ gtk_im_context_ime_filter_keypress (key (ctx w')) (Some (press 0x61))
     = (false, key (ctx w'), []).
Proof.
  intros w w'. split; [reflexivity|].
  destruct (focus_out_leaves_context_idle w) as [_ Hout].
  destruct (Hout ltac:(discriminate)) as (Hf & Hp & Ho & _ & _ & _ & Hkey & _).
  split; [exact Hf|]. split; [exact Hp|]. split; [exact Ho|]. apply Hkey.
Defined.

Lemma message_filter_effects_witness :
  let w := session_of (focused_context GTK_WIN32_IME_FOCUS_BEHAVIOR_COMMIT true) in
  let msg := message_for_client WM_IME_COMPOSITION GCS_RESULTSTR in
  focus (key (ctx w)) = true
  /\ gdk_win32_surface_get_impl_hwnd (client_surface (key (ctx w))) = hwnd msg
  /\ ImmGetContext (events w) = true
  /\ fst (gtk_im_context_ime_message_filter msg w) = (1, Some 0)
  /\ preediting (ctx (snd (gtk_im_context_ime_message_filter msg w))) = true.
Proof.
  intros w msg.
  split; [reflexivity|]. split; [reflexivity|]. split; [reflexivity|].
  destruct (message_filter_effects msg w) as [_ Hpass].
  destruct (Hpass eq_refl eq_refl eq_refl)
    as (Hret & _ & _ & _ & _ & _ & Hpre & Hval & _).
  split; [|exact Hpre].
  destruct (gtk_im_context_ime_message_filter msg w) as [[retval ret_valp] w'].
  simpl in Hret, Hval. rewrite Hret, Hval. reflexivity.
Defined.

(** Losing the focus in the middle of the composition of "ab", for each
    focus behaviour. *)
Example focus_out_run :
  let out behavior :=
    events (snd (gtk_im_context_ime_focus_out
                   (session_of (focused_context behavior true)))) in
  out GTK_WIN32_IME_FOCUS_BEHAVIOR_COMMIT
  = [ImmReleaseContext; preedit_changed; preedit_end; commit [0x61; 0x62];
     preedit_start; preedit_changed; ImmNotifyIME_CPS_CANCEL; ImmReleaseContext;
     gdk_win32_display_remove_filter;
     g_warning "gtk_im_context_ime_focus_out(): cannot find toplevel window.";
     preedit_changed; preedit_end]
  /\ out GTK_WIN32_IME_FOCUS_BEHAVIOR_DISCARD
     = [ImmNotifyIME_CPS_CANCEL; ImmReleaseContext; gdk_win32_display_remove_filter;
        g_warning "gtk_im_context_ime_focus_out(): cannot find toplevel window.";
        preedit_changed; preedit_end]
  /\ out GTK_WIN32_IME_FOCUS_BEHAVIOR_FOLLOW
     = [gdk_win32_display_remove_filter;
        g_warning "gtk_im_context_ime_focus_out(): cannot find toplevel window.";
        preedit_changed; preedit_end].
Proof. repeat split; vm_compute; reflexivity. Qed.

(** The cursor rectangle (10, 20, 1, 16) of the focused context, and a new
    one. *)
Example cursor_location_run :
  let w := session_of (focused_context GTK_WIN32_IME_FOCUS_BEHAVIOR_COMMIT false) in
  let area := {| GdkRectangle.x := 3; GdkRectangle.y := 4;
                 GdkRectangle.width := 1; GdkRectangle.height := 12 |} in
  events (snd (gtk_im_context_ime_set_cursor_location None w))
  = [ImmSetCompositionWindow 10 20; ImmReleaseContext]
  /\ events (snd (gtk_im_context_ime_set_cursor_location (Some area) w))
     = [ImmSetCompositionWindow 3 4; ImmReleaseContext].
Proof. split; vm_compute; reflexivity. Qed.

(** A composition from its start to the result string "c", as the message
    filter sees it. *)
Example message_filter_run :
  let w0 := session_of (focused_context GTK_WIN32_IME_FOCUS_BEHAVIOR_COMMIT false) in
  let r1 := gtk_im_context_ime_message_filter
              (message_for_client WM_IME_STARTCOMPOSITION 0) w0 in
  let r2 := gtk_im_context_ime_message_filter
              (message_for_client WM_IME_COMPOSITION GCS_COMPSTR) (snd r1) in
  let r3 := gtk_im_context_ime_message_filter
              (message_for_client WM_IME_COMPOSITION GCS_RESULTSTR) (snd r2) in
  let r4 := gtk_im_context_ime_message_filter
              (message_for_client WM_IME_ENDCOMPOSITION 0) (snd r3) in
  (fst r1, fst r2, fst r3, fst r4) = ((1, Some 0), (1, Some 0), (1, Some 0), (1, Some 0))
  /\ signals (events (snd r4))
     = [preedit_start; preedit_changed; preedit_changed; preedit_end; commit [0x63];
        preedit_start; preedit_changed; preedit_changed; preedit_end]
  /\ preediting (ctx (snd r4)) = false
  /\ fst (gtk_im_context_ime_message_filter
            {| hwnd := 8; message := WM_IME_COMPOSITION; wParam := 0;
               lParam := GCS_RESULTSTR |} w0)
     = (0, None).
Proof. repeat split; vm_compute; reflexivity. Qed.

End Runs.
End ImeSessionSpec.
